(** * Decoricks Finance Tracker: persistence and reconciliation core

    A shallow embedding of the storage layer ([utils/storage.ts]), the
    notification log ([utils/notifications.ts]), the auto-download scheduler
    ([utils/autoDownload.ts]), the usage tracker ([utils/liveTracking.ts]) and
    the import path ([components/ExportImport.tsx], [App.tsx]).

    The browser is modelled by a state-and-exception monad over a [World]
    record: the items of [localStorage] and [sessionStorage], the React state
    of [App], and a trace of the observable side effects (writes, console
    output, alerts, downloads).

    Conventions of the model:
    - values are JavaScript values ([value]); the ledger is handled as one,
      because the program itself guards against missing and ill-typed fields;
    - a stored string is an [item]: the program never looks at its
      characters, only at its emptiness and at what [JSON.parse] makes of it;
    - the items of the notification log, the auto-download settings and the
      usage record hold values of their TypeScript types, as the program
      assumes when it casts what it parses;
    - a write fails when the browser rejects its key ([rejects]), which is
      how a full quota shows;
    - the clock does not advance during one synchronous call: each function
      that reads it takes the reading as [now]. *)

From Stdlib Require Import ZArith Lia Ascii.
From stdpp Require Import base strings pretty list gmap.

Local Open Scope Z_scope.
Local Open Scope string_scope.

(** ** JavaScript values *)

(** A JavaScript [number].  The finite ones are represented by integers
    (whole amounts, counts, milliseconds); nothing below computes with
    fractions.  The three non-finite values are kept because JSON cannot
    represent them. *)
Inductive number : Type :=
| Fin (z : Z)
| NaN
| PosInfinity
| NegInfinity.

#[warnings="-register-all"]
Inductive value : Type :=
| VUndefined
| VNull
| VBool (b : bool)
| VNum (n : number)
| VStr (s : string)
| VArr (items : list value)
| VObj (fields : list (string * value)).

Inductive exn : Type :=
| SyntaxError          (* JSON.parse on a text that is not JSON *)
| TypeError            (* property access on null or undefined *)
| QuotaExceededError.  (* Storage.setItem when the quota is exhausted *)

Inductive result (A : Type) : Type :=
| Ok (a : A)
| Throw (e : exn).
Arguments Ok {A} a.
Arguments Throw {A} e.

(** ToBoolean. *)
Definition truthy (v : value) : bool :=
  match v with
  | VUndefined | VNull => false
  | VBool b => b
  | VNum (Fin z) => negb (z =? 0)%Z
  | VNum NaN => false
  | VNum _ => true
  | VStr s => negb (String.eqb s EmptyString)
  | VArr _ | VObj _ => true
  end.

(** [a || b] *)
Definition or_else (a b : value) : value := if truthy a then a else b.

Definition isArray (v : value) : bool :=
  match v with VArr _ => true | _ => false end.

Fixpoint lookup_field (k : string) (fs : list (string * value)) : option value :=
  match fs with
  | [] => None
  | (k', v) :: fs' => if String.eqb k k' then Some v else lookup_field k fs'
  end.

(** [v.k] for a property name [k] that no prototype defines (the program only
    reads [transactions] and [categories] this way): the own property of an
    object, [undefined] on any other value. *)
Definition field (v : value) (k : string) : value :=
  match v with
  | VObj fs => default VUndefined (lookup_field k fs)
  | _ => VUndefined
  end.

Definition nullish (v : value) : bool :=
  match v with VUndefined | VNull => true | _ => false end.

(** [v.k] as evaluated: reading a property of [null] or [undefined] throws. *)
Definition member (v : value) (k : string) : result value :=
  match v with
  | VUndefined | VNull => Throw TypeError
  | _ => Ok (field v k)
  end.

(** [obj[k] = v] on the property list of an object: an existing key keeps its
    place, a new key goes last. *)
Fixpoint set_field (k : string) (v : value) (fs : list (string * value))
  : list (string * value) :=
  match fs with
  | [] => [(k, v)]
  | (k', v') :: fs' =>
      if String.eqb k k' then (k, v) :: fs' else (k', v') :: set_field k v fs'
  end.

(** The own enumerable properties copied by the spread [{...v}]. *)
Definition spread (v : value) : list (string * value) :=
  match v with
  | VObj fs => fs
  | VArr l => imap (fun i x => (pretty i, x)) l
  | VStr s => imap (fun i c => (pretty i, VStr (String c EmptyString))) (String.list_ascii_of_string s)
  | _ => []
  end.

(** [{...v, k1: v1, ..., kn: vn}] *)
Definition spread_with (v : value) (extra : list (string * value)) : value :=
  VObj (fold_left (fun fs kv => set_field kv.1 kv.2 fs) extra (spread v)).

(** ** JSON *)

(** What [JSON.parse (JSON.stringify v)] makes of [v]: non-finite numbers
    become [null], [undefined] becomes [null] inside an array and drops the
    property inside an object. *)
Fixpoint jsonify (v : value) : value :=
  match v with
  | VUndefined => VNull
  | VNum (Fin z) => VNum (Fin z)
  | VNum _ => VNull
  | VArr l => VArr (map jsonify l)
  | VObj fs =>
      VObj ((fix go (fs : list (string * value)) : list (string * value) :=
               match fs with
               | [] => []
               | (k, VUndefined) :: fs' => go fs'
               | (k, x) :: fs' => (k, jsonify x) :: go fs'
               end) fs)
  | _ => v
  end.

(** The values JSON represents exactly. *)
Fixpoint is_json (v : value) : bool :=
  match v with
  | VUndefined => false
  | VNum (Fin _) => true
  | VNum _ => false
  | VArr l => forallb is_json l
  | VObj fs => forallb (fun kv => is_json kv.2) fs
  | _ => true
  end.

(** A stored string, seen through the observations that the program makes
    of one: whether it is empty and what [JSON.parse] reads from it.
    [Garbled s] is a string [s] that [JSON.parse] rejects (the empty string
    is one); [Encoded a] is a text that [JSON.stringify] writes for [a],
    whatever its white space, so that [JSON.parse] reads [jsonify a] from
    it.  Items that are only ever written from one TypeScript type carry
    that type; the ledger items carry a [value]. *)
Inductive item (A : Type) : Type :=
| Garbled (s : string)
| Encoded (a : A).
Arguments Garbled {A} s.
Arguments Encoded {A} a.

Abbreviation text := (item value).

(** Truthiness of a [string | null], as in [if (stored)]. *)
Definition present {A} (stored : option (item A)) : bool :=
  match stored with
  | None => false
  | Some (Garbled s) => negb (String.eqb s EmptyString)
  | Some (Encoded _) => true
  end.

(** [JSON.stringify(v)], also with an indent argument.  On [undefined] it
    returns [undefined], which a storage write turns into that word. *)
Definition JSON_stringify (v : value) : text :=
  match v with
  | VUndefined => Garbled "undefined"
  | _ => Encoded v
  end.

Definition parse_text (t : text) : result value :=
  match t with
  | Garbled _ => Throw SyntaxError
  | Encoded v => Ok (jsonify v)
  end.

(** [JSON.parse(stored)] where [stored : string | null]; [null] is read as
    the text [null]. *)
Definition parse_item (stored : option text) : result value :=
  match stored with
  | None => Ok VNull
  | Some t => parse_text t
  end.

(** [JSON.parse(stored) as T] for an item of a typed record; every call is
    guarded by [if (stored)], so the case of [null] is never reached. *)
Definition parse_as {A} (stored : option (item A)) : result A :=
  match stored with
  | Some (Encoded a) => Ok a
  | _ => Throw SyntaxError
  end.

(** ** The data model *)

Inductive TransactionType : Type := income | expense.
Inductive Currency : Type := PKR | USD.

Module Transaction.
(** Modelled from the spec: the interface [Transaction] of [types.ts],
    which is not among the sources; its fields are those of the
    specification's data model. *)
Record t : Type := mk {
  id : string;
  type : TransactionType;
  amount : number;
  currency : Currency;
  category : string;
  description : string;
  date : string }.
End Transaction.

Module Category.
(** Modelled from the spec: the interface [Category] of [types.ts]. *)
Record t : Type := mk {
  name : string;
  type : TransactionType }.
End Category.

Module AppData.
(** Modelled from the spec: the interface [AppData] of [types.ts]. *)
Record t : Type := mk {
  transactions : list Transaction.t;
  categories : list Category.t }.
End AppData.

Inductive NotificationType : Type := success | info | warning | reminder.

Module AppNotification.
Record t : Type := mk {
  id : string;
  title : string;
  message : string;
  type : NotificationType;
  timestamp : string;
  read : bool }.
End AppNotification.

Module NotificationSettings.
Record t : Type := mk {
  weeklyReminders : bool;
  monthlyReminders : bool;
  transactionNotifications : bool }.
End NotificationSettings.

Inductive ExportFormat : Type := json | csv.

Module AutoDownloadSettings.
Record t : Type := mk {
  enabled : bool;
  lastDownload : string;
  downloadInterval : Z;   (* in milliseconds *)
  format : ExportFormat }.
End AutoDownloadSettings.

(** The numbers of the usage record are counts, modelled as integers.  The
    program's numbers are doubles: their [+ 1] is exact from -2^53 up to
    2^53 - 1 and stops counting at 2^53, so the statements about arbitrary
    records carry that bound. *)
Module LiveTrackingData.
Record t : Type := mk {
  sessionStart : string;
  totalSessions : Z;
  transactionsAdded : Z;
  transactionsEdited : Z;
  transactionsDeleted : Z;
  exportsPerformed : Z;
  importsPerformed : Z;
  lastActivity : string;
  dailyUsage : gmap string Z }.
End LiveTrackingData.

(** The objects that the typed ledger denotes at run time. *)
Definition type_name (ty : TransactionType) : string :=
  match ty with income => "income" | expense => "expense" end.

Definition currency_name (c : Currency) : string :=
  match c with PKR => "PKR" | USD => "USD" end.

Definition value_of_type (ty : TransactionType) : value := VStr (type_name ty).

Definition value_of_currency (c : Currency) : value := VStr (currency_name c).

Definition value_of_Transaction (x : Transaction.t) : value :=
  VObj [("id", VStr (Transaction.id x));
        ("type", value_of_type (Transaction.type x));
        ("amount", VNum (Transaction.amount x));
        ("currency", value_of_currency (Transaction.currency x));
        ("category", VStr (Transaction.category x));
        ("description", VStr (Transaction.description x));
        ("date", VStr (Transaction.date x))].

Definition value_of_Category (c : Category.t) : value :=
  VObj [("name", VStr (Category.name c));
        ("type", value_of_type (Category.type c))].

Definition value_of_categories (cs : list Category.t) : value :=
  VArr (map value_of_Category cs).

Definition value_of_AppData (d : AppData.t) : value :=
  VObj [("transactions", VArr (map value_of_Transaction (AppData.transactions d)));
        ("categories", value_of_categories (AppData.categories d))].

(** ** The browser *)

(** The storage keys.  [SESSION_KEY] lives in [sessionStorage], the others in
    [localStorage]; the index is the type of what the item encodes. *)
Inductive key : Type -> Type :=
| STORAGE_KEY : key value
| BACKUP_KEY : key value
| SESSION_KEY : key value
| META_KEY : key value
| NOTIFICATIONS_KEY : key (list AppNotification.t)
| AUTO_DOWNLOAD_KEY : key AutoDownloadSettings.t
| LIVE_TRACKING_KEY : key LiveTrackingData.t.

Definition key_name {A} (k : key A) : string :=
  match k with
  | STORAGE_KEY => "decoricks-finance-data"
  | BACKUP_KEY => "decoricks-finance-backup"
  | SESSION_KEY => "decoricks-finance-session"
  | META_KEY => "decoricks-finance-meta"
  | NOTIFICATIONS_KEY => "decoricks-notifications"
  | AUTO_DOWNLOAD_KEY => "decoricks-auto-download-settings"
  | LIVE_TRACKING_KEY => "decoricks-live-tracking"
  end.

Record Storage : Type := mkStorage {
  finance_data : option text;
  finance_backup : option text;
  finance_session : option text;
  finance_meta : option text;
  notifications : option (item (list AppNotification.t));
  auto_download_settings : option (item AutoDownloadSettings.t);
  live_tracking : option (item LiveTrackingData.t) }.

Definition read {A} (k : key A) (s : Storage) : option (item A) :=
  match k with
  | STORAGE_KEY => finance_data s
  | BACKUP_KEY => finance_backup s
  | SESSION_KEY => finance_session s
  | META_KEY => finance_meta s
  | NOTIFICATIONS_KEY => notifications s
  | AUTO_DOWNLOAD_KEY => auto_download_settings s
  | LIVE_TRACKING_KEY => live_tracking s
  end.

Definition write {A} (k : key A) : option (item A) -> Storage -> Storage :=
  match k with
  | STORAGE_KEY => fun x s =>
      mkStorage x (finance_backup s) (finance_session s) (finance_meta s)
                (notifications s) (auto_download_settings s) (live_tracking s)
  | BACKUP_KEY => fun x s =>
      mkStorage (finance_data s) x (finance_session s) (finance_meta s)
                (notifications s) (auto_download_settings s) (live_tracking s)
  | SESSION_KEY => fun x s =>
      mkStorage (finance_data s) (finance_backup s) x (finance_meta s)
                (notifications s) (auto_download_settings s) (live_tracking s)
  | META_KEY => fun x s =>
      mkStorage (finance_data s) (finance_backup s) (finance_session s) x
                (notifications s) (auto_download_settings s) (live_tracking s)
  | NOTIFICATIONS_KEY => fun x s =>
      mkStorage (finance_data s) (finance_backup s) (finance_session s) (finance_meta s)
                x (auto_download_settings s) (live_tracking s)
  | AUTO_DOWNLOAD_KEY => fun x s =>
      mkStorage (finance_data s) (finance_backup s) (finance_session s) (finance_meta s)
                (notifications s) x (live_tracking s)
  | LIVE_TRACKING_KEY => fun x s =>
      mkStorage (finance_data s) (finance_backup s) (finance_session s) (finance_meta s)
                (notifications s) (auto_download_settings s) x
  end.

(** What the program does to the outside, in the order it does it. *)
Inductive event : Type :=
| SetItem (name : string) (accepted : bool)
| ConsoleError (msg : string)
| ConsoleWarn (msg : string)
| Alert (msg : string)
| Download (filename : string) (content : text)
| BrowserNotification (title body tag : string).

Record World : Type := mkWorld {
  storage : Storage;
  rejects : string -> bool;     (* the keys whose setItem exceeds the quota *)
  permission_granted : bool;    (* Notification.permission === 'granted' *)
  data : value;                 (* React state of App: the ledger *)
  notificationSettings : NotificationSettings.t;   (* React state of App *)
  trace : list event }.

Definition with_storage (f : Storage -> Storage) (w : World) : World :=
  mkWorld (f (storage w)) (rejects w) (permission_granted w) (data w)
          (notificationSettings w) (trace w).

Definition with_data (d : value) (w : World) : World :=
  mkWorld (storage w) (rejects w) (permission_granted w) d
          (notificationSettings w) (trace w).

Definition emit (e : event) (w : World) : World :=
  mkWorld (storage w) (rejects w) (permission_granted w) (data w)
          (notificationSettings w) (trace w ++ [e]).

(** ** Statements: state and exceptions *)

Definition M (A : Type) : Type := World -> result A * World.

Definition ret {A} (a : A) : M A := fun w => (Ok a, w).

Definition bind {A B} (m : M A) (k : A -> M B) : M B :=
  fun w => match m w with
           | (Ok a, w') => k a w'
           | (Throw e, w') => (Throw e, w')
           end.

(** [try { m } catch (error) { h error }] *)
Definition try_catch {A} (m : M A) (h : exn -> M A) : M A :=
  fun w => match m w with
           | (Ok a, w') => (Ok a, w')
           | (Throw e, w') => h e w'
           end.

Definition lift {A} (r : result A) : M A := fun w => (r, w).

Declare Scope js_scope.
Delimit Scope js_scope with js.
Notation "x <- c1 ;; c2" := (bind c1 (fun x => c2))
  (at level 100, c1 at next level, right associativity) : js_scope.
Notation "c1 ;; c2" := (bind c1 (fun _ => c2))
  (at level 100, right associativity) : js_scope.
Local Open Scope js_scope.

Definition getItem {A} (k : key A) : M (option (item A)) :=
  fun w => (Ok (read k (storage w)), w).

Definition setItem {A} (k : key A) (x : item A) : M unit :=
  fun w =>
    if rejects w (key_name k)
    then (Throw QuotaExceededError, emit (SetItem (key_name k) false) w)
    else (Ok tt, emit (SetItem (key_name k) true) (with_storage (write k (Some x)) w)).

Definition console_error (msg : string) : M unit :=
  fun w => (Ok tt, emit (ConsoleError msg) w).

Definition console_warn (msg : string) : M unit :=
  fun w => (Ok tt, emit (ConsoleWarn msg) w).

Definition alert (msg : string) : M unit :=
  fun w => (Ok tt, emit (Alert msg) w).

Definition setData (d : value) : M unit :=
  fun w => (Ok tt, with_data d w).

(** [s.split('T')[0]] *)
Fixpoint before_T (s : string) : string :=
  match s with
  | EmptyString => EmptyString
  | String c s' => if Ascii.eqb c "T"%char then EmptyString else String c (before_T s')
  end.

(** [v.length]: the length of an array or a string, the own property of an
    object, [undefined] on a boolean or a number. *)
Definition length_prop (v : value) : result value :=
  match v with
  | VUndefined | VNull => Throw TypeError
  | VArr l => Ok (VNum (Fin (Z.of_nat (length l))))
  | VStr s => Ok (VNum (Fin (Z.of_nat (String.length s))))
  | VObj _ => Ok (field v "length")
  | _ => Ok VUndefined
  end.

(** One call [addNotification(title, message, type)], with the clock and the
    random suffix that it finds. *)
Module Append.
Record t : Type := mk {
  now : Z;
  random : string;
  title : string;
  message : string;
  type : NotificationType }.
End Append.

Module Activity.
Inductive t : Type := add | edit | delete | export | import.
End Activity.

(** [new Date().getTime() - d.getTime()]: [NaN] when [d] is an invalid date. *)
Definition time_diff (now : Z) (d : option Z) : option Z :=
  match d with
  | Some t => Some (now - t)
  | None => None
  end.

(** [timeDiff >= n] and [timeDiff > n]; a comparison with [NaN] is false. *)
Definition ge (timeDiff : option Z) (n : Z) : bool :=
  match timeDiff with
  | Some d => (n <=? d)%Z
  | None => false
  end.

Definition gt (timeDiff : option Z) (n : Z) : bool :=
  match timeDiff with
  | Some d => (n <? d)%Z
  | None => false
  end.

(** [!s] for a string. *)
Definition blank (s : string) : bool := String.eqb s EmptyString.

Definition WEEK_IN_MS : Z := 7 * 24 * 60 * 60 * 1000. (* 7 days in milliseconds *)


(** ** Arrays and iteration *)

Definition double_quote : string := String (ascii_of_nat 34) EmptyString.

Definition newline : string := String (ascii_of_nat 10) EmptyString.

(** The values of the iterable spread [[...v]]: the elements of an array,
    the characters of a string; any other value is not iterable. *)
Definition iterate (v : value) : result (list value) :=
  match v with
  | VArr l => Ok l
  | VStr s => Ok (map (fun c => VStr (String c EmptyString)) (String.list_ascii_of_string s))
  | _ => Throw TypeError
  end.

(** The callback applied from left to right; the first exception ends the
    traversal. *)
Fixpoint map_result {A B} (f : A -> result B) (l : list A) : result (list B) :=
  match l with
  | [] => Ok []
  | x :: l' =>
      match f x with
      | Ok y =>
          match map_result f l' with
          | Ok ys => Ok (y :: ys)
          | Throw e => Throw e
          end
      | Throw e => Throw e
      end
  end.

Fixpoint filter_result {A} (p : A -> result bool) (l : list A) : result (list A) :=
  match l with
  | [] => Ok []
  | x :: l' =>
      match p x with
      | Ok b =>
          match filter_result p l' with
          | Ok ys => Ok (if b then x :: ys else ys)
          | Throw e => Throw e
          end
      | Throw e => Throw e
      end
  end.

(** [v.map(f)] and [v.filter(p)]: only an array has the method. *)
Definition array_map (f : value -> result value) (v : value) : result value :=
  match v with
  | VArr l =>
      match map_result f l with
      | Ok l' => Ok (VArr l')
      | Throw e => Throw e
      end
  | _ => Throw TypeError
  end.

Definition array_filter (p : value -> result bool) (v : value) : result value :=
  match v with
  | VArr l =>
      match filter_result p l with
      | Ok l' => Ok (VArr l')
      | Throw e => Throw e
      end
  | _ => Throw TypeError
  end.

(** [v === s] for a string [s]. *)
Definition is_string (s : string) (v : value) : bool :=
  match v with
  | VStr s' => String.eqb s' s
  | _ => false
  end.

(** The tabs of [App] and the part of its React state that the transaction
    handlers read and set. *)
Module Tab.
Inductive t : Type := dashboard | add | transactions | settings.
End Tab.

Module UI.
Record t : Type := mk {
  editingTransaction : option Transaction.t;
  activeTab : Tab.t }.
End UI.

Definition format_name (f : ExportFormat) : string :=
  match f with json => "json" | csv => "csv" end.

(** [{ ...n, read: true }] *)
Definition marked_read (n : AppNotification.t) : AppNotification.t :=
  AppNotification.mk (AppNotification.id n) (AppNotification.title n)
    (AppNotification.message n) (AppNotification.type n)
    (AppNotification.timestamp n) true.

(** [{ ...settings, lastDownload }] *)
Definition with_lastDownload (lastDownload : string) (settings : AutoDownloadSettings.t)
  : AutoDownloadSettings.t :=
  AutoDownloadSettings.mk (AutoDownloadSettings.enabled settings) lastDownload
    (AutoDownloadSettings.downloadInterval settings) (AutoDownloadSettings.format settings).


(** ** Dates *)

(** The largest time value of a [Date], in milliseconds. *)
Definition MAX_TIME : Z := 8640000000000000.

(** [new Date(t)] for a number [t]: a time out of range, or [NaN], gives the
    invalid date. *)
Definition new_Date (t : option Z) : option Z :=
  match t with
  | Some t => if (Z.abs t <=? MAX_TIME)%Z then Some t else None
  | None => None
  end.

(** [a + b], [a - b], [a <= b], [a === b] and [a < b] on numbers that may
    be [NaN]. *)
Definition plus (a : option Z) (b : Z) : option Z :=
  match a with Some a => Some (a + b)%Z | None => None end.

Definition minus (a : option Z) (b : Z) : option Z :=
  match a with Some a => Some (a - b)%Z | None => None end.

Definition le (a : option Z) (b : Z) : bool :=
  match a with Some a => (a <=? b)%Z | None => false end.

Definition equals (a : option Z) (b : Z) : bool :=
  match a with Some a => (a =? b)%Z | None => false end.

Definition lt (a : option Z) (b : Z) : bool :=
  match a with Some a => (a <? b)%Z | None => false end.

(** [Math.ceil(a / b)] for a positive [b].  The quotient is a floating-point
    number; the program compares its ceiling with 1 and with 7 only, where
    the rounding of the quotient cannot change the outcome. *)
Definition ceil_div (a : option Z) (b : Z) : option Z :=
  match a with Some a => Some (- ((- a) / b))%Z | None => None end.


Section Program.

(** The platform and the constants that the sources import.  Within one
    synchronous call the clock reads [now] (milliseconds since the epoch). *)

(** The constant of [data/categories.ts], which is not among the sources. *)
Variable DEFAULT_CATEGORIES : list Category.t.
(** [new Date(ms).toISOString()] *)
Variable toISOString : Z -> string.
(** [new Date(s).getTime()]; [None] is the [NaN] of an invalid date. *)
Variable Date_parse : string -> option Z.
(** [n.toString(36)] *)
Variable toString36 : Z -> string.
(** [JSON.stringify(v).length] *)
Variable JSON_length : value -> Z.
(** The string that a template literal interpolates for a value. *)
Variable ToString : value -> string.

(** ** utils/storage.ts *)

(** [{ transactions: d.transactions || [], categories: d.categories || DEFAULT_CATEGORIES }] *)
Definition ledger_from (d : value) : M value :=
  transactions <- lift (member d "transactions") ;;
  categories <- lift (member d "categories") ;;
  ret (VObj [("transactions", or_else transactions (VArr []));
             ("categories", or_else categories (value_of_categories DEFAULT_CATEGORIES))]).

Definition empty_ledger : value :=
  VObj [("transactions", VArr []);
        ("categories", value_of_categories DEFAULT_CATEGORIES)].

(** The two [try] blocks of [loadData] yield [Some r] when they execute
    [return r] and [None] when control falls out of them. *)

(** The inner block: recovery from the backup. *)
Definition loadData_recover : M (option value) :=
  try_catch
    (backup <- getItem BACKUP_KEY ;;
     if present backup then
       backupData <- lift (parse_item backup) ;;
       r <- ledger_from backupData ;;
       ret (Some r)
     else ret None)
    (fun backupError =>
       console_error "Error loading backup data:" ;;
       ret None).

(** The outer block: primary, then backup, then session. *)
Definition loadData_try : M (option value) :=
  (* Try primary storage first *)
  stored <- getItem STORAGE_KEY ;;
  (* If primary storage is empty, try backup storage *)
  stored <- (if negb (present stored) then
               backup <- getItem BACKUP_KEY ;;
               if present backup then
                 backupData <- lift (parse_item backup) ;;
                 obj <- ledger_from backupData ;;
                 ret (Some (JSON_stringify obj))
               else ret stored
             else ret stored) ;;
  (* If still no data, try session storage *)
  stored <- (if negb (present stored) then getItem SESSION_KEY else ret stored) ;;
  if present stored then
    data <- lift (parse_item stored) ;;
    r <- ledger_from data ;;
    ret (Some r)
  else ret None.

Definition loadData : M value :=
  returned <-
    try_catch loadData_try
      (fun error =>
         console_error "Error loading data:" ;;
         (* Try to recover from backup if main storage is corrupted *)
         loadData_recover) ;;
  match returned with
  | Some r => ret r
  | None => ret empty_ledger
  end.

(** [!data || !Array.isArray(data.transactions) || !Array.isArray(data.categories)] *)
Definition invalid (data : value) : M bool :=
  if negb (truthy data) then ret true
  else
    transactions <- lift (member data "transactions") ;;
    if negb (isArray transactions) then ret true
    else
      categories <- lift (member data "categories") ;;
      ret (negb (isArray categories)).

Definition saveData (now : Z) (data : value) : M unit :=
  try_catch
    ((* Validate data before saving *)
     bad <- invalid data ;;
     if bad : bool then console_error "Invalid data structure for saving"
     else
       (* Save to primary storage *)
       setItem STORAGE_KEY (JSON_stringify data) ;;
       (* Create backup with timestamp *)
       let backupData :=
         spread_with data [("lastBackup", VStr (toISOString now));
                           ("version", VStr "1.0");
                           ("dataIntegrity", VBool true)] in
       setItem BACKUP_KEY (JSON_stringify backupData) ;;
       (* Save to session storage as additional backup *)
       setItem SESSION_KEY (JSON_stringify data) ;;
       (* Additional persistence layer for critical data *)
       try_catch
         (transactions <- lift (member data "transactions") ;;
          transactionCount <- lift (length_prop transactions) ;;
          categories <- lift (member data "categories") ;;
          categoryCount <- lift (length_prop categories) ;;
          let criticalData :=
            VObj [("transactionCount", transactionCount);
                  ("categoryCount", categoryCount);
                  ("lastSaved", VStr (toISOString now));
                  ("checksum", VNum (Fin (JSON_length data)))] in
          setItem META_KEY (JSON_stringify criticalData))
         (fun metaError => console_warn "Could not save metadata:"))
    (fun error =>
       console_error "Error saving data:" ;;
       (* Try alternative storage methods if primary fails *)
       try_catch
         (setItem SESSION_KEY (JSON_stringify data) ;;
          alert "Data saved to session storage as backup. Please export your data for safety.")
         (fun sessionError =>
            console_error "Error saving to session storage:" ;;
            alert "Warning: Unable to save data. Please export your data as backup.")).

(** The link that [exportToJSON] clicks downloads [dataStr] under the name
    [exportFileDefaultName]. *)
Definition download (filename : string) (content : text) : M unit :=
  fun w => (Ok tt, emit (Download filename content) w).

Definition exportToJSON (now : Z) (data : value) : M unit :=
  let dataStr := JSON_stringify data in
  let exportFileDefaultName :=
    "decoricks-finance-" +:+ before_T (toISOString now) +:+ ".json" in
  download exportFileDefaultName dataStr.


(** ** utils/notifications.ts *)

Definition getNotifications : M (list AppNotification.t) :=
  returned <-
    try_catch
      (stored <- getItem NOTIFICATIONS_KEY ;;
       if present stored then
         parsed <- lift (parse_as stored) ;;
         ret (Some parsed)
       else ret None)
      (fun error =>
         console_error "Error loading notifications:" ;;
         ret None) ;;
  match returned with
  | Some parsed => ret parsed
  | None => ret []
  end.

Definition saveNotifications (notifications : list AppNotification.t) : M unit :=
  try_catch
    (setItem NOTIFICATIONS_KEY (Encoded notifications))
    (fun error => console_error "Error saving notifications:").

(** [new Notification(title, { body, icon, tag })] *)
Definition show_notification (title body tag : string) : M unit :=
  fun w => (Ok tt, emit (BrowserNotification title body tag) w).

Definition permission : M bool :=
  fun w => (Ok (permission_granted w), w).

(** [random] is [Math.random().toString(36).substr(2)]. *)
Definition addNotification (now : Z) (random : string)
    (title message : string) (type : NotificationType) : M unit :=
  notifications <- getNotifications ;;
  let newNotification :=
    AppNotification.mk (toString36 now +:+ random) title message type
                       (toISOString now) false in
  (* notifications.unshift(newNotification) *)
  let notifications := newNotification :: notifications in
  (* Keep only last 50 notifications *)
  let notifications :=
    if (50 <? length notifications)%nat
    then take 50 notifications   (* notifications.splice(50) *)
    else notifications in
  saveNotifications notifications ;;
  (* Show browser notification if permission granted *)
  granted <- permission ;;
  if granted : bool
  then show_notification title message (AppNotification.id newNotification)
  else ret tt.


(** ** utils/autoDownload.ts *)

Definition getAutoDownloadSettings : M AutoDownloadSettings.t :=
  returned <-
    try_catch
      (stored <- getItem AUTO_DOWNLOAD_KEY ;;
       if present stored then
         parsed <- lift (parse_as stored) ;;
         ret (Some parsed)
       else ret None)
      (fun error =>
         console_error "Error loading auto-download settings:" ;;
         ret None) ;;
  match returned with
  | Some parsed => ret parsed
  | None => ret (AutoDownloadSettings.mk true EmptyString WEEK_IN_MS json)
  end.

Definition shouldAutoDownload (now : Z) : M bool :=
  settings <- getAutoDownloadSettings ;;
  if negb (AutoDownloadSettings.enabled settings) then ret false
  else if blank (AutoDownloadSettings.lastDownload settings) then ret true
  else
    let lastDownload := Date_parse (AutoDownloadSettings.lastDownload settings) in
    let timeDiff := time_diff now lastDownload in
    ret (ge timeDiff (AutoDownloadSettings.downloadInterval settings)).

(** ** utils/liveTracking.ts *)

Definition getLiveTrackingData (now : Z) : M LiveTrackingData.t :=
  returned <-
    try_catch
      (stored <- getItem LIVE_TRACKING_KEY ;;
       if present stored then
         parsed <- lift (parse_as stored) ;;
         ret (Some parsed)
       else ret None)
      (fun error =>
         console_error "Error loading live tracking data:" ;;
         ret None) ;;
  match returned with
  | Some parsed => ret parsed
  | None =>
      ret (LiveTrackingData.mk (toISOString now) 1 0 0 0 0 0 (toISOString now) ∅)
  end.

Definition saveLiveTrackingData (data : LiveTrackingData.t) : M unit :=
  try_catch
    (setItem LIVE_TRACKING_KEY (Encoded data))
    (fun error => console_error "Error saving live tracking data:").

Definition trackActivity (now : Z) (activity : Activity.t) : M unit :=
  data <- getLiveTrackingData now ;;
  let today := before_T (toISOString now) in
  let '(LiveTrackingData.mk sessionStart totalSessions transactionsAdded
          transactionsEdited transactionsDeleted exportsPerformed
          importsPerformed lastActivity dailyUsage) := data in
  (* Update activity counters *)
  let transactionsAdded :=
    match activity with Activity.add => transactionsAdded + 1 | _ => transactionsAdded end in
  let transactionsEdited :=
    match activity with Activity.edit => transactionsEdited + 1 | _ => transactionsEdited end in
  let transactionsDeleted :=
    match activity with Activity.delete => transactionsDeleted + 1 | _ => transactionsDeleted end in
  let exportsPerformed :=
    match activity with Activity.export => exportsPerformed + 1 | _ => exportsPerformed end in
  let importsPerformed :=
    match activity with Activity.import => importsPerformed + 1 | _ => importsPerformed end in
  (* Update daily usage *)
  let dailyUsage := <[today := default 0 (dailyUsage !! today) + 1]> dailyUsage in
  let lastActivity := toISOString now in
  saveLiveTrackingData
    (LiveTrackingData.mk sessionStart totalSessions transactionsAdded
       transactionsEdited transactionsDeleted exportsPerformed
       importsPerformed lastActivity dailyUsage).

Definition initializeSession (now : Z) : M unit :=
  data <- getLiveTrackingData now ;;
  let '(LiveTrackingData.mk sessionStart totalSessions transactionsAdded
          transactionsEdited transactionsDeleted exportsPerformed
          importsPerformed lastActivity dailyUsage) := data in
  let now_ := toISOString now in
  (* Check if this is a new session (more than 30 minutes since last activity) *)
  let '(totalSessions, sessionStart) :=
    if negb (blank lastActivity) then
      let timeDiff := time_diff now (Date_parse lastActivity) in
      let thirtyMinutes := 30 * 60 * 1000 in
      if gt timeDiff thirtyMinutes
      then (totalSessions + 1, now_)
      else (totalSessions, sessionStart)
    else (totalSessions, sessionStart) in
  let lastActivity := now_ in
  saveLiveTrackingData
    (LiveTrackingData.mk sessionStart totalSessions transactionsAdded
       transactionsEdited transactionsDeleted exportsPerformed
       importsPerformed lastActivity dailyUsage).

(** ** App.tsx *)

Definition handleSaveData (now : Z) (newData : value) : M unit :=
  setData newData ;;
  saveData now newData ;;
  (* Force data persistence with multiple storage methods *)
  try_catch
    (setItem STORAGE_KEY (JSON_stringify newData) ;;
     setItem BACKUP_KEY
       (JSON_stringify (spread_with newData [("lastBackup", VStr (toISOString now))])) ;;
     setItem SESSION_KEY (JSON_stringify newData))
    (fun error => console_error "Error in data persistence:").

Definition transactionNotifications : M bool :=
  fun w => (Ok (NotificationSettings.transactionNotifications (notificationSettings w)), w).

(** [handleImport] of [App]; the refresh of the notification view that it
    defers by a timer reads the log and writes nothing. *)
Definition App_handleImport (now : Z) (random : string) (importedData : value) : M unit :=
  handleSaveData now importedData ;;
  (* Track activity *)
  trackActivity now Activity.import ;;
  enabled <- transactionNotifications ;;
  if enabled : bool then
    transactions <- lift (member importedData "transactions") ;;
    transactionCount <- lift (length_prop transactions) ;;
    categories <- lift (member importedData "categories") ;;
    categoryCount <- lift (length_prop categories) ;;
    addNotification now random "Data Imported"
      ("Backup restored: " +:+ ToString transactionCount +:+ " transactions and "
         +:+ ToString categoryCount +:+ " categories imported.")
      success
  else ret tt.

(** ** components/ExportImport.tsx *)

(** [handleImport] of [ExportImport]: [file] is the text of the selected
    file, [None] when the selection is empty; the body of [reader.onload]
    runs on that text. *)
Definition ExportImport_handleImport (onImport : value -> M unit)
    (file : option text) : M unit :=
  match file with
  | None => ret tt
  | Some content =>
      try_catch
        (importedData <- lift (parse_text content) ;;
         (* Validate the imported data structure *)
         transactions <- lift (member importedData "transactions") ;;
         valid <- (if truthy transactions then
                     categories <- lift (member importedData "categories") ;;
                     ret (truthy categories)
                   else ret false) ;;
         if valid : bool then onImport importedData
         else alert "Invalid file format. Please select a valid backup file.")
        (fun error => alert "Error importing data. Please check the file format.")
  end.

(** The import as the application wires it: [onImport={handleImport}]. *)
Definition import_file (now : Z) (random : string) (file : option text) : M unit :=
  ExportImport_handleImport (App_handleImport now random) file.


(** ** The remaining functions *)

(** [n.toLocaleString()] *)
Variable toLocaleString : number -> string.

(** The string that a template literal or [Array.prototype.join] takes for
    a value that is a string already: the string itself. *)
Definition to_string (v : value) : string :=
  match v with
  | VStr s => s
  | _ => ToString v
  end.

(** The conversion of an element by [Array.prototype.join]: [null] and
    [undefined] give the empty string. *)
Definition join_item (v : value) : string :=
  match v with
  | VUndefined | VNull => EmptyString
  | _ => to_string v
  end.

(** *** utils/storage.ts: the CSV export *)

Definition csv_header : string := "Date,Type,Category,Amount,Currency,Description".

(** One row: [[t.date, t.type, `"${t.category}"`, t.amount, t.currency,
    `"${t.description}"`].join(',')].  [triggerAutoDownload] builds its CSV
    text with the same expressions. *)
Definition csv_row (t : value) : result string :=
  match member t "date" with
  | Throw e => Throw e
  | Ok _ =>
      Ok (String.concat ","
            [join_item (field t "date");
             join_item (field t "type");
             double_quote +:+ to_string (field t "category") +:+ double_quote;
             join_item (field t "amount");
             join_item (field t "currency");
             double_quote +:+ to_string (field t "description") +:+ double_quote])
  end.

(** [[header, ...transactions.map(row)].join('\n')] *)
Definition csv_content (transactions : value) : result string :=
  match transactions with
  | VArr l =>
      match map_result csv_row l with
      | Ok rows => Ok (String.concat newline (csv_header :: rows))
      | Throw e => Throw e
      end
  | _ => Throw TypeError
  end.

(** The downloaded text is the CSV string.  It begins with the header row,
    with which no JSON text begins; [Garbled] records that [JSON.parse]
    rejects it ([csv_export_is_not_importable] derives this from the header
    row and that fact about [JSON.parse]). *)
Definition exportToCSV (now : Z) (transactions : value) : M unit :=
  csvContent <- lift (csv_content transactions) ;;
  let exportFileDefaultName :=
    "decoricks-transactions-" +:+ before_T (toISOString now) +:+ ".csv" in
  download exportFileDefaultName (Garbled csvContent).

(** *** utils/notifications.ts: read marks and clearing *)

Definition markNotificationAsRead (id : string) : M unit :=
  notifications <- getNotifications ;;
  let updated :=
    map (fun n => if String.eqb (AppNotification.id n) id then marked_read n else n)
        notifications in
  saveNotifications updated.

Definition clearAllNotifications : M unit := saveNotifications [].

(** *** utils/autoDownload.ts: settings and the download *)

Definition saveAutoDownloadSettings (settings : AutoDownloadSettings.t) : M unit :=
  try_catch
    (setItem AUTO_DOWNLOAD_KEY (Encoded settings))
    (fun error => console_error "Error saving auto-download settings:").

(** [console.log]: an informational line, which the trace (errors, warnings,
    alerts, writes, downloads) does not record. *)
Definition console_log (msg : string) : M unit := ret tt.

Definition triggerAutoDownload (now : Z) (data : value) : M unit :=
  settings <- getAutoDownloadSettings ;;
  try_catch
    (let timestamp := before_T (toISOString now) in
     let filename :=
       "decoricks-finance-auto-backup-" +:+ timestamp +:+ "."
         +:+ format_name (AutoDownloadSettings.format settings) in
     content <-
       (match AutoDownloadSettings.format settings with
        | json => ret (JSON_stringify data)
        | csv =>
            (* CSV format for transactions *)
            transactions <- lift (member data "transactions") ;;
            csvContent <- lift (csv_content transactions) ;;
            ret (Garbled csvContent)
        end) ;;
     download filename content ;;
     (* Update last download timestamp *)
     let updatedSettings := with_lastDownload (toISOString now) settings in
     saveAutoDownloadSettings updatedSettings ;;
     console_log ("Auto-download completed: " +:+ filename))
    (fun error => console_error "Error during auto-download:").

(** *** App.tsx: the handlers of the ledger *)

Definition getData : M value := fun w => (Ok (data w), w).

Definition handleSaveTransaction (ui : UI.t) (now : Z) (random : string)
    (transaction : Transaction.t) : M UI.t :=
  data <- getData ;;
  let editingTransaction := UI.editingTransaction ui in
  let isEditing := match editingTransaction with Some _ => true | None => false end in
  transactions <- lift (member data "transactions") ;;
  newTransactions <-
    lift (if isEditing then
            array_map
              (fun t =>
                 match member t "id" with
                 | Ok id =>
                     Ok (if is_string (Transaction.id transaction) id
                         then value_of_Transaction transaction
                         else t)
                 | Throw e => Throw e
                 end)
              transactions
          else
            match iterate transactions with
            | Ok l => Ok (VArr (l ++ [value_of_Transaction transaction]))
            | Throw e => Throw e
            end) ;;
  let newData := spread_with data [("transactions", newTransactions)] in
  handleSaveData now newData ;;
  (* Track activity *)
  trackActivity now (if isEditing then Activity.edit else Activity.add) ;;
  (* Add notification for transaction events *)
  enabled <- transactionNotifications ;;
  (if enabled : bool then
     if isEditing then
       addNotification now random "Transaction Updated"
         ((match Transaction.type transaction with
           | income => "Income"
           | expense => "Expense"
           end)
          +:+ " of " +:+ currency_name (Transaction.currency transaction) +:+ " "
          +:+ toLocaleString (Transaction.amount transaction) +:+ " in " +:+ double_quote
          +:+ Transaction.category transaction +:+ double_quote
          +:+ " updated successfully.")
         success
     else
       addNotification now random "Transaction Added"
         ("New " +:+ type_name (Transaction.type transaction) +:+ " of "
          +:+ currency_name (Transaction.currency transaction) +:+ " "
          +:+ toLocaleString (Transaction.amount transaction) +:+ " recorded in "
          +:+ double_quote +:+ Transaction.category transaction +:+ double_quote +:+ ".")
         success
   else ret tt) ;;
  if isEditing
  then ret (UI.mk None Tab.transactions)
  else ret ui.

Definition handleEditTransaction (ui : UI.t) (transaction : Transaction.t) : UI.t :=
  UI.mk (Some transaction) Tab.add.

(** [confirmed] is the answer to [window.confirm]. *)
Definition handleDeleteTransaction (confirmed : bool) (now : Z) (random : string)
    (id : string) : M unit :=
  if confirmed then
    data <- getData ;;
    transactions <- lift (member data "transactions") ;;
    newTransactions <-
      lift (array_filter
              (fun t =>
                 match member t "id" with
                 | Ok id' => Ok (negb (is_string id id'))
                 | Throw e => Throw e
                 end)
              transactions) ;;
    let newData := spread_with data [("transactions", newTransactions)] in
    handleSaveData now newData ;;
    (* Track activity *)
    trackActivity now Activity.delete ;;
    enabled <- transactionNotifications ;;
    if enabled : bool then
      addNotification now random "Transaction Deleted"
        "Transaction has been removed from your financial records." warning
    else ret tt
  else ret tt.

Definition handleAddCategory (now : Z) (random : string) (category : Category.t) : M unit :=
  data <- getData ;;
  categories <- lift (member data "categories") ;;
  newCategories <-
    lift (match iterate categories with
          | Ok l => Ok (VArr (l ++ [value_of_Category category]))
          | Throw e => Throw e
          end) ;;
  let newData := spread_with data [("categories", newCategories)] in
  handleSaveData now newData ;;
  enabled <- transactionNotifications ;;
  if enabled : bool then
    addNotification now random "Category Added"
      ("Custom " +:+ type_name (Category.type category) +:+ " category " +:+ double_quote
       +:+ Category.name category +:+ double_quote +:+ " created successfully.")
      info
  else ret tt.

Definition handleCancelEdit (ui : UI.t) : UI.t := UI.mk None Tab.transactions.


(** *** components/ExportImport.tsx: the export buttons *)




(** *** App.tsx: the callback of [notificationInterval]

    The callback that [App] installs with [setInterval] when it mounts;
    [data] is the ledger that its closure holds.  Setting the notification
    view from the log that it reads writes nothing. *)
Definition notificationInterval (now : Z) (random : string) (data : value) : M unit :=
  currentNotifications <- getNotifications ;;
  (* Check for auto-download every time notifications refresh *)
  due <- shouldAutoDownload now ;;
  if due : bool then
    triggerAutoDownload now data ;;
    addNotification now random "Auto-Backup Completed"
      "Your financial data has been automatically downloaded as a backup file." success
  else ret tt.

(** The ledger of the first render:
    [useState<AppData>({ transactions: [], categories: [] })]. *)
Definition initial_data : value :=
  VObj [("transactions", VArr []); ("categories", VArr [])].

(** The callback as [App] installs it.  The effect that calls [setInterval]
    has no dependencies ([useEffect(..., [])]): it runs once, after the first
    render, and the [data] of its closure is the ledger of that render for
    as long as the interval runs, whatever [setData] stores later. *)
Definition installed_notificationInterval (now : Z) (random : string) : M unit :=
  notificationInterval now random initial_data.



(** *** utils/autoDownload.ts: the label of the next download *)

(** [d.toLocaleDateString()]; [None] is the invalid date. *)
Variable toLocaleDateString : option Z -> string.

Definition formatNextDownloadTime (now : Z) : M string :=
  settings <- getAutoDownloadSettings ;;
  if negb (AutoDownloadSettings.enabled settings) then ret "Disabled"
  else if blank (AutoDownloadSettings.lastDownload settings) then ret "Soon (first backup)"
  else
    let lastDownload := Date_parse (AutoDownloadSettings.lastDownload settings) in
    let nextDownload :=
      new_Date (plus lastDownload (AutoDownloadSettings.downloadInterval settings)) in
    if le nextDownload now then ret "Due now"
    else
      let diffMs := minus nextDownload now in
      let diffDays := ceil_div diffMs (24 * 60 * 60 * 1000) in
      if equals diffDays 1 then ret "Tomorrow"
      else if lt diffDays 7 then
        ret ("In " +:+ ToString (match diffDays with
                                 | Some n => VNum (Fin n)
                                 | None => VNum NaN
                                 end) +:+ " days")
      else ret (toLocaleDateString nextDownload).


End Program.

(** ** Reading the outcome of a call *)

Definition outcome {A} (m : M A) (w : World) : result A := (m w).1.
Definition after {A} (m : M A) (w : World) : World := (m w).2.

(** The events that [m] adds to the trace of [w]. *)
Definition events {A} (m : M A) (w : World) : list event :=
  drop (length (trace w)) (trace (after m w)).

Definition is_write (name : string) (e : event) : bool :=
  match e with
  | SetItem name' _ => String.eqb name name'
  | _ => false
  end.

(** The call [m] reaches a [setItem] on the key [k]. *)
Definition attempted {A B} (k : key B) (m : M A) (w : World) : bool :=
  existsb (is_write (key_name k)) (events m w).

Definition is_alert (e : event) : bool :=
  match e with Alert _ => true | _ => false end.

(** A storage location from which nothing can be read: no item, or a string
    that [JSON.parse] rejects (the empty string among them). *)
Definition unusable {A} (stored : option (item A)) : bool :=
  match stored with
  | None | Some (Garbled _) => true
  | Some (Encoded _) => false
  end.

(** What [ledger_from] makes of a payload, [null] and [undefined] included
    (their properties cannot be read, and the load ends with both defaults). *)
Definition ledger_of (DEFAULT_CATEGORIES : list Category.t) (payload : value) : value :=
  VObj [("transactions", or_else (field payload "transactions") (VArr []));
        ("categories", or_else (field payload "categories")
                               (value_of_categories DEFAULT_CATEGORIES))].

(** [saveData] goes past its validation. *)
Definition valid_ledger (data : value) : bool :=
  isArray (field data "transactions") && isArray (field data "categories").

(** Structural induction on values, through the lists they nest. *)
Fixpoint value_ind_nested (P : value -> Prop)
    (Hundefined : P VUndefined) (Hnull : P VNull)
    (Hbool : forall b, P (VBool b)) (Hnum : forall n, P (VNum n))
    (Hstr : forall s, P (VStr s))
    (Harr : forall l, Forall P l -> P (VArr l))
    (Hobj : forall fs, Forall (fun kv => P kv.2) fs -> P (VObj fs))
    (v : value) {struct v} : P v :=
  match v with
  | VUndefined => Hundefined
  | VNull => Hnull
  | VBool b => Hbool b
  | VNum n => Hnum n
  | VStr s => Hstr s
  | VArr l =>
      Harr l ((fix go (l : list value) : Forall P l :=
                 match l with
                 | [] => @List.Forall_nil _ P
                 | x :: l' =>
                     @List.Forall_cons _ P x l'
                       (value_ind_nested P Hundefined Hnull Hbool Hnum Hstr Harr Hobj x)
                       (go l')
                 end) l)
  | VObj fs =>
      Hobj fs ((fix go (fs : list (string * value)) : Forall (fun kv => P kv.2) fs :=
                  match fs with
                  | [] => @List.Forall_nil _ (fun kv => P kv.2)
                  | kv :: fs' =>
                      @List.Forall_cons _ (fun kv => P kv.2) kv fs'
                        (value_ind_nested P Hundefined Hnull Hbool Hnum Hstr Harr Hobj kv.2)
                        (go fs')
                  end) fs)
  end.

(** [ledger_from (JSON.parse stored)] as a value or an exception. *)
Definition read_ledger (DEFAULT_CATEGORIES : list Category.t) (stored : option text)
  : result value :=
  match parse_item stored with
  | Ok d =>
      match d with
      | VUndefined | VNull => Throw TypeError
      | _ => Ok (ledger_of DEFAULT_CATEGORIES d)
      end
  | Throw e => Throw e
  end.

(** What the outer block of [loadData] computes from the primary, backup and
    session items. *)
Definition chain (DEFAULT_CATEGORIES : list Category.t) (p b s : option text)
  : result (option value) :=
  let after_backup :=
    if negb (present p) then
      if present b then
        match read_ledger DEFAULT_CATEGORIES b with
        | Ok obj => Ok (Some (JSON_stringify obj))
        | Throw e => Throw e
        end
      else Ok p
    else Ok p in
  match after_backup with
  | Ok stored =>
      let stored := if negb (present stored) then s else stored in
      if present stored then
        match read_ledger DEFAULT_CATEGORIES stored with
        | Ok r => Ok (Some r)
        | Throw e => Throw e
        end
      else Ok None
  | Throw e => Throw e
  end.

(** What the inner block of [loadData] computes from the backup item. *)
Definition recovered (DEFAULT_CATEGORIES : list Category.t) (b : option text)
  : option value :=
  if present b then
    match read_ledger DEFAULT_CATEGORIES b with
    | Ok r => Some r
    | Throw _ => None
    end
  else None.


(** The fields of a backup payload, with the defaults only where the payload
    has no such field. *)
Definition backup_fields (DEFAULT_CATEGORIES : list Category.t) (payload : value) : value :=
  let own k :=
    match payload with
    | VObj fs => lookup_field k fs
    | _ => None
    end in
  VObj [("transactions", default (VArr []) (own "transactions"));
        ("categories", default (value_of_categories DEFAULT_CATEGORIES) (own "categories"))].

(** The events of [saveData] on a valid ledger, by the keys whose writes are
    rejected.  A rejected primary, backup or session write ends the sequence
    and starts the fallback; only the metadata write has a handler of its
    own. *)
Definition saveData_fallback (rejected : string -> bool) : list event :=
  ConsoleError "Error saving data:"
  :: SetItem (key_name SESSION_KEY) (negb (rejected (key_name SESSION_KEY)))
  :: (if rejected (key_name SESSION_KEY)
      then [ConsoleError "Error saving to session storage:";
            Alert "Warning: Unable to save data. Please export your data as backup."]
      else [Alert "Data saved to session storage as backup. Please export your data for safety."]).

Definition saveData_events (rejected : string -> bool) : list event :=
  if rejected (key_name STORAGE_KEY) then
    SetItem (key_name STORAGE_KEY) false :: saveData_fallback rejected
  else if rejected (key_name BACKUP_KEY) then
    SetItem (key_name STORAGE_KEY) true
    :: SetItem (key_name BACKUP_KEY) false :: saveData_fallback rejected
  else if rejected (key_name SESSION_KEY) then
    SetItem (key_name STORAGE_KEY) true
    :: SetItem (key_name BACKUP_KEY) true
    :: SetItem (key_name SESSION_KEY) false :: saveData_fallback rejected
  else
    SetItem (key_name STORAGE_KEY) true
    :: SetItem (key_name BACKUP_KEY) true
    :: SetItem (key_name SESSION_KEY) true
    :: SetItem (key_name META_KEY) (negb (rejected (key_name META_KEY)))
    :: (if rejected (key_name META_KEY)
        then [ConsoleWarn "Could not save metadata:"]
        else []).


(** C1 as stated: on a valid ledger, whichever single write fails, all four
    writes are attempted. *)
Definition writes_independent (toISOString : Z -> string) (JSON_length : value -> Z)
    (now : Z) (data : value) (w : World) (failing : string) : Prop :=
  valid_ledger data = true ->
  (forall name, rejects w name = String.eqb name failing) ->
  attempted STORAGE_KEY (saveData toISOString JSON_length now data) w = true /\
  attempted BACKUP_KEY (saveData toISOString JSON_length now data) w = true /\
  attempted SESSION_KEY (saveData toISOString JSON_length now data) w = true /\
  attempted META_KEY (saveData toISOString JSON_length now data) w = true.


(** The log that [getNotifications] reads from an item. *)
Definition stored_log (stored : option (item (list AppNotification.t)))
  : list AppNotification.t :=
  match stored with
  | Some (Encoded log) => log
  | _ => []
  end.

(** The entry that an append builds. *)
Definition entry (toISOString toString36 : Z -> string) (a : Append.t)
  : AppNotification.t :=
  AppNotification.mk (toString36 (Append.now a) +:+ Append.random a)
    (Append.title a) (Append.message a) (Append.type a)
    (toISOString (Append.now a)) false.










(** The import validation: the text parses and the payload carries truthy
    [transactions] and [categories]. *)
Definition importable (content : text) : bool :=
  match parse_text content with
  | Ok payload =>
      truthy (field payload "transactions") && truthy (field payload "categories")
  | Throw _ => false
  end.

Definition finite (n : number) : bool :=
  match n with Fin _ => true | _ => false end.

Definition finite_amounts (d : AppData.t) : bool :=
  forallb (fun x => finite (Transaction.amount x)) (AppData.transactions d).

(** C6 as stated: importing the file that the export of a ledger downloads
    passes the validation and makes that ledger the application's. *)
Definition round_trip_as_stated (toISOString toString36 : Z -> string)
    (JSON_length : value -> Z) (ToString : value -> string)
    (now : Z) (random : string) (d : AppData.t) (w0 w : World) : Prop :=
  forall filename content,
    events (exportToJSON toISOString now (value_of_AppData d)) w0
    = [Download filename content] ->
    importable content = true /\
    data (after (import_file toISOString toString36 JSON_length ToString
                   now random (Some content)) w)
    = value_of_AppData d.


(** ** The remaining functions: what the properties speak of *)

(** The log with the entries of one id marked as read. *)
Definition mark_read (id : string) (log : list AppNotification.t) : list AppNotification.t :=
  map (fun n => if String.eqb (AppNotification.id n) id then marked_read n else n) log.

(** Two entries that differ at most in their [read] flag. *)
Definition same_but_read (n n' : AppNotification.t) : Prop :=
  AppNotification.id n' = AppNotification.id n /\
  AppNotification.title n' = AppNotification.title n /\
  AppNotification.message n' = AppNotification.message n /\
  AppNotification.type n' = AppNotification.type n /\
  AppNotification.timestamp n' = AppNotification.timestamp n.

(** The operations on the notification log, and sequences of them. *)
Module LogOp.
Inductive t : Type :=
| Add (a : Append.t)
| MarkRead (id : string)
| ClearAll.
End LogOp.




(** The settings that [getAutoDownloadSettings] reads from an item. *)
Definition stored_settings (stored : option (item AutoDownloadSettings.t))
  : AutoDownloadSettings.t :=
  match stored with
  | Some (Encoded settings) => settings
  | _ => AutoDownloadSettings.mk true EmptyString WEEK_IN_MS json
  end.

(** The text that [triggerAutoDownload] builds for a format; building the
    CSV text raises when the transactions cannot be traversed. *)
Definition auto_download_text (ToString : value -> string) (format : ExportFormat)
    (data : value) : result text :=
  match format with
  | json => Ok (JSON_stringify data)
  | csv =>
      match member data "transactions" with
      | Ok transactions =>
          match csv_content ToString transactions with
          | Ok csvContent => Ok (Garbled csvContent)
          | Throw e => Throw e
          end
      | Throw e => Throw e
      end
  end.

(** The files downloaded so far: name and text. *)
Definition downloads (w : World) : list (string * text) :=
  omap (fun e => match e with Download name content => Some (name, content) | _ => None end)
       (trace w).

(** The ledger's four storage locations. *)
Definition ledger_items (s : Storage) : list (option text) :=
  [finance_data s; finance_backup s; finance_session s; finance_meta s].


(** The usage record that [getLiveTrackingData] reads from an item at the
    time [now]. *)
Definition stored_record (toISOString : Z -> string) (now : Z)
    (stored : option (item LiveTrackingData.t)) : LiveTrackingData.t :=
  match stored with
  | Some (Encoded r) => r
  | _ => LiveTrackingData.mk (toISOString now) 1 0 0 0 0 0 (toISOString now) ∅
  end.

(** The counter of an activity. *)
Definition counter (activity : Activity.t) (r : LiveTrackingData.t) : Z :=
  match activity with
  | Activity.add => LiveTrackingData.transactionsAdded r
  | Activity.edit => LiveTrackingData.transactionsEdited r
  | Activity.delete => LiveTrackingData.transactionsDeleted r
  | Activity.export => LiveTrackingData.exportsPerformed r
  | Activity.import => LiveTrackingData.importsPerformed r
  end.

(** The record after one more activity at the time stamp [now_]. *)
Definition tracked (now_ : string) (activity : Activity.t) (r : LiveTrackingData.t)
  : LiveTrackingData.t :=
  let count (target : Activity.t) :=
    counter target r
    + match activity, target with
      | Activity.add, Activity.add | Activity.edit, Activity.edit
      | Activity.delete, Activity.delete | Activity.export, Activity.export
      | Activity.import, Activity.import => 1
      | _, _ => 0
      end in
  let today := before_T now_ in
  LiveTrackingData.mk (LiveTrackingData.sessionStart r) (LiveTrackingData.totalSessions r)
    (count Activity.add) (count Activity.edit) (count Activity.delete)
    (count Activity.export) (count Activity.import) now_
    (<[today := default 0 (LiveTrackingData.dailyUsage r !! today) + 1]>
       (LiveTrackingData.dailyUsage r)).






(** The calls that write the usage record, and sequences of them. *)
Module TrackOp.
Inductive t : Type :=
| Track (now : Z) (activity : Activity.t)
| Init (now : Z).

End TrackOp.





(** The transactions with those of the id of [x] replaced by [x], and
    without those of an id. *)
Definition replace_by_id (x : Transaction.t) (ts : list Transaction.t) : list Transaction.t :=
  map (fun t => if String.eqb (Transaction.id t) (Transaction.id x) then x else t) ts.

Definition remove_by_id (id : string) (ts : list Transaction.t) : list Transaction.t :=
  List.filter (fun t => negb (String.eqb (Transaction.id t) id)) ts.

(** The log after a handler's notification: appended when the transaction
    notifications are enabled and the write is accepted. *)
Definition notified (toISOString toString36 : Z -> string) (a : Append.t) (w : World)
  : list AppNotification.t :=
  let log := stored_log (notifications (storage w)) in
  if NotificationSettings.transactionNotifications (notificationSettings w)
     && negb (rejects w (key_name NOTIFICATIONS_KEY))
  then take 50 (entry toISOString toString36 a :: log)
  else log.

(** The usage record after a handler's activity. *)
Definition usage_after (toISOString : Z -> string) (now : Z) (activity : Activity.t)
    (w : World) : LiveTrackingData.t :=
  tracked (toISOString now) activity
    (stored_record toISOString now (live_tracking (storage w))).



(** The state after a handler has saved a ledger, tracked an activity and,
    when the transaction notifications are enabled, appended a
    notification. *)
Definition handled (toISOString toString36 : Z -> string) (newData : value) (now : Z)
    (activity : Activity.t) (a : Append.t) (w w' : World) : Prop :=
  data w' = newData /\
  rejects w' = rejects w /\
  notificationSettings w' = notificationSettings w /\
  permission_granted w' = permission_granted w /\
  downloads w' = downloads w /\
  (rejects w (key_name STORAGE_KEY) = false ->
   finance_data (storage w') = Some (JSON_stringify newData)) /\
  live_tracking (storage w')
  = (if rejects w (key_name LIVE_TRACKING_KEY) then live_tracking (storage w)
     else Some (Encoded (usage_after toISOString now activity w))) /\
  stored_log (notifications (storage w')) = notified toISOString toString36 a w /\
  auto_download_settings (storage w') = auto_download_settings (storage w).


(** What a file that holds the string [s] is to the import: the text that
    [JSON.parse] reads a value from, or one that it rejects. *)
Definition file_of (JSON_parse : string -> result value) (s : string) : text :=
  match JSON_parse s with
  | Ok v => Encoded v
  | Throw _ => Garbled s
  end.

(** Whether a download is due, from the stored settings. *)
Definition due (Date_parse : string -> option Z) (now : Z) (s : Storage) : bool :=
  let settings := stored_settings (auto_download_settings s) in
  AutoDownloadSettings.enabled settings
  && (blank (AutoDownloadSettings.lastDownload settings)
      || ge (time_diff now (Date_parse (AutoDownloadSettings.lastDownload settings)))
            (AutoDownloadSettings.downloadInterval settings)).

(** The notification that the periodic check appends after a download. *)
Definition backup_completed (now : Z) (random : string) : Append.t :=
  Append.mk now random "Auto-Backup Completed"
    "Your financial data has been automatically downloaded as a backup file." success.




(** ** A sample platform

    Executable stand-ins for the platform functions, used by the examples:
    ISO 8601 timestamps as [toISOString] writes them (years 0000 to 9999),
    base-36 numerals of natural numbers, and the compact JSON text of a
    value. *)

Definition pad (width : nat) (n : Z) : string :=
  let s := pretty n in
  String.concat EmptyString (replicate (width - String.length s) "0") +:+ s.

(** Days since the epoch to (year, month, day) in the proleptic Gregorian calendar. *)
Definition civil_from_days (days : Z) : Z * Z * Z :=
  let z := days + 719468 in
  let era := z / 146097 in
  let doe := z - era * 146097 in
  let yoe := (doe - doe / 1460 + doe / 36524 - doe / 146096) / 365 in
  let doy := doe - (365 * yoe + yoe / 4 - yoe / 100) in
  let mp := (5 * doy + 2) / 153 in
  let d := doy - (153 * mp + 2) / 5 + 1 in
  let m := if (mp <? 10)%Z then mp + 3 else mp - 9 in
  let y := yoe + era * 400 + (if (m <=? 2)%Z then 1 else 0) in
  (y, m, d).

Definition days_from_civil (y m d : Z) : Z :=
  let y := if (m <=? 2)%Z then y - 1 else y in
  let era := y / 400 in
  let yoe := y - era * 400 in
  let doy := (153 * (if (2 <? m)%Z then m - 3 else m + 9) + 2) / 5 + d - 1 in
  let doe := yoe * 365 + yoe / 4 - yoe / 100 + doy in
  era * 146097 + doe - 719468.

Definition sample_toISOString (ms : Z) : string :=
  let '(y, m, d) := civil_from_days (ms / 86400000) in
  let r := ms mod 86400000 in
  pad 4 y +:+ "-" +:+ pad 2 m +:+ "-" +:+ pad 2 d +:+ "T"
    +:+ pad 2 (r / 3600000) +:+ ":" +:+ pad 2 (r / 60000 mod 60) +:+ ":"
    +:+ pad 2 (r / 1000 mod 60) +:+ "." +:+ pad 3 (r mod 1000) +:+ "Z".

Definition digit_of (c : ascii) : option Z :=
  let n := Z.of_nat (nat_of_ascii c) in
  if ((48 <=? n) && (n <=? 57))%Z then Some (n - 48) else None.

Fixpoint number_of (s : string) (acc : Z) : option Z :=
  match s with
  | EmptyString => Some acc
  | String c s' =>
      match digit_of c with
      | Some d => number_of s' (10 * acc + d)
      | None => None
      end
  end.

Definition digits_at (s : string) (pos len : nat) : option Z :=
  let part := String.substring pos len s in
  if (String.length part =? len)%nat then number_of part 0 else None.

Definition sample_Date_parse (s : string) : option Z :=
  y ← digits_at s 0 4; m ← digits_at s 5 2; d ← digits_at s 8 2;
  h ← digits_at s 11 2; mi ← digits_at s 14 2; sec ← digits_at s 17 2;
  ms ← digits_at s 20 3;
  if String.eqb (String.substring 4 1 s +:+ String.substring 7 1 s +:+ String.substring 10 1 s
                 +:+ String.substring 13 1 s +:+ String.substring 16 1 s
                 +:+ String.substring 19 1 s +:+ String.substring 23 2 s) "--T::.Z"
     && ((1 <=? m) && (m <=? 12) && (1 <=? d) && (d <=? 31)
         && (h <=? 23) && (mi <=? 59) && (sec <=? 59))%Z
  then Some (days_from_civil y m d * 86400000 + h * 3600000 + mi * 60000 + sec * 1000 + ms)
  else None.

Definition digit36 (d : Z) : ascii :=
  ascii_of_nat (Z.to_nat (if (d <? 10)%Z then 48 + d else 87 + d)).

Fixpoint base36 (fuel : nat) (n : Z) (acc : string) : string :=
  match fuel with
  | O => acc
  | S fuel' =>
      let acc' := String (digit36 (n mod 36)) acc in
      if (n / 36 =? 0)%Z then acc' else base36 fuel' (n / 36) acc'
  end.

Definition sample_toString36 (n : Z) : string := base36 64 n EmptyString.

Definition quote : string := String (ascii_of_nat 34) EmptyString.

Definition hex_digit (d : nat) : ascii :=
  ascii_of_nat (if (d <? 10)%nat then 48 + d else 87 + d).

(** A character inside a JSON string literal. *)
Definition escape (c : ascii) : string :=
  let n := nat_of_ascii c in
  if (n =? 34)%nat then "\" +:+ quote
  else if (n =? 92)%nat then "\\"
  else if (n =? 8)%nat then "\b"
  else if (n =? 12)%nat then "\f"
  else if (n =? 10)%nat then "\n"
  else if (n =? 13)%nat then "\r"
  else if (n =? 9)%nat then "\t"
  else if (n <? 32)%nat then
    "\u00" +:+ String (hex_digit (n / 16)) (String (hex_digit (n mod 16)) EmptyString)
  else String c EmptyString.

Definition string_literal (s : string) : string :=
  quote +:+ String.concat EmptyString (map escape (String.list_ascii_of_string s)) +:+ quote.

(** The text of [JSON.stringify(v)], without indentation, for strings of
    ASCII characters. *)
Fixpoint json_text (v : value) : string :=
  match v with
  | VUndefined | VNull => "null"
  | VBool b => if b then "true" else "false"
  | VNum (Fin z) => pretty z
  | VNum _ => "null"
  | VStr s => string_literal s
  | VArr l => "[" +:+ String.concat "," (map json_text l) +:+ "]"
  | VObj fs =>
      "{" +:+ String.concat ","
                ((fix go (fs : list (string * value)) : list string :=
                    match fs with
                    | [] => []
                    | (k, VUndefined) :: fs' => go fs'
                    | (k, x) :: fs' => (string_literal k +:+ ":" +:+ json_text x) :: go fs'
                    end) fs) +:+ "}"
  end.

Definition sample_JSON_length (v : value) : Z :=
  Z.of_nat (String.length (json_text v)).

(** The string conversion of a template literal. *)
Fixpoint sample_ToString (v : value) : string :=
  match v with
  | VUndefined => "undefined"
  | VNull => "null"
  | VBool b => if b then "true" else "false"
  | VNum (Fin z) => pretty z
  | VNum NaN => "NaN"
  | VNum PosInfinity => "Infinity"
  | VNum NegInfinity => "-Infinity"
  | VStr s => s
  | VArr l =>
      String.concat ","
        (map (fun x => match x with
                       | VUndefined | VNull => EmptyString
                       | _ => sample_ToString x
                       end) l)
  | VObj _ => "[object Object]"
  end.


(** [JSON.parse] cut down to the three literal names; the properties that
    take a parser ask of it only that it rejects what is not JSON. *)
Definition sample_JSON_parse (s : string) : result value :=
  if String.eqb s "null" then Ok VNull
  else if String.eqb s "true" then Ok (VBool true)
  else if String.eqb s "false" then Ok (VBool false)
  else Throw SyntaxError.

(** [toLocaleString] and [toLocaleDateString] in a locale that groups no
    digits and writes dates as ISO 8601 does. *)
Definition sample_toLocaleString (n : number) : string := sample_ToString (VNum n).

Definition sample_toLocaleDateString (d : option Z) : string :=
  match d with
  | Some t => before_T (sample_toISOString t)
  | None => "Invalid Date"
  end.



(** ** Sample data *)

Definition sample_categories : list Category.t :=
  [Category.mk "Product Sales" income; Category.mk "Rent" expense].

Definition blank_storage : Storage :=
  mkStorage None None None None None None None.

(** The application as it starts on a browser that holds nothing: every write
    is accepted, and the React state has its initial values. *)
Definition fresh_world : World :=
  mkWorld blank_storage (fun _ => false) false
          (VObj [("transactions", VArr []); ("categories", VArr [])])
          (NotificationSettings.mk true true true) [].

(** A backup whose [categories] field is present and holds [null]. *)
Definition null_categories_payload : value :=
  VObj [("transactions", VArr [VObj [("id", VStr "t1")]]); ("categories", VNull)].

Definition null_categories_world : World :=
  with_storage (write BACKUP_KEY (Some (Encoded null_categories_payload))) fresh_world.

(** A backup without a [categories] field, next to a corrupt primary item. *)
Definition rent_payload : value :=
  VObj [("transactions", VArr [VObj [("id", VStr "t1"); ("category", VStr "Rent")]])].

Definition corrupt_primary_world : World :=
  with_storage (write STORAGE_KEY (Some (Garbled "{oops")))
    (with_storage (write BACKUP_KEY (Some (Encoded rent_payload))) fresh_world).


(** The instant 2024-01-05T10:00:00.000Z. *)
Definition sample_now : Z := 1704448800000.

(** The ledger of the specification's scenario: one rent payment. *)
Definition rent_ledger : AppData.t :=
  AppData.mk
    [Transaction.mk "lr0gt340k2x9" expense (Fin 500) PKR "Rent" "January rent" "2024-01-05"]
    sample_categories.

(** A browser that rejects the writes to one key and accepts the others. *)
Definition quota_world (failing : string) : World :=
  mkWorld blank_storage (fun name => String.eqb name failing) false
          (VObj [("transactions", VArr []); ("categories", VArr [])])
          (NotificationSettings.mk true true true) [].






(** Auto-download settings with an export a day before [sample_now]. *)
Definition day_old_settings : AutoDownloadSettings.t :=
  AutoDownloadSettings.mk true "2024-01-04T10:00:00.000Z" WEEK_IN_MS json.

Definition day_old_world : World :=
  with_storage (write AUTO_DOWNLOAD_KEY (Some (Encoded day_old_settings))) fresh_world.


(** A ledger with an amount that is not a number. *)
Definition nan_ledger : AppData.t :=
  AppData.mk
    [Transaction.mk "lr0gt340k2x9" expense NaN PKR "Rent" "January rent" "2024-01-05"]
    sample_categories.

(** A payload without a [categories] key. *)
Definition no_categories_file : text :=
  Encoded (VObj [("transactions", VArr [])]).


(** A log of two notifications, both unread, the more recent first. *)
Definition welcome : AppNotification.t :=
  AppNotification.mk "lr0eo0g0a1b2" "Welcome to Decoricks Finance App" "Ready." info
    "2024-01-05T09:00:00.000Z" false.

Definition rent_added : AppNotification.t :=
  AppNotification.mk "lr0fqlc0c3d4" "Transaction Added" "New expense recorded." success
    "2024-01-05T09:30:00.000Z" false.

Definition two_unread_world : World :=
  with_storage (write NOTIFICATIONS_KEY (Some (Encoded [rent_added; welcome]))) fresh_world.


(** Auto-download settings in the CSV format, with a download more than a
    month before [sample_now]. *)
Definition csv_settings : AutoDownloadSettings.t :=
  AutoDownloadSettings.mk true "2023-12-01T10:00:00.000Z" WEEK_IN_MS csv.

Definition csv_world : World :=
  with_storage (write AUTO_DOWNLOAD_KEY (Some (Encoded csv_settings))) fresh_world.

(** A ledger whose transactions are not an array, and a file that holds
    it. *)
Definition count_payload : value :=
  VObj [("transactions", VNum (Fin 5)); ("categories", VArr [])].

Definition count_file : text := Encoded count_payload.

(** The application with the rent ledger loaded. *)
Definition rent_world : World := with_data (value_of_AppData rent_ledger) fresh_world.

Definition coffee : Transaction.t :=
  Transaction.mk "lr0gt999e5f6" expense (Fin 3) USD "Supplies" "Coffee" "2024-01-05".





Definition two_hours_later : Z := sample_now + 2 * 60 * 60 * 1000.



(** ** JSON texts *)

Lemma jsonify_is_json (v : value) : is_json (jsonify v) = true.
Proof.
  induction v as [| |b|n|s|l IH|fs IH] using value_ind_nested; try reflexivity.
  - destruct n; reflexivity.
  - cbn [jsonify is_json]. induction IH as [|x l Hx _ IHl]; [reflexivity|].
    cbn [map forallb]. rewrite Hx. exact IHl.
  - cbn [jsonify is_json]. induction IH as [|[k x] fs Hx _ IHfs]; [reflexivity|].
    cbn [snd] in Hx. destruct x; cbn [forallb snd] in *;
      try exact IHfs; try (rewrite Hx; exact IHfs).
Qed.

Lemma is_json_jsonify (v : value) : is_json v = true -> jsonify v = v.
Proof.
  induction v as [| |b|n|s|l IH|fs IH] using value_ind_nested;
    cbn [is_json jsonify]; try reflexivity; try discriminate.
  - destruct n; [reflexivity|discriminate..].
  - intros H. f_equal. induction IH as [|x l Hx _ IHl]; [reflexivity|].
    cbn [forallb] in H. apply andb_prop in H as [H1 H2].
    cbn [map]. rewrite (Hx H1), (IHl H2). reflexivity.
  - intros H. f_equal. induction IH as [|[k x] fs Hx _ IHfs]; [reflexivity|].
    cbn [forallb snd] in H, Hx. apply andb_prop in H as [H1 H2].
    rewrite (IHfs H2). specialize (Hx H1).
    destruct x; try discriminate; rewrite ?Hx; reflexivity.
Qed.

Lemma is_json_lookup_field (k : string) (fs : list (string * value)) (x : value) :
  forallb (fun kv => is_json kv.2) fs = true ->
  lookup_field k fs = Some x -> is_json x = true.
Proof.
  induction fs as [|[k' y] fs IH]; cbn [lookup_field forallb snd]; [discriminate|].
  intros H Hk. apply andb_prop in H as [H1 H2].
  destruct (String.eqb k k'); [congruence | exact (IH H2 Hk)].
Qed.

(** A property of a JSON value is again one, unless it is absent. *)
Lemma is_json_field (v : value) (k : string) :
  is_json v = true -> truthy (field v k) = true -> is_json (field v k) = true.
Proof.
  destruct v as [| |b|n|s|l|fs]; cbn [field truthy]; try discriminate.
  intros H. destruct (lookup_field k fs) as [x|] eqn:E; cbn [default truthy].
  - intros _. exact (is_json_lookup_field k fs x H E).
  - discriminate.
Qed.

Lemma value_of_categories_is_json (cs : list Category.t) :
  is_json (value_of_categories cs) = true.
Proof.
  unfold value_of_categories. cbn [is_json].
  induction cs as [|c cs IH]; [reflexivity|].
  cbn [map forallb]. rewrite IH.
  destruct c as [n []]; reflexivity.
Qed.

(** [JSON.parse(JSON.stringify({transactions: t, categories: c}))] *)
Lemma jsonify_ledger (t c : value) :
  t <> VUndefined -> c <> VUndefined ->
  jsonify (VObj [("transactions", t); ("categories", c)])
  = VObj [("transactions", jsonify t); ("categories", jsonify c)].
Proof.
  intros Ht Hc. destruct t; try congruence; destruct c; try congruence; reflexivity.
Qed.

Section Properties.

Variable DEFAULT_CATEGORIES : list Category.t.
Variable toISOString : Z -> string.
Variable Date_parse : string -> option Z.
Variable toString36 : Z -> string.
Variable JSON_length : value -> Z.
Variable ToString : value -> string.
Variable toLocaleString : number -> string.
Variable toLocaleDateString : option Z -> string.
(** [JSON.parse] on a string. *)
Variable JSON_parse : string -> result value.

Lemma ledger_from_run (d : value) (w : World) :
  ledger_from DEFAULT_CATEGORIES d w
  = (if nullish d then Throw TypeError else Ok (ledger_of DEFAULT_CATEGORIES d), w).
Proof. destruct d; reflexivity. Qed.

Lemma ledger_of_nullish (d : value) :
  nullish d = true -> ledger_of DEFAULT_CATEGORIES d = empty_ledger DEFAULT_CATEGORIES.
Proof. destruct d; try discriminate; reflexivity. Qed.

Lemma read_ledger_run (stored : option text) (w : World) :
  (d <- lift (parse_item stored) ;;
   r <- ledger_from DEFAULT_CATEGORIES d ;;
   ret (Some r)) w
  = (match read_ledger DEFAULT_CATEGORIES stored with
     | Ok r => Ok (Some r)
     | Throw e => Throw e
     end, w).
Proof.
  unfold bind, lift, read_ledger. destruct (parse_item stored) as [d|e]; [|reflexivity].
  rewrite ledger_from_run. destruct d; reflexivity.
Qed.

Lemma loadData_recover_run (w : World) :
  let b := finance_backup (storage w) in
  loadData_recover DEFAULT_CATEGORIES w
  = (Ok (recovered DEFAULT_CATEGORIES b),
     if present b then
       match read_ledger DEFAULT_CATEGORIES b with
       | Ok _ => w
       | Throw _ => emit (ConsoleError "Error loading backup data:") w
       end
     else w).
Proof.
  cbv zeta. unfold loadData_recover, recovered, try_catch.
  unfold bind at 1. unfold getItem. cbn [read].
  destruct (present (finance_backup (storage w))); [|reflexivity].
  rewrite read_ledger_run.
  destruct (read_ledger DEFAULT_CATEGORIES (finance_backup (storage w))); reflexivity.
Qed.

Lemma loadData_try_run (w : World) :
  loadData_try DEFAULT_CATEGORIES w
  = (chain DEFAULT_CATEGORIES (finance_data (storage w)) (finance_backup (storage w))
       (finance_session (storage w)), w).
Proof.
  unfold loadData_try, chain.
  unfold bind at 1. unfold getItem at 1. cbn [read].
  destruct (present (finance_data (storage w))) eqn:Hp; cbn [negb].
  - unfold bind at 1. unfold ret at 1. unfold bind at 1. rewrite Hp. cbn [negb].
    unfold ret at 1. rewrite Hp. apply read_ledger_run.
  - unfold bind at 1. unfold bind at 1. unfold getItem at 1. cbn [read].
    destruct (present (finance_backup (storage w))) eqn:Hb.
    + unfold bind at 1. unfold lift at 1. unfold read_ledger at 1.
      destruct (parse_item (finance_backup (storage w))) as [d|e]; [|reflexivity].
      unfold bind at 1. rewrite ledger_from_run.
      destruct d; cbn [nullish]; try reflexivity.
      all: unfold ret at 1; unfold bind at 1; cbn [JSON_stringify ledger_of present negb];
        unfold ret at 1; cbn [present]; apply read_ledger_run.
    + unfold ret at 1. unfold bind at 1. rewrite Hp. cbn [negb].
      unfold getItem. cbn [read].
      destruct (present (finance_session (storage w))) eqn:Hs; [|reflexivity].
      apply read_ledger_run.
Qed.

(** [loadData] as a function of the three items it reads. *)
Lemma loadData_outcome (w : World) :
  let p := finance_data (storage w) in
  let b := finance_backup (storage w) in
  let s := finance_session (storage w) in
  outcome (loadData DEFAULT_CATEGORIES) w
  = Ok (match chain DEFAULT_CATEGORIES p b s with
        | Ok (Some r) => r
        | Ok None => empty_ledger DEFAULT_CATEGORIES
        | Throw _ => default (empty_ledger DEFAULT_CATEGORIES) (recovered DEFAULT_CATEGORIES b)
        end).
Proof.
  cbv zeta. unfold outcome, loadData. unfold bind at 1. unfold try_catch.
  rewrite loadData_try_run.
  destruct (chain _ _ _ _) as [[r|]|e]; try reflexivity.
  unfold bind at 1. unfold console_error at 1.
  rewrite loadData_recover_run. cbn [storage emit].
  destruct (recovered _ _); reflexivity.
Qed.

(** C2. When the primary, backup and session locations are all empty or
    unparseable, [loadData] returns exactly the empty ledger
    [{transactions: [], categories: DEFAULT_CATEGORIES}]; and whatever the
    storage holds, [loadData] returns a value and never raises. *)
Theorem loadData_degrades_to_empty (w : World) :
  (exists v, outcome (loadData DEFAULT_CATEGORIES) w = Ok v) /\
  (unusable (finance_data (storage w)) = true ->
   unusable (finance_backup (storage w)) = true ->
   unusable (finance_session (storage w)) = true ->
   outcome (loadData DEFAULT_CATEGORIES) w = Ok (empty_ledger DEFAULT_CATEGORIES)).
Proof.
  rewrite loadData_outcome. cbv zeta. split; [eexists; reflexivity|].
  intros Hp Hb Hs. f_equal.
  destruct (finance_data (storage w)) as [[sp|]|]; try discriminate;
    destruct (finance_backup (storage w)) as [[sb|]|]; try discriminate;
    destruct (finance_session (storage w)) as [[ss|]|]; try discriminate.
  all: unfold chain, recovered, read_ledger; cbn [present parse_item parse_text negb].
  all: repeat match goal with
         | |- context [String.eqb ?s EmptyString] =>
             destruct (String.eqb s EmptyString); cbn [present parse_item parse_text negb default]
         end.
  all: reflexivity.
Qed.

Lemma or_else_is_json (a b : value) :
  (truthy a = true -> is_json a = true) -> is_json b = true ->
  is_json (or_else a b) = true.
Proof. unfold or_else. destruct (truthy a); auto. Qed.

Lemma or_else_truthy (a b : value) :
  truthy b = true -> truthy (or_else a b) = true.
Proof. unfold or_else. destruct (truthy a) eqn:E; auto. Qed.

Lemma or_else_id (a b : value) : truthy a = true -> or_else a b = a.
Proof. unfold or_else. intros ->. reflexivity. Qed.

Lemma truthy_defined (a : value) : truthy a = true -> a <> VUndefined.
Proof. intros H ->. discriminate. Qed.

(** Writing the reshaped backup out and reading it back changes nothing. *)
Lemma read_ledger_reshaped (payload : value) :
  is_json payload = true ->
  read_ledger DEFAULT_CATEGORIES
    (Some (JSON_stringify (ledger_of DEFAULT_CATEGORIES payload)))
  = Ok (ledger_of DEFAULT_CATEGORIES payload).
Proof.
  intros Hj. unfold ledger_of.
  set (t := or_else (field payload "transactions") (VArr [])).
  set (c := or_else (field payload "categories") (value_of_categories DEFAULT_CATEGORIES)).
  assert (Ht : truthy t = true) by (apply or_else_truthy; reflexivity).
  assert (Hc : truthy c = true) by (apply or_else_truthy; reflexivity).
  assert (Jt : is_json t = true)
    by (apply or_else_is_json; [apply is_json_field; exact Hj | reflexivity]).
  assert (Jc : is_json c = true)
    by (apply or_else_is_json;
        [apply is_json_field; exact Hj | apply value_of_categories_is_json]).
  unfold read_ledger. cbn [JSON_stringify parse_item parse_text].
  rewrite jsonify_ledger by (apply truthy_defined; assumption).
  rewrite (is_json_jsonify t Jt), (is_json_jsonify c Jc).
  unfold ledger_of. cbn [field lookup_field String.eqb Ascii.eqb Bool.eqb default].
  rewrite !or_else_id by assumption. reflexivity.
Qed.

(** C3 (amended). When the primary location is empty or unparseable and the
    backup location holds a parseable payload, [loadData] returns the
    payload's transactions and categories, with [[]] in place of a
    transactions field that is absent or falsy and [DEFAULT_CATEGORIES] in
    place of a categories field that is absent or falsy. *)
Theorem loadData_falls_back_to_backup (w : World) (backup : text) (payload : value) :
  unusable (finance_data (storage w)) = true ->
  finance_backup (storage w) = Some backup ->
  parse_text backup = Ok payload ->
  outcome (loadData DEFAULT_CATEGORIES) w = Ok (ledger_of DEFAULT_CATEGORIES payload).
Proof.
  intros Hp Hb Hparse. rewrite loadData_outcome. cbv zeta. rewrite Hb. f_equal.
  destruct backup as [sb|vb]; [discriminate|].
  cbn [parse_text] in Hparse. injection Hparse as Hpayload.
  assert (Hj : is_json payload = true) by (subst payload; apply jsonify_is_json).
  assert (Hread : read_ledger DEFAULT_CATEGORIES (Some (Encoded vb))
                  = if nullish payload then Throw TypeError
                    else Ok (ledger_of DEFAULT_CATEGORIES payload)).
  { unfold read_ledger. cbn [parse_item parse_text]. rewrite Hpayload.
    destruct payload; reflexivity. }
  assert (Hrec : default (empty_ledger DEFAULT_CATEGORIES)
                   (recovered DEFAULT_CATEGORIES (Some (Encoded vb)))
                 = ledger_of DEFAULT_CATEGORIES payload).
  { unfold recovered. cbn [present]. rewrite Hread.
    destruct (nullish payload) eqn:En; cbn [default]; [|reflexivity].
    symmetry. apply ledger_of_nullish. exact En. }
  set (s := finance_session (storage w)). clearbody s.
  assert (Htry : chain DEFAULT_CATEGORIES None (Some (Encoded vb)) s
                 = if nullish payload then Throw TypeError
                   else Ok (Some (ledger_of DEFAULT_CATEGORIES payload))).
  { unfold chain. cbn [present negb]. rewrite Hread.
    destruct (nullish payload); [reflexivity|].
    cbn [JSON_stringify ledger_of present negb].
    change (VObj _) with (ledger_of DEFAULT_CATEGORIES payload).
    change (Some (Encoded (ledger_of DEFAULT_CATEGORIES payload)))
      with (Some (JSON_stringify (ledger_of DEFAULT_CATEGORIES payload))).
    rewrite (read_ledger_reshaped payload Hj). reflexivity. }
  destruct (finance_data (storage w)) as [[sp|]|]; try discriminate.
  - destruct (String.eqb sp EmptyString) eqn:Esp.
    + replace (chain DEFAULT_CATEGORIES (Some (Garbled sp)) (Some (Encoded vb)) s)
        with (chain DEFAULT_CATEGORIES None (Some (Encoded vb)) s).
      * rewrite Htry. destruct (nullish payload) eqn:En; [exact Hrec | reflexivity].
      * unfold chain. cbn [present negb]. rewrite Esp. cbn [negb]. rewrite Hread.
        destruct (nullish payload); [reflexivity|].
        cbn [JSON_stringify ledger_of present negb]. reflexivity.
    + unfold chain. cbn [present negb]. rewrite !Esp. cbn [negb present].
      rewrite ?Esp. cbn [negb].
      unfold read_ledger at 1. cbn [parse_item parse_text present].
      rewrite Esp. cbn [negb]. exact Hrec.
  - rewrite Htry. destruct (nullish payload) eqn:En; [exact Hrec | reflexivity].
Qed.

Lemma invalid_run (ledger : value) (w : World) :
  invalid ledger w = (Ok (negb (valid_ledger ledger)), w).
Proof.
  unfold invalid, valid_ledger.
  destruct ledger as [| |b|n|s|l|fs]; try reflexivity.
  - destruct b; reflexivity.
  - destruct n as [z| | |]; try reflexivity. cbn [truthy]. destruct (z =? 0)%Z; reflexivity.
  - cbn [truthy]. destruct (String.eqb s EmptyString); reflexivity.
  - cbn [truthy negb]. unfold bind, lift. cbn [member].
    destruct (isArray (field (VObj fs) "transactions")); reflexivity.
Qed.

Lemma valid_ledger_inv (ledger : value) :
  valid_ledger ledger = true ->
  exists fs ts cs, ledger = VObj fs /\
    field ledger "transactions" = VArr ts /\ field ledger "categories" = VArr cs.
Proof.
  unfold valid_ledger. intros H. apply andb_prop in H as [Ht Hc].
  destruct ledger as [| |b|n|s|l|fs]; try discriminate.
  destruct (field (VObj fs) "transactions") as [| | | | |ts|]; try discriminate.
  destruct (field (VObj fs) "categories") as [| | | | |cs|]; try discriminate.
  do 3 eexists. repeat split.
Qed.

Lemma events_emitted {A} (m : M A) (w : World) (evs : list event) :
  trace (after m w) = (trace w ++ evs)%list -> events m w = evs.
Proof. unfold events. intros ->. apply drop_app_length. Qed.

(** [saveData] always completes; it leaves the React state alone and, on a
    ledger that fails validation, only logs. *)
Lemma saveData_run (now : Z) (ledger : value) (w : World) :
  exists w',
    saveData toISOString JSON_length now ledger w = (Ok tt, w') /\
    rejects w' = rejects w /\
    data w' = data w /\
    notificationSettings w' = notificationSettings w /\
    permission_granted w' = permission_granted w /\
    (valid_ledger ledger = false ->
     w' = emit (ConsoleError "Invalid data structure for saving") w) /\
    (valid_ledger ledger = true ->
     trace w' = (trace w ++ saveData_events (rejects w))%list) /\
    (valid_ledger ledger = true -> rejects w (key_name STORAGE_KEY) = false ->
     finance_data (storage w') = Some (JSON_stringify ledger)).
Proof.
  destruct w as [st rj pg d ns tr].
  unfold saveData, saveData_events, saveData_fallback.
  unfold try_catch at 1. unfold bind at 1. rewrite invalid_run.
  destruct (valid_ledger ledger) eqn:Hv; cbn [negb].
  2:{ unfold console_error. eexists. repeat split; try reflexivity; discriminate. }
  destruct (valid_ledger_inv ledger Hv) as (fs & ts & cs & -> & Ht & Hc).
  cbn [rejects trace].
  destruct (rj (key_name STORAGE_KEY)) eqn:EP;
  destruct (rj (key_name BACKUP_KEY)) eqn:EB;
  destruct (rj (key_name SESSION_KEY)) eqn:ES;
  destruct (rj (key_name META_KEY)) eqn:EM.
  all: unfold try_catch, bind, setItem, console_error, console_warn, alert, lift, member.
  all: repeat (progress (cbn [rejects emit with_storage length_prop];
                         rewrite ?EP, ?EB, ?ES, ?EM, ?Ht, ?Hc)).
  all: eexists; repeat split; try reflexivity; try discriminate.
  all: intros;
    cbn [trace emit with_storage negb rejects data notificationSettings permission_granted
         storage write finance_data];
    rewrite <- ?app_assoc; reflexivity.
Qed.

Lemma saveData_events_run (now : Z) (ledger : value) (w : World) :
  valid_ledger ledger = true ->
  events (saveData toISOString JSON_length now ledger) w = saveData_events (rejects w).
Proof.
  intros Hv. destruct (saveData_run now ledger w) as (w' & E & _ & _ & _ & _ & _ & Htr & _).
  apply events_emitted. unfold after. rewrite E. exact (Htr Hv).
Qed.

(** C1 (amended). On a valid ledger [saveData] never raises and attempts the
    writes in the order primary, backup, session, metadata.  Only the
    metadata write has a handler of its own: its failure is logged after the
    other three writes have been made.  A failure of the primary, backup or
    session write is logged, ends the sequence (the writes after it are not
    attempted), and starts the fallback: one write to the session location
    and a user-visible alert. *)
Theorem saveData_write_sequence (now : Z) (ledger : value) (w : World) :
  valid_ledger ledger = true ->
  let save := saveData toISOString JSON_length now ledger in
  let failed k := rejects w (key_name k) in
  outcome save w = Ok tt /\
  events save w = saveData_events (rejects w) /\
  attempted STORAGE_KEY save w = true /\
  attempted BACKUP_KEY save w = negb (failed STORAGE_KEY) /\
  attempted SESSION_KEY save w = true /\
  attempted META_KEY save w
  = negb (failed STORAGE_KEY || failed BACKUP_KEY || failed SESSION_KEY) /\
  existsb is_alert (events save w)
  = (failed STORAGE_KEY || failed BACKUP_KEY || failed SESSION_KEY).
Proof.
  intros Hv. cbv zeta. unfold attempted.
  rewrite (saveData_events_run now ledger w Hv).
  split.
  { unfold outcome. destruct (saveData_run now ledger w) as (w' & -> & _). reflexivity. }
  split; [reflexivity|].
  unfold saveData_events, saveData_fallback.
  destruct (rejects w (key_name STORAGE_KEY)), (rejects w (key_name BACKUP_KEY)),
    (rejects w (key_name SESSION_KEY)), (rejects w (key_name META_KEY));
    repeat split; reflexivity.
Qed.

(** C4. When the [transactions] field or the [categories] field of the input
    is not an array (the input may be missing altogether), [saveData] gives
    up without raising: it logs one error and leaves every storage location
    as it was. *)
Theorem saveData_abandons_invalid (now : Z) (ledger : value) (w : World) :
  isArray (field ledger "transactions") && isArray (field ledger "categories") = false ->
  let save := saveData toISOString JSON_length now ledger in
  outcome save w = Ok tt /\
  storage (after save w) = storage w /\
  events save w = [ConsoleError "Invalid data structure for saving"].
Proof.
  intros Hv. cbv zeta.
  destruct (saveData_run now ledger w) as (w' & E & _ & _ & _ & _ & Hw' & _ & _).
  specialize (Hw' Hv). unfold outcome, events, after. rewrite E. cbn [fst snd]. subst w'.
  repeat split. cbn [trace emit]. apply drop_app_length.
Qed.

(** The three readers ([getNotifications], [getAutoDownloadSettings],
    [getLiveTrackingData]) have one shape: read the item, parse it when it
    is there, fall back to a default; the cases are those of the item. *)
Ltac read_item slot :=
  unfold try_catch, bind, getItem, lift, console_error, ret; cbn [read];
  destruct slot as [[s|parsed]|]; cbn [present parse_as stored_log];
  [destruct (String.eqb s EmptyString); cbn [negb] | |];
  eexists; repeat split.

Lemma getNotifications_run (w : World) :
  exists w',
    getNotifications w = (Ok (stored_log (notifications (storage w))), w') /\
    storage w' = storage w /\ rejects w' = rejects w /\
    data w' = data w /\
    notificationSettings w' = notificationSettings w /\
    permission_granted w' = permission_granted w.
Proof. unfold getNotifications. read_item (notifications (storage w)). Qed.

Lemma take_cap {A} (n : nat) (l : list A) :
  (if (n <? length l)%nat then take n l else l) = take n l.
Proof.
  destruct (Nat.ltb_spec n (length l)); [reflexivity|].
  symmetry. apply take_ge. lia.
Qed.

(** [addNotification] as a function of the stored log. *)
Lemma addNotification_run (a : Append.t) (w : World) :
  let log' := take 50 (entry toISOString toString36 a :: stored_log (notifications (storage w))) in
  exists w',
    addNotification toISOString toString36 (Append.now a) (Append.random a)
      (Append.title a) (Append.message a) (Append.type a) w = (Ok tt, w') /\
    storage w' = (if rejects w (key_name NOTIFICATIONS_KEY) then storage w
                  else write NOTIFICATIONS_KEY (Some (Encoded log')) (storage w)) /\
    rejects w' = rejects w /\
    data w' = data w /\
    notificationSettings w' = notificationSettings w /\
    permission_granted w' = permission_granted w.
Proof.
  cbv zeta. unfold addNotification. unfold bind at 1.
  destruct (getNotifications_run w) as (w1 & -> & Hst & Hrj & Hd & Hns & Hpg).
  rewrite take_cap. fold (entry toISOString toString36 a).
  unfold saveNotifications, try_catch, bind, setItem, console_error, permission,
    show_notification, ret.
  rewrite Hrj. destruct (rejects w (key_name NOTIFICATIONS_KEY));
    cbn [permission_granted emit with_storage];
    destruct (permission_granted w1) eqn:Epg; (eexists; split; [reflexivity|]);
    cbn [storage rejects data notificationSettings permission_granted emit with_storage];
    rewrite ?Hst, ?Epg; repeat split; assumption.
Qed.




Lemma getAutoDownloadSettings_run (w : World) :
  exists w',
    getAutoDownloadSettings w
    = (Ok (match auto_download_settings (storage w) with
           | Some (Encoded settings) => settings
           | _ => AutoDownloadSettings.mk true EmptyString WEEK_IN_MS json
           end), w').
Proof. unfold getAutoDownloadSettings. read_item (auto_download_settings (storage w)). Qed.

Lemma blank_spec (s : string) : blank s = true <-> s = EmptyString.
Proof. unfold blank. apply String.eqb_eq. Qed.

(** C8. With persisted settings, [shouldAutoDownload] returns [true] exactly
    when auto-download is enabled and either no last-download timestamp is
    recorded or the time elapsed since it is at least the configured
    interval. *)
Theorem shouldAutoDownload_due (now : Z) (settings : AutoDownloadSettings.t) (w : World) :
  auto_download_settings (storage w) = Some (Encoded settings) ->
  exists due,
    outcome (shouldAutoDownload Date_parse now) w = Ok due /\
    (due = true <->
     AutoDownloadSettings.enabled settings = true /\
     (AutoDownloadSettings.lastDownload settings = EmptyString \/
      exists last,
        Date_parse (AutoDownloadSettings.lastDownload settings) = Some last /\
        AutoDownloadSettings.downloadInterval settings <= now - last)).
Proof.
  intros Hs. unfold outcome, shouldAutoDownload. unfold bind at 1.
  destruct (getAutoDownloadSettings_run w) as (w' & ->). rewrite Hs.
  destruct settings as [enabled lastDownload interval format]; cbn [AutoDownloadSettings.enabled
    AutoDownloadSettings.lastDownload AutoDownloadSettings.downloadInterval].
  destruct enabled; cbn [negb].
  2:{ exists false. split; [reflexivity|]. split; [discriminate | intros [? _]; discriminate]. }
  destruct (blank lastDownload) eqn:Eb.
  { exists true. split; [reflexivity|]. split; [|reflexivity].
    intros _. split; [reflexivity|]. left. apply blank_spec. exact Eb. }
  assert (Hne : lastDownload <> EmptyString).
  { intros H. apply blank_spec in H. congruence. }
  unfold ret. cbn [fst]. eexists. split; [reflexivity|].
  unfold ge, time_diff. destruct (Date_parse lastDownload) as [last|].
  - rewrite Z.leb_le. split.
    + intros H. split; [reflexivity|]. right. exists last. split; [reflexivity | exact H].
    + intros [_ [H | (last' & E & H)]]; [contradiction|]. congruence.
  - split; [discriminate|]. intros [_ [H | (last' & E & _)]]; [contradiction | discriminate].
Qed.

(** C10. When no auto-download settings are stored, or the stored string is
    unparseable, the settings read are: enabled, no last download, an
    interval of seven days, JSON format; and [shouldAutoDownload] returns
    [true]. *)
Theorem fresh_settings_are_due (now : Z) (w : World) :
  unusable (auto_download_settings (storage w)) = true ->
  outcome getAutoDownloadSettings w
  = Ok (AutoDownloadSettings.mk true EmptyString 604800000 json) /\
  outcome (shouldAutoDownload Date_parse now) w = Ok true.
Proof.
  intros Hu. unfold outcome, shouldAutoDownload. unfold bind at 1.
  destruct (getAutoDownloadSettings_run w) as (w' & ->).
  destruct (auto_download_settings (storage w)) as [[s|settings]|]; try discriminate.
  all: split; reflexivity.
Qed.

Lemma getLiveTrackingData_run (now : Z) (w : World) :
  exists w',
    getLiveTrackingData toISOString now w
    = (Ok (match live_tracking (storage w) with
           | Some (Encoded r) => r
           | _ => LiveTrackingData.mk (toISOString now) 1 0 0 0 0 0 (toISOString now) ∅
           end), w') /\
    storage w' = storage w /\ rejects w' = rejects w /\
    data w' = data w /\
    notificationSettings w' = notificationSettings w /\
    permission_granted w' = permission_granted w.
Proof. unfold getLiveTrackingData. read_item (live_tracking (storage w)). Qed.

Lemma saveLiveTrackingData_run (r : LiveTrackingData.t) (w : World) :
  exists w',
    saveLiveTrackingData r w = (Ok tt, w') /\
    storage w' = (if rejects w (key_name LIVE_TRACKING_KEY) then storage w
                  else write LIVE_TRACKING_KEY (Some (Encoded r)) (storage w)) /\
    rejects w' = rejects w /\
    data w' = data w /\
    notificationSettings w' = notificationSettings w /\
    permission_granted w' = permission_granted w.
Proof.
  unfold saveLiveTrackingData, try_catch, bind, setItem, console_error.
  destruct (rejects w (key_name LIVE_TRACKING_KEY)); eexists; repeat split.
Qed.


Lemma trackActivity_run (now : Z) (activity : Activity.t) (w : World) :
  exists w',
    trackActivity toISOString now activity w = (Ok tt, w') /\
    finance_data (storage w') = finance_data (storage w) /\
    rejects w' = rejects w /\
    data w' = data w /\
    notificationSettings w' = notificationSettings w /\
    permission_granted w' = permission_granted w.
Proof.
  unfold trackActivity. unfold bind.
  destruct (getLiveTrackingData_run now w) as (w1 & -> & Hst & Hrj & Hd & Hns & Hpg).
  destruct (match live_tracking (storage w) with
            | Some (Encoded r) => r
            | _ => LiveTrackingData.mk (toISOString now) 1 0 0 0 0 0 (toISOString now) ∅
            end) as [ss ts ta te td ep ip la du].
  match goal with
  | |- context [saveLiveTrackingData ?x ?w0] =>
      destruct (saveLiveTrackingData_run x w0) as (w2 & -> & Hst2 & Hrj2 & Hd2 & Hns2 & Hpg2)
  end.
  exists w2. split; [reflexivity|].
  repeat split; try congruence.
  rewrite Hst2. destruct (rejects w1 (key_name LIVE_TRACKING_KEY)); cbn [write finance_data];
    congruence.
Qed.

Lemma handleSaveData_run (now : Z) (newData : value) (w : World) :
  exists w',
    handleSaveData toISOString JSON_length now newData w = (Ok tt, w') /\
    data w' = newData /\
    rejects w' = rejects w /\
    notificationSettings w' = notificationSettings w /\
    permission_granted w' = permission_granted w /\
    (rejects w (key_name STORAGE_KEY) = false ->
     finance_data (storage w') = Some (JSON_stringify newData)).
Proof.
  unfold handleSaveData. unfold bind at 1. unfold setData at 1. unfold bind at 1.
  destruct (saveData_run now newData (with_data newData w))
    as (w1 & -> & Hrj & Hd & Hns & Hpg & _ & _ & _).
  cbn [with_data rejects data notificationSettings permission_granted] in Hrj, Hd, Hns, Hpg.
  unfold try_catch, bind, setItem, console_error. rewrite Hrj.
  destruct (rejects w (key_name STORAGE_KEY)) eqn:EP;
  destruct (rejects w (key_name BACKUP_KEY)) eqn:EB;
  destruct (rejects w (key_name SESSION_KEY)) eqn:ES.
  all: repeat (progress (cbn [rejects emit with_storage]; rewrite ?Hrj, ?EP, ?EB, ?ES)).
  all: eexists; split; [reflexivity|].
  all: cbn [rejects emit with_storage data notificationSettings permission_granted storage
            write finance_data].
  all: repeat split; try assumption; try discriminate; intros _; reflexivity.
Qed.

Lemma truthy_field_member (v : value) (k : string) :
  truthy (field v k) = true -> member v k = Ok (field v k).
Proof. destruct v; try discriminate; reflexivity. Qed.

Lemma truthy_length_prop (v : value) :
  truthy v = true -> exists n, length_prop v = Ok n.
Proof. destruct v; try discriminate; eexists; reflexivity. Qed.

Lemma App_handleImport_run (now : Z) (random : string) (payload : value) (w : World) :
  truthy (field payload "transactions") = true ->
  truthy (field payload "categories") = true ->
  exists w',
    App_handleImport toISOString toString36 JSON_length ToString now random payload w
    = (Ok tt, w') /\
    data w' = payload /\
    (rejects w (key_name STORAGE_KEY) = false ->
     finance_data (storage w') = Some (JSON_stringify payload)).
Proof.
  intros Ht Hc. unfold App_handleImport. unfold bind at 1.
  destruct (handleSaveData_run now payload w) as (w1 & -> & Hd1 & Hrj1 & Hns1 & Hpg1 & Hp1).
  unfold bind at 1.
  destruct (trackActivity_run now Activity.import w1)
    as (w2 & -> & Hst2 & Hrj2 & Hd2 & Hns2 & Hpg2).
  unfold bind at 1. unfold transactionNotifications at 1.
  destruct (NotificationSettings.transactionNotifications (notificationSettings w2)).
  - unfold bind, lift.
    rewrite (truthy_field_member payload _ Ht), (truthy_field_member payload _ Hc).
    destruct (truthy_length_prop _ Ht) as (n & ->).
    destruct (truthy_length_prop _ Hc) as (m & ->).
    match goal with
    | |- context [addNotification _ _ ?now ?rnd ?title ?msg ?ty ?w0] =>
        destruct (addNotification_run (Append.mk now rnd title msg ty) w0)
          as (w3 & E3 & Hst3 & Hrj3 & Hd3 & _)
    end.
    cbn [Append.now Append.random Append.title Append.message Append.type] in E3.
    rewrite E3. exists w3. split; [reflexivity|]. split; [congruence|].
    intros HP. rewrite Hst3.
    destruct (rejects w2 (key_name NOTIFICATIONS_KEY)); cbn [write finance_data];
      rewrite Hst2; exact (Hp1 HP).
  - exists w2. split; [reflexivity|]. split; [congruence|].
    intros HP. rewrite Hst2. exact (Hp1 HP).
Qed.

(** The import either hands the payload to [App] or raises one alert. *)
Lemma import_file_run (now : Z) (random : string) (content : text) (w : World) :
  import_file toISOString toString36 JSON_length ToString now random (Some content) w
  = match parse_text content with
    | Ok payload =>
        if nullish payload
        then (Ok tt, emit (Alert "Error importing data. Please check the file format.") w)
        else if truthy (field payload "transactions") && truthy (field payload "categories")
        then App_handleImport toISOString toString36 JSON_length ToString now random payload w
        else (Ok tt, emit (Alert "Invalid file format. Please select a valid backup file.") w)
    | Throw _ =>
        (Ok tt, emit (Alert "Error importing data. Please check the file format.") w)
    end.
Proof.
  unfold import_file, ExportImport_handleImport, try_catch.
  unfold bind at 1. unfold lift at 1.
  destruct (parse_text content) as [payload|e]; [|reflexivity].
  destruct (nullish payload) eqn:En.
  { destruct payload; try discriminate; reflexivity. }
  unfold bind at 1. unfold lift at 1.
  assert (Hm : forall k, member payload k = Ok (field payload k))
    by (intros k; destruct payload; try discriminate; reflexivity).
  rewrite Hm. unfold bind at 1.
  destruct (truthy (field payload "transactions")) eqn:Ht; cbn [andb].
  - unfold bind at 1. unfold lift at 1. rewrite Hm. unfold ret at 1.
    destruct (truthy (field payload "categories")) eqn:Hc.
    + destruct (App_handleImport_run now random payload w Ht Hc) as (w' & -> & _).
      reflexivity.
    + reflexivity.
  - reflexivity.
Qed.

(** An import whose payload passes the validation hands it to [App]. *)
Lemma import_file_accepted (now : Z) (random : string) (content : text) (payload : value)
    (w : World) :
  parse_text content = Ok payload ->
  truthy (field payload "transactions") = true ->
  truthy (field payload "categories") = true ->
  exists w',
    import_file toISOString toString36 JSON_length ToString now random (Some content) w
    = (Ok tt, w') /\
    data w' = payload /\
    (rejects w (key_name STORAGE_KEY) = false ->
     finance_data (storage w') = Some (JSON_stringify payload)).
Proof.
  intros Hparse Ht Hc. rewrite import_file_run, Hparse.
  replace (nullish payload) with false
    by (destruct payload; try discriminate; reflexivity).
  rewrite Ht, Hc. cbn [andb]. apply App_handleImport_run; assumption.
Qed.

(** C7. An import whose text does not parse, or whose payload lacks a truthy
    [transactions] or a truthy [categories], is rejected: one alert is
    raised and the ledger, in memory and in storage, stays as it was.  An
    import whose payload has both fields truthy replaces the ledger by the
    payload, whatever the ledger was (when the primary write is accepted,
    also in the primary location). *)
Theorem import_replaces_or_rejects (now : Z) (random : string) (content : text) (w : World) :
  let import :=
    import_file toISOString toString36 JSON_length ToString now random (Some content) in
  outcome import w = Ok tt /\
  (importable content = false ->
   data (after import w) = data w /\
   storage (after import w) = storage w /\
   exists msg, events import w = [Alert msg]) /\
  (forall payload,
     parse_text content = Ok payload ->
     truthy (field payload "transactions") = true ->
     truthy (field payload "categories") = true ->
     data (after import w) = payload /\
     (rejects w (key_name STORAGE_KEY) = false ->
      finance_data (storage (after import w)) = Some (JSON_stringify payload))).
Proof.
  cbv zeta. unfold outcome, after, events, after, importable. rewrite import_file_run.
  destruct (parse_text content) as [payload|e].
  - destruct (nullish payload) eqn:En.
    + assert (Hf : forall k, field payload k = VUndefined)
        by (intros k; destruct payload; try discriminate; reflexivity).
      split; [reflexivity|]. split.
      * intros _. cbn [fst snd emit data storage trace]. repeat split.
        eexists. apply drop_app_length.
      * intros p [= <-] Ht. rewrite Hf in Ht. discriminate.
    + destruct (truthy (field payload "transactions") && truthy (field payload "categories"))
        eqn:Hv.
      * apply andb_prop in Hv as [Ht Hc].
        destruct (App_handleImport_run now random payload w Ht Hc) as (w' & -> & Hd & Hp).
        cbn [fst snd]. split; [reflexivity|]. split; [discriminate|].
        intros p [= <-] _ _. split; assumption.
      * split; [reflexivity|]. split.
        -- intros _. cbn [fst snd emit data storage trace]. repeat split.
           eexists. apply drop_app_length.
        -- intros p [= <-] Ht Hc. rewrite Ht, Hc in Hv. discriminate.
  - split; [reflexivity|]. split.
    + intros _. cbn [fst snd emit data storage trace]. repeat split.
      eexists. apply drop_app_length.
    + intros p [=].
Qed.

Lemma value_of_AppData_is_json (d : AppData.t) :
  finite_amounts d = true -> is_json (value_of_AppData d) = true.
Proof.
  destruct d as [ts cs]. unfold finite_amounts, value_of_AppData.
  cbn [AppData.transactions AppData.categories is_json forallb snd]. intros Hf.
  rewrite (value_of_categories_is_json cs), !andb_true_r.
  induction ts as [|x ts IH]; [reflexivity|].
  cbn [forallb] in Hf. apply andb_prop in Hf as [Hx Hts].
  cbn [map forallb]. rewrite (IH Hts), andb_true_r.
  destruct x as [i ty a c cat desc dt]. cbn [Transaction.amount] in Hx.
  destruct a; try discriminate. destruct ty, c; reflexivity.
Qed.

Lemma type_name_inj (a b : TransactionType) : type_name a = type_name b -> a = b.
Proof. destruct a, b; try reflexivity; discriminate. Qed.

Lemma currency_name_inj (a b : Currency) : currency_name a = currency_name b -> a = b.
Proof. destruct a, b; try reflexivity; discriminate. Qed.

(** Two ledgers that denote the same object are the same ledger: the same
    transactions in the same order, the same categories in the same order. *)
Lemma value_of_AppData_inj (d1 d2 : AppData.t) :
  value_of_AppData d1 = value_of_AppData d2 -> d1 = d2.
Proof.
  destruct d1 as [ts1 cs1], d2 as [ts2 cs2]. unfold value_of_AppData, value_of_categories.
  cbn [AppData.transactions AppData.categories]. intros [= Hts Hcs]. f_equal.
  - revert ts2 Hts. induction ts1 as [|x ts1 IH]; intros [|y ts2]; cbn [map];
      try discriminate; [reflexivity|].
    intros [= Hi Hty Ha Hc Hcat Hdesc Hdt Hrest]. f_equal; [|exact (IH _ Hrest)].
    destruct x, y. cbn [Transaction.id Transaction.type Transaction.amount
      Transaction.currency Transaction.category Transaction.description Transaction.date] in *.
    apply type_name_inj in Hty. apply currency_name_inj in Hc. congruence.
  - revert cs2 Hcs. induction cs1 as [|x cs1 IH]; intros [|y cs2]; cbn [map];
      try discriminate; [reflexivity|].
    intros [= Hn Hty Hrest]. f_equal; [|exact (IH _ Hrest)].
    destruct x, y. cbn [Category.name Category.type] in *.
    apply type_name_inj in Hty. congruence.
Qed.

(** C6 (amended). For every ledger whose amounts are finite numbers, the
    file that [exportToJSON] downloads passes the import validation, and
    importing it makes the application's ledger equal to the exported one:
    the same transactions in the same order and the same categories in the
    same order. *)
Theorem export_import_round_trip (now now' : Z) (random : string) (d : AppData.t)
    (w0 w : World) :
  finite_amounts d = true ->
  exists filename content,
    events (exportToJSON toISOString now (value_of_AppData d)) w0
    = [Download filename content] /\
    importable content = true /\
    data (after (import_file toISOString toString36 JSON_length ToString
                             now' random (Some content)) w)
    = value_of_AppData d.
Proof.
  intros Hf. pose proof (value_of_AppData_is_json d Hf) as Hj.
  eexists _, (JSON_stringify (value_of_AppData d)).
  split.
  { unfold events, after, exportToJSON, download. cbn [snd trace emit].
    apply drop_app_length. }
  assert (Hparse : parse_text (JSON_stringify (value_of_AppData d)) = Ok (value_of_AppData d)).
  { cbn [JSON_stringify value_of_AppData parse_text].
    change (VObj _) with (value_of_AppData d). rewrite (is_json_jsonify _ Hj). reflexivity. }
  split.
  - unfold importable. rewrite Hparse. reflexivity.
  - unfold after.
    destruct (import_file_accepted now' random _ _ w Hparse eq_refl eq_refl)
      as (w' & -> & Hd & _).
    exact Hd.
Qed.

Lemma value_of_AppData_valid (d : AppData.t) :
  valid_ledger (value_of_AppData d) = true.
Proof. reflexivity. Qed.

(** X11.  A ledger that was saved is the ledger that the next load returns, when
    its amounts are finite and the primary write was accepted. *)
Theorem load_after_save (now : Z) (d : AppData.t) (w : World) :
  finite_amounts d = true ->
  rejects w (key_name STORAGE_KEY) = false ->
  outcome (loadData DEFAULT_CATEGORIES)
    (after (saveData toISOString JSON_length now (value_of_AppData d)) w)
  = Ok (value_of_AppData d).
Proof.
  intros Hf Hrj. unfold after.
  destruct (saveData_run now (value_of_AppData d) w)
    as (w' & -> & _ & _ & _ & _ & _ & _ & Hp).
  cbn [snd]. specialize (Hp (value_of_AppData_valid d) Hrj).
  rewrite loadData_outcome. cbv zeta. rewrite Hp. f_equal.
  unfold chain. cbn [JSON_stringify value_of_AppData present negb].
  unfold read_ledger. cbn [parse_item parse_text].
  change (VObj _) with (value_of_AppData d).
  rewrite (is_json_jsonify _ (value_of_AppData_is_json d Hf)). reflexivity.
Qed.

(** X16.  On the first run no record is stored: when the write is accepted
    (and the platform parses the ISO string of the current time back to that
    time), the record written has the counter at 1, without an increment,
    and the current time as session start and last activity. *)
Lemma initializeSession_first_run (now : Z) (w : World) :
  unusable (live_tracking (storage w)) = true ->
  Date_parse (toISOString now) = Some now ->
  rejects w (key_name LIVE_TRACKING_KEY) = false ->
  live_tracking (storage (after (initializeSession toISOString Date_parse now) w))
  = Some (Encoded (LiveTrackingData.mk (toISOString now) 1 0 0 0 0 0 (toISOString now) ∅)).
Proof.
  intros Hu Hparse Hrj. unfold after, initializeSession. unfold bind.
  destruct (getLiveTrackingData_run now w) as (w1 & -> & Hst & Hrj1 & _).
  replace (match live_tracking (storage w) with
           | Some (Encoded r) => r
           | _ => LiveTrackingData.mk (toISOString now) 1 0 0 0 0 0 (toISOString now) ∅
           end)
    with (LiveTrackingData.mk (toISOString now) 1 0 0 0 0 0 (toISOString now) ∅)
    by (destruct (live_tracking (storage w)) as [[?|?]|]; try discriminate; reflexivity).
  rewrite Hparse. unfold time_diff, gt. rewrite Z.sub_diag.
  change (30 * 60 * 1000 <? 0)%Z with false.
  destruct (negb (blank (toISOString now)));
    match goal with
    | |- context [saveLiveTrackingData ?x ?w0] =>
        destruct (saveLiveTrackingData_run x w0) as (w2 & -> & Hst2 & _)
    end;
    cbn [snd]; rewrite Hst2, Hrj1, Hrj, Hst; reflexivity.
Qed.

(** ** The notification log: read marks, clearing, and the cap *)

Lemma saveNotifications_run (log : list AppNotification.t) (w : World) :
  exists w',
    saveNotifications log w = (Ok tt, w') /\
    storage w' = (if rejects w (key_name NOTIFICATIONS_KEY) then storage w
                  else write NOTIFICATIONS_KEY (Some (Encoded log)) (storage w)) /\
    rejects w' = rejects w /\
    data w' = data w /\
    notificationSettings w' = notificationSettings w /\
    permission_granted w' = permission_granted w.
Proof.
  unfold saveNotifications, try_catch, bind, setItem, console_error.
  destruct (rejects w (key_name NOTIFICATIONS_KEY)); eexists; repeat split.
Qed.

Lemma markNotificationAsRead_run (id : string) (w : World) :
  exists w',
    markNotificationAsRead id w = (Ok tt, w') /\
    storage w' = (if rejects w (key_name NOTIFICATIONS_KEY) then storage w
                  else write NOTIFICATIONS_KEY
                         (Some (Encoded (mark_read id (stored_log (notifications (storage w))))))
                         (storage w)) /\
    rejects w' = rejects w.
Proof.
  unfold markNotificationAsRead. unfold bind at 1.
  destruct (getNotifications_run w) as (w1 & -> & Hst & Hrj & _).
  fold (mark_read id (stored_log (notifications (storage w)))).
  destruct (saveNotifications_run (mark_read id (stored_log (notifications (storage w)))) w1)
    as (w2 & -> & Hst2 & Hrj2 & _).
  exists w2. split; [reflexivity|]. rewrite Hst2, Hrj, Hst. split; [reflexivity | congruence].
Qed.

Lemma mark_read_entries (id : string) (log : list AppNotification.t) :
  Forall2 (fun n n' =>
             same_but_read n n' /\
             AppNotification.read n'
             = AppNotification.read n || String.eqb (AppNotification.id n) id)
          log (mark_read id log).
Proof.
  induction log as [|n log IH]; [constructor|].
  cbn [mark_read map]. constructor; [|exact IH].
  destruct (String.eqb (AppNotification.id n) id).
  - split; [repeat split|]. cbn [marked_read AppNotification.read]. apply eq_sym, orb_true_r.
  - split; [repeat split|]. apply eq_sym, orb_false_r.
Qed.

Lemma mark_read_absent (id : string) (log : list AppNotification.t) :
  Forall (fun n => AppNotification.id n <> id) log -> mark_read id log = log.
Proof.
  induction 1 as [|n log Hn _ IH]; [reflexivity|].
  cbn [mark_read map]. fold (mark_read id log). rewrite IH.
  destruct (String.eqb_spec (AppNotification.id n) id); [contradiction | reflexivity].
Qed.

Lemma mark_read_idempotent (id : string) (log : list AppNotification.t) :
  mark_read id (mark_read id log) = mark_read id log.
Proof.
  induction log as [|n log IH]; [reflexivity|].
  cbn [mark_read map]. fold (mark_read id log). fold (mark_read id (mark_read id log)).
  rewrite IH. f_equal.
  destruct (String.eqb (AppNotification.id n) id) eqn:E.
  - cbn [marked_read AppNotification.id]. rewrite E. reflexivity.
  - rewrite E. reflexivity.
Qed.

(** X1.  Marking an id as read keeps every entry in its place and
    changes nothing but the [read] flag, which becomes [true] on the entries
    of that id and stays as it was on the others; when no entry has the id,
    the log read back is the same. *)
Theorem markNotificationAsRead_flips_only_matching (id : string) (w : World) :
  rejects w (key_name NOTIFICATIONS_KEY) = false ->
  let log := stored_log (notifications (storage w)) in
  let log' := stored_log (notifications (storage (after (markNotificationAsRead id) w))) in
  outcome (markNotificationAsRead id) w = Ok tt /\
  Forall2 (fun n n' =>
             same_but_read n n' /\
             AppNotification.read n'
             = AppNotification.read n || String.eqb (AppNotification.id n) id)
          log log' /\
  (Forall (fun n => AppNotification.id n <> id) log -> log' = log).
Proof.
  intros Hrj. cbv zeta. unfold outcome, after.
  destruct (markNotificationAsRead_run id w) as (w' & -> & Hst & _). cbn [fst snd].
  rewrite Hst, Hrj. cbn [write notifications stored_log].
  split; [reflexivity|]. split; [apply mark_read_entries | apply mark_read_absent].
Qed.

(** X2.  Marking the same id twice leaves the storage that marking it once
    leaves. *)
Theorem markNotificationAsRead_idempotent (id : string) (w : World) :
  storage (after (markNotificationAsRead id) (after (markNotificationAsRead id) w))
  = storage (after (markNotificationAsRead id) w).
Proof.
  unfold after.
  destruct (markNotificationAsRead_run id w) as (w1 & -> & Hst1 & Hrj1). cbn [snd].
  destruct (markNotificationAsRead_run id w1) as (w2 & -> & Hst2 & _). cbn [snd].
  rewrite Hst2, Hrj1, Hst1.
  destruct (rejects w (key_name NOTIFICATIONS_KEY)); [reflexivity|].
  cbn [write notifications stored_log]. rewrite mark_read_idempotent. reflexivity.
Qed.



(** X4.  After the log is cleared, the next append leaves exactly its own
    entry. *)
Theorem clear_then_add_leaves_one (a : Append.t) (w : World) :
  rejects w (key_name NOTIFICATIONS_KEY) = false ->
  stored_log
    (notifications
       (storage
          (after (addNotification toISOString toString36 (Append.now a) (Append.random a)
                    (Append.title a) (Append.message a) (Append.type a))
             (after clearAllNotifications w))))
  = [entry toISOString toString36 a].
Proof.
  intros Hrj. unfold after, clearAllNotifications.
  destruct (saveNotifications_run [] w) as (w1 & -> & Hst1 & Hrj1 & _). cbn [snd].
  destruct (addNotification_run a w1) as (w2 & -> & Hst2 & _). cbn [snd].
  rewrite Hst2, Hrj1, Hrj, Hst1, Hrj. reflexivity.
Qed.

(** ** The auto-download: settings and trigger *)

Lemma downloads_emit (e : event) (w : World) :
  downloads (emit e w)
  = (downloads w ++ match e with
                    | Download name content => [(name, content)]
                    | _ => []
                    end)%list.
Proof.
  unfold downloads. cbn [trace emit]. rewrite omap_app. destruct e; reflexivity.
Qed.

Lemma getAutoDownloadSettings_frame (w : World) :
  exists w',
    getAutoDownloadSettings w = (Ok (stored_settings (auto_download_settings (storage w))), w') /\
    storage w' = storage w /\ rejects w' = rejects w /\ data w' = data w /\
    downloads w' = downloads w.
Proof.
  unfold getAutoDownloadSettings.
  unfold try_catch, bind, getItem, lift, console_error, ret. cbn [read].
  destruct (auto_download_settings (storage w)) as [[s|parsed]|];
    cbn [present parse_as stored_settings];
    [destruct (String.eqb s EmptyString); cbn [negb] | |];
    eexists; repeat split.
  rewrite downloads_emit. apply app_nil_r.
Qed.

Lemma saveAutoDownloadSettings_run (settings : AutoDownloadSettings.t) (w : World) :
  exists w',
    saveAutoDownloadSettings settings w = (Ok tt, w') /\
    storage w' = (if rejects w (key_name AUTO_DOWNLOAD_KEY) then storage w
                  else write AUTO_DOWNLOAD_KEY (Some (Encoded settings)) (storage w)) /\
    rejects w' = rejects w /\ data w' = data w /\
    downloads w' = downloads w.
Proof.
  unfold saveAutoDownloadSettings, try_catch, bind, setItem, console_error.
  destruct (rejects w (key_name AUTO_DOWNLOAD_KEY)); eexists; repeat split;
    cbn [storage rejects data emit with_storage];
    rewrite ?downloads_emit, ?app_nil_r; reflexivity.
Qed.

Lemma shouldAutoDownload_outcome (now : Z) (w : World) :
  outcome (shouldAutoDownload Date_parse now) w
  = Ok (let settings := stored_settings (auto_download_settings (storage w)) in
        AutoDownloadSettings.enabled settings
        && (blank (AutoDownloadSettings.lastDownload settings)
            || ge (time_diff now (Date_parse (AutoDownloadSettings.lastDownload settings)))
                  (AutoDownloadSettings.downloadInterval settings))).
Proof.
  unfold outcome, shouldAutoDownload. unfold bind at 1.
  destruct (getAutoDownloadSettings_frame w) as (w' & -> & _). cbv zeta.
  destruct (AutoDownloadSettings.enabled _); cbn [negb andb]; [|reflexivity].
  destruct (blank _); reflexivity.
Qed.

(** X5.  Settings that are saved are the settings read next; when the write is
    rejected the error is logged and the settings read next are those read
    before. *)
Theorem saved_settings_are_read_back (settings : AutoDownloadSettings.t) (w : World) :
  outcome (saveAutoDownloadSettings settings) w = Ok tt /\
  outcome getAutoDownloadSettings (after (saveAutoDownloadSettings settings) w)
  = Ok (if rejects w (key_name AUTO_DOWNLOAD_KEY)
        then stored_settings (auto_download_settings (storage w))
        else settings).
Proof.
  unfold outcome, after.
  destruct (saveAutoDownloadSettings_run settings w) as (w1 & -> & Hst & _). cbn [fst snd].
  split; [reflexivity|].
  destruct (getAutoDownloadSettings_frame w1) as (w2 & -> & _). cbn [fst]. rewrite Hst.
  destruct (rejects w (key_name AUTO_DOWNLOAD_KEY)); reflexivity.
Qed.

(** [triggerAutoDownload] as a function of the text it builds. *)
Lemma triggerAutoDownload_run (now : Z) (ledger : value) (w : World) :
  let settings := stored_settings (auto_download_settings (storage w)) in
  let filename :=
    "decoricks-finance-auto-backup-" +:+ before_T (toISOString now) +:+ "."
      +:+ format_name (AutoDownloadSettings.format settings) in
  exists w',
    triggerAutoDownload toISOString ToString now ledger w = (Ok tt, w') /\
    rejects w' = rejects w /\ data w' = data w /\
    match auto_download_text ToString (AutoDownloadSettings.format settings) ledger with
    | Ok content =>
        downloads w' = (downloads w ++ [(filename, content)])%list /\
        storage w'
        = (if rejects w (key_name AUTO_DOWNLOAD_KEY) then storage w
           else write AUTO_DOWNLOAD_KEY
                  (Some (Encoded (with_lastDownload (toISOString now) settings)))
                  (storage w))
    | Throw _ => downloads w' = downloads w /\ storage w' = storage w
    end.
Proof.
  cbv zeta. unfold triggerAutoDownload. unfold bind at 1.
  destruct (getAutoDownloadSettings_frame w) as (w1 & -> & Hst & Hrj & Hd & Hdl).
  set (settings := stored_settings (auto_download_settings (storage w))).
  unfold try_catch. unfold bind at 1.
  assert (Hcontent :
    (match AutoDownloadSettings.format settings with
     | json => ret (JSON_stringify ledger)
     | csv =>
         transactions <- lift (member ledger "transactions") ;;
         csvContent <- lift (csv_content ToString transactions) ;;
         ret (Garbled csvContent)
     end) w1
    = (auto_download_text ToString (AutoDownloadSettings.format settings) ledger, w1)).
  { unfold auto_download_text, bind, lift, ret.
    destruct (AutoDownloadSettings.format settings); [reflexivity|].
    destruct (member ledger "transactions") as [t|e]; [|reflexivity].
    destruct (csv_content ToString t); reflexivity. }
  rewrite Hcontent.
  destruct (auto_download_text ToString (AutoDownloadSettings.format settings) ledger)
    as [content|e].
  - unfold bind at 1. unfold download at 1. unfold bind at 1.
    match goal with
    | |- context [saveAutoDownloadSettings ?x ?w0] =>
        destruct (saveAutoDownloadSettings_run x w0) as (w2 & -> & Hst2 & Hrj2 & Hd2 & Hdl2)
    end.
    unfold console_log, ret. eexists. split; [reflexivity|].
    cbn [rejects data storage emit] in *. rewrite downloads_emit in Hdl2.
    repeat split; try congruence.
    rewrite Hst2, Hrj, Hst. reflexivity.
  - unfold console_error. eexists. split; [reflexivity|].
    cbn [rejects data storage emit]. rewrite downloads_emit, app_nil_r.
    repeat split; assumption.
Qed.


(** X6.  When the text can be built, [triggerAutoDownload] downloads exactly one
    file, named after the date and the format, and, when the write of the
    settings is accepted, stamps the settings with the current time (when
    it is rejected the settings stay as they were).  The other settings and
    the whole ledger (in memory and in its four locations) stay as they
    were.  It does so whether or not auto-download is enabled. *)
Theorem triggerAutoDownload_downloads_and_stamps (now : Z) (ledger : value) (content : text)
    (w : World) :
  let settings := stored_settings (auto_download_settings (storage w)) in
  let trigger := triggerAutoDownload toISOString ToString now ledger in
  auto_download_text ToString (AutoDownloadSettings.format settings) ledger = Ok content ->
  outcome trigger w = Ok tt /\
  downloads (after trigger w)
  = (downloads w
     ++ [("decoricks-finance-auto-backup-" +:+ before_T (toISOString now) +:+ "."
            +:+ format_name (AutoDownloadSettings.format settings), content)])%list /\
  stored_settings (auto_download_settings (storage (after trigger w)))
  = (if rejects w (key_name AUTO_DOWNLOAD_KEY) then settings
     else with_lastDownload (toISOString now) settings) /\
  data (after trigger w) = data w /\
  ledger_items (storage (after trigger w)) = ledger_items (storage w).
Proof.
  cbv zeta. intros Htext. unfold outcome, after.
  destruct (triggerAutoDownload_run now ledger w) as (w' & -> & Hrj & Hd & H).
  cbv zeta in H. rewrite Htext in H. destruct H as [Hdl Hst]. cbn [fst snd].
  split; [reflexivity|]. split; [exact Hdl|]. split; [|split; [exact Hd|]].
  - rewrite Hst. destruct (rejects w (key_name AUTO_DOWNLOAD_KEY)); reflexivity.
  - rewrite Hst. destruct (rejects w (key_name AUTO_DOWNLOAD_KEY)); reflexivity.
Qed.

(** X7.  When the text cannot be built (CSV format and transactions that cannot
    be traversed), [triggerAutoDownload] catches the error: nothing is
    downloaded, the storage is untouched, and the next due-check answers as
    it did before, so the download is tried again. *)
Theorem triggerAutoDownload_failure_keeps_due (now now' : Z) (ledger : value) (e : exn)
    (w : World) :
  let settings := stored_settings (auto_download_settings (storage w)) in
  let trigger := triggerAutoDownload toISOString ToString now ledger in
  auto_download_text ToString (AutoDownloadSettings.format settings) ledger = Throw e ->
  outcome trigger w = Ok tt /\
  downloads (after trigger w) = downloads w /\
  storage (after trigger w) = storage w /\
  outcome (shouldAutoDownload Date_parse now') (after trigger w)
  = outcome (shouldAutoDownload Date_parse now') w.
Proof.
  cbv zeta. intros Htext. rewrite !shouldAutoDownload_outcome. unfold outcome, after.
  destruct (triggerAutoDownload_run now ledger w) as (w' & -> & Hrj & Hd & H).
  cbv zeta in H. rewrite Htext in H. destruct H as [Hdl Hst]. cbn [fst snd].
  rewrite Hst. repeat split; assumption.
Qed.

(** X8.  After a download whose timestamp was stored, with auto-download enabled,
    the next download is due exactly when the configured interval has
    elapsed since that download. *)
Theorem auto_download_due_after_interval (now now' : Z) (ledger : value) (content : text)
    (w : World) :
  let settings := stored_settings (auto_download_settings (storage w)) in
  AutoDownloadSettings.enabled settings = true ->
  auto_download_text ToString (AutoDownloadSettings.format settings) ledger = Ok content ->
  rejects w (key_name AUTO_DOWNLOAD_KEY) = false ->
  blank (toISOString now) = false ->
  Date_parse (toISOString now) = Some now ->
  outcome (shouldAutoDownload Date_parse now')
    (after (triggerAutoDownload toISOString ToString now ledger) w)
  = Ok (AutoDownloadSettings.downloadInterval settings <=? now' - now)%Z.
Proof.
  cbv zeta. intros Hen Htext Hrj Hblank Hparse. rewrite shouldAutoDownload_outcome.
  unfold after.
  destruct (triggerAutoDownload_run now ledger w) as (w' & -> & _ & _ & H).
  cbv zeta in H. rewrite Htext, Hrj in H. destruct H as [_ Hst]. cbn [snd].
  rewrite Hst. cbn [write auto_download_settings stored_settings].
  unfold with_lastDownload. cbn [AutoDownloadSettings.enabled AutoDownloadSettings.lastDownload
    AutoDownloadSettings.downloadInterval].
  rewrite Hen, Hblank, Hparse. reflexivity.
Qed.

(** ** Loading: the order of the three copies, and what a load leaves alone *)

Lemma read_ledger_shape (stored : option text) (r : value) :
  read_ledger DEFAULT_CATEGORIES stored = Ok r ->
  exists d, r = ledger_of DEFAULT_CATEGORIES d.
Proof.
  unfold read_ledger. destruct (parse_item stored) as [d|e]; [|discriminate].
  destruct d; try discriminate; intros [= <-]; eexists; reflexivity.
Qed.

Lemma loadData_shape (w : World) :
  exists d, outcome (loadData DEFAULT_CATEGORIES) w = Ok (ledger_of DEFAULT_CATEGORIES d).
Proof.
  rewrite loadData_outcome. cbv zeta.
  set (p := finance_data (storage w)). set (b := finance_backup (storage w)).
  set (s := finance_session (storage w)). clearbody p b s.
  assert (Hempty : exists d, empty_ledger DEFAULT_CATEGORIES = ledger_of DEFAULT_CATEGORIES d)
    by (exists VNull; reflexivity).
  destruct (chain DEFAULT_CATEGORIES p b s) as [[r|]|e] eqn:Hc.
  - unfold chain in Hc.
    destruct (if negb (present p)
              then if present b
                   then match read_ledger DEFAULT_CATEGORIES b with
                        | Ok obj => Ok (Some (JSON_stringify obj))
                        | Throw e => Throw e
                        end
                   else Ok p
              else Ok p) as [stored|e]; [|discriminate].
    destruct (present (if negb (present stored) then s else stored)); [|discriminate].
    destruct (read_ledger DEFAULT_CATEGORIES (if negb (present stored) then s else stored))
      as [r'|e] eqn:Hr; [|discriminate].
    injection Hc as <-. destruct (read_ledger_shape _ _ Hr) as (d & ->).
    exists d. reflexivity.
  - destruct Hempty as (d & ->). exists d. reflexivity.
  - unfold recovered. destruct (present b); [|exact (ex_intro _ VNull eq_refl)].
    destruct (read_ledger DEFAULT_CATEGORIES b) as [r|e'] eqn:Hr;
      [|exact (ex_intro _ VNull eq_refl)].
    destruct (read_ledger_shape _ _ Hr) as (d & ->). exists d. reflexivity.
Qed.

Lemma loadData_after (w : World) :
  exists errors,
    after (loadData DEFAULT_CATEGORIES) w
    = mkWorld (storage w) (rejects w) (permission_granted w) (data w)
        (notificationSettings w) (trace w ++ map ConsoleError errors) /\
    (length errors <= 2)%nat.
Proof.
  unfold after, loadData. unfold bind at 1. unfold try_catch.
  rewrite loadData_try_run.
  destruct (chain _ _ _ _) as [[r|]|e].
  - exists []. cbn [map length snd]. rewrite app_nil_r. destruct w; split; [reflexivity|lia].
  - exists []. cbn [map length snd]. rewrite app_nil_r. destruct w; split; [reflexivity|lia].
  - unfold bind at 1. unfold console_error at 1.
    rewrite loadData_recover_run. cbn [storage emit].
    destruct (present (finance_backup (storage w))).
    + destruct (read_ledger DEFAULT_CATEGORIES (finance_backup (storage w))) as [r|e'].
      * exists ["Error loading data:"]. cbn [map length emit].
        destruct (recovered _ _); (split; [reflexivity|lia]).
      * exists ["Error loading data:"; "Error loading backup data:"]. cbn [map length].
        destruct (recovered _ _); unfold ret, emit;
          cbn [snd storage rejects permission_granted data notificationSettings trace];
          rewrite <- app_assoc; (split; [reflexivity|lia]).
    + exists ["Error loading data:"]. cbn [map length emit].
      destruct (recovered _ _); (split; [reflexivity|lia]).
Qed.

(** X12.  Whatever the storage holds, [loadData] returns an object with exactly
    the two fields [transactions] and [categories], both truthy; it writes no
    storage location and changes no state, and it adds at most two error
    lines to the console. *)
Theorem loadData_only_reads (w : World) :
  exists transactions categories errors,
    outcome (loadData DEFAULT_CATEGORIES) w
    = Ok (VObj [("transactions", transactions); ("categories", categories)]) /\
    truthy transactions = true /\
    truthy categories = true /\
    after (loadData DEFAULT_CATEGORIES) w
    = mkWorld (storage w) (rejects w) (permission_granted w) (data w)
        (notificationSettings w) (trace w ++ map ConsoleError errors) /\
    (length errors <= 2)%nat.
Proof.
  destruct (loadData_shape w) as (d & Hd).
  destruct (loadData_after w) as (errors & Ha & Hl).
  exists (or_else (field d "transactions") (VArr [])),
         (or_else (field d "categories") (value_of_categories DEFAULT_CATEGORIES)), errors.
  split; [exact Hd|].
  split; [apply or_else_truthy; reflexivity|].
  split; [apply or_else_truthy; reflexivity|].
  split; assumption.
Qed.

(** X13.  The session copy is the last resort: when the primary and the backup
    location are both empty, [loadData] returns what the session copy
    holds, with the defaults for a field that is absent or falsy. *)
Theorem loadData_reads_session_last (w : World) (session : text) (payload : value) :
  present (finance_data (storage w)) = false ->
  present (finance_backup (storage w)) = false ->
  finance_session (storage w) = Some session ->
  parse_text session = Ok payload ->
  outcome (loadData DEFAULT_CATEGORIES) w = Ok (ledger_of DEFAULT_CATEGORIES payload).
Proof.
  intros Hp Hb Hs Hparse. rewrite loadData_outcome. cbv zeta.
  unfold chain, recovered. rewrite Hp, Hb, Hs. cbn [negb]. rewrite Hp. cbn [negb].
  destruct session as [s|v]; [discriminate|]. cbn [present].
  unfold read_ledger. cbn [parse_item]. rewrite Hparse.
  destruct payload; reflexivity.
Qed.

(** X14.  As soon as the primary or the backup location holds a non-empty string,
    even one that cannot be parsed, the session copy is never consulted:
    [loadData] returns the same ledger whatever the session location holds. *)
Theorem loadData_ignores_session_otherwise (w : World) (session : option text) :
  present (finance_data (storage w)) || present (finance_backup (storage w)) = true ->
  outcome (loadData DEFAULT_CATEGORIES) (with_storage (write SESSION_KEY session) w)
  = outcome (loadData DEFAULT_CATEGORIES) w.
Proof.
  intros H. rewrite !loadData_outcome. cbv zeta.
  cbn [with_storage storage write finance_data finance_backup finance_session].
  set (p := finance_data (storage w)) in *. set (b := finance_backup (storage w)) in *.
  set (s := finance_session (storage w)). clearbody p b s.
  assert (Hc : chain DEFAULT_CATEGORIES p b session = chain DEFAULT_CATEGORIES p b s).
  { unfold chain. destruct (present p) eqn:Hp; cbn [negb].
    - rewrite Hp. reflexivity.
    - cbn [orb] in H. rewrite H.
      destruct (read_ledger DEFAULT_CATEGORIES b) as [obj|e]; [|reflexivity].
      assert (Hpres : present (Some (JSON_stringify obj)) = true)
        by (destruct obj; reflexivity).
      rewrite Hpres. reflexivity. }
  rewrite Hc. reflexivity.
Qed.


(** ** The usage record: what the counters and the days add up to *)

Lemma getLiveTrackingData_frame (now : Z) (w : World) :
  exists w',
    getLiveTrackingData toISOString now w
    = (Ok (stored_record toISOString now (live_tracking (storage w))), w') /\
    storage w' = storage w /\ rejects w' = rejects w /\
    data w' = data w /\
    notificationSettings w' = notificationSettings w /\
    permission_granted w' = permission_granted w /\
    downloads w' = downloads w.
Proof.
  unfold getLiveTrackingData.
  unfold try_catch, bind, getItem, lift, console_error, ret; cbn [read].
  destruct (live_tracking (storage w)) as [[s|parsed]|]; cbn [present parse_as stored_record];
    [destruct (String.eqb s EmptyString); cbn [negb] | |];
    eexists; repeat split.
  rewrite downloads_emit. apply app_nil_r.
Qed.

Lemma saveLiveTrackingData_frame (r : LiveTrackingData.t) (w : World) :
  exists w',
    saveLiveTrackingData r w = (Ok tt, w') /\
    storage w' = (if rejects w (key_name LIVE_TRACKING_KEY) then storage w
                  else write LIVE_TRACKING_KEY (Some (Encoded r)) (storage w)) /\
    rejects w' = rejects w /\
    data w' = data w /\
    notificationSettings w' = notificationSettings w /\
    permission_granted w' = permission_granted w /\
    downloads w' = downloads w.
Proof.
  unfold saveLiveTrackingData, try_catch, bind, setItem, console_error.
  destruct (rejects w (key_name LIVE_TRACKING_KEY)); eexists; repeat split;
    cbn [emit with_storage]; rewrite ?downloads_emit, ?app_nil_r; reflexivity.
Qed.

(** [trackActivity] as a function of the stored record. *)
Lemma trackActivity_effect (now : Z) (activity : Activity.t) (w : World) :
  let r := stored_record toISOString now (live_tracking (storage w)) in
  exists w',
    trackActivity toISOString now activity w = (Ok tt, w') /\
    storage w' = (if rejects w (key_name LIVE_TRACKING_KEY) then storage w
                  else write LIVE_TRACKING_KEY
                         (Some (Encoded (tracked (toISOString now) activity r))) (storage w)) /\
    rejects w' = rejects w /\
    data w' = data w /\
    notificationSettings w' = notificationSettings w /\
    permission_granted w' = permission_granted w /\
    downloads w' = downloads w.
Proof.
  cbv zeta. unfold trackActivity. unfold bind.
  destruct (getLiveTrackingData_frame now w) as (w1 & -> & Hst & Hrj & Hd & Hns & Hpg & Hdl).
  destruct (stored_record toISOString now (live_tracking (storage w)))
    as [ss ts ta te td ep ip la du].
  match goal with
  | |- context [saveLiveTrackingData ?x ?w0] =>
      destruct (saveLiveTrackingData_frame x w0)
        as (w2 & -> & Hst2 & Hrj2 & Hd2 & Hns2 & Hpg2 & Hdl2)
  end.
  exists w2. split; [reflexivity|].
  repeat split; try congruence.
  rewrite Hst2, Hrj, Hst. destruct activity; unfold tracked; cbn [counter
    LiveTrackingData.sessionStart LiveTrackingData.totalSessions
    LiveTrackingData.transactionsAdded LiveTrackingData.transactionsEdited
    LiveTrackingData.transactionsDeleted LiveTrackingData.exportsPerformed
    LiveTrackingData.importsPerformed LiveTrackingData.dailyUsage];
    rewrite ?Z.add_0_r; reflexivity.
Qed.











(** ** The handlers of [App]: what they leave alone *)

Lemma downloads_with_storage (f : Storage -> Storage) (w : World) :
  downloads (with_storage f w) = downloads w.
Proof. reflexivity. Qed.

Lemma downloads_with_data (d : value) (w : World) :
  downloads (with_data d w) = downloads w.
Proof. reflexivity. Qed.

(** [saveData] writes the four ledger locations at most: the other
    locations stay as they were, and nothing is downloaded. *)
Lemma saveData_frame (now : Z) (ledger : value) (w : World) :
  let w' := after (saveData toISOString JSON_length now ledger) w in
  notifications (storage w') = notifications (storage w) /\
  auto_download_settings (storage w') = auto_download_settings (storage w) /\
  live_tracking (storage w') = live_tracking (storage w) /\
  downloads w' = downloads w.
Proof.
  cbv zeta. unfold after.
  cut (exists w',
         saveData toISOString JSON_length now ledger w = (Ok tt, w') /\
         notifications (storage w') = notifications (storage w) /\
         auto_download_settings (storage w') = auto_download_settings (storage w) /\
         live_tracking (storage w') = live_tracking (storage w) /\
         downloads w' = downloads w).
  { intros (w' & -> & H). exact H. }
  destruct w as [st rj pg d ns tr].
  unfold saveData.
  unfold try_catch at 1. unfold bind at 1. rewrite invalid_run.
  destruct (valid_ledger ledger) eqn:Hv; cbn [negb].
  2:{ unfold console_error. eexists. split; [reflexivity|].
      rewrite downloads_emit, app_nil_r. repeat split. }
  destruct (valid_ledger_inv ledger Hv) as (fs & ts & cs & -> & Ht & Hc).
  destruct (rj (key_name STORAGE_KEY)) eqn:EP;
  destruct (rj (key_name BACKUP_KEY)) eqn:EB;
  destruct (rj (key_name SESSION_KEY)) eqn:ES;
  destruct (rj (key_name META_KEY)) eqn:EM.
  all: unfold try_catch, bind, setItem, console_error, console_warn, alert, lift, member.
  all: repeat (progress (cbn [rejects emit with_storage length_prop];
                         rewrite ?EP, ?EB, ?ES, ?EM, ?Ht, ?Hc)).
  all: eexists; split; [reflexivity|].
  all: cbn [storage write notifications auto_download_settings live_tracking].
  all: repeat split.
  all: repeat (rewrite downloads_emit || rewrite downloads_with_storage);
    rewrite ?app_nil_r; reflexivity.
Qed.

(** [handleSaveData] as a function of the keys whose writes are rejected:
    the forced writes follow [saveData] whatever it did. *)
Lemma handleSaveData_effect (now : Z) (newData : value) (w : World) :
  let w1 := after (saveData toISOString JSON_length now newData) (with_data newData w) in
  exists w',
    handleSaveData toISOString JSON_length now newData w = (Ok tt, w') /\
    data w' = newData /\
    rejects w' = rejects w /\
    notificationSettings w' = notificationSettings w /\
    permission_granted w' = permission_granted w /\
    downloads w' = downloads w /\
    storage w'
    = (if rejects w (key_name STORAGE_KEY) then storage w1
       else
         let primary := write STORAGE_KEY (Some (JSON_stringify newData)) (storage w1) in
         if rejects w (key_name BACKUP_KEY) then primary
         else
           let backup :=
             write BACKUP_KEY
               (Some (JSON_stringify
                        (spread_with newData [("lastBackup", VStr (toISOString now))])))
               primary in
           if rejects w (key_name SESSION_KEY) then backup
           else write SESSION_KEY (Some (JSON_stringify newData)) backup).
Proof.
  cbv zeta. unfold handleSaveData. unfold bind at 1. unfold setData at 1. unfold bind at 1.
  pose proof (saveData_frame now newData (with_data newData w)) as (_ & _ & _ & Hdl).
  unfold after in *.
  destruct (saveData_run now newData (with_data newData w))
    as (w1 & E & Hrj & Hd & Hns & Hpg & _ & _ & _).
  rewrite E in *. cbn [snd] in *. rewrite downloads_with_data in Hdl.
  cbn [with_data rejects data notificationSettings permission_granted] in Hrj, Hd, Hns, Hpg.
  unfold try_catch, bind, setItem, console_error. rewrite Hrj.
  destruct (rejects w (key_name STORAGE_KEY)) eqn:EP;
  destruct (rejects w (key_name BACKUP_KEY)) eqn:EB;
  destruct (rejects w (key_name SESSION_KEY)) eqn:ES.
  all: repeat (progress (cbn [rejects emit with_storage]; rewrite ?Hrj, ?EP, ?EB, ?ES)).
  all: eexists; split; [reflexivity|].
  all: cbn [rejects emit with_storage data notificationSettings permission_granted storage].
  all: repeat split; try assumption.
  all: repeat (rewrite downloads_emit || rewrite downloads_with_storage);
    rewrite ?app_nil_r; exact Hdl.
Qed.

(** [handleSaveData] keeps the notification log, the auto-download settings
    and the usage record. *)
Lemma handleSaveData_slots (now : Z) (newData : value) (w : World) :
  let w' := after (handleSaveData toISOString JSON_length now newData) w in
  notifications (storage w') = notifications (storage w) /\
  auto_download_settings (storage w') = auto_download_settings (storage w) /\
  live_tracking (storage w') = live_tracking (storage w).
Proof.
  cbv zeta. unfold after.
  destruct (handleSaveData_effect now newData w) as (w' & -> & _ & _ & _ & _ & _ & Hst).
  cbn [snd]. rewrite Hst.
  destruct (saveData_frame now newData (with_data newData w)) as (Hn & Ha & Hl & _).
  cbn [with_data storage] in Hn, Ha, Hl.
  destruct (rejects w (key_name STORAGE_KEY)), (rejects w (key_name BACKUP_KEY)),
    (rejects w (key_name SESSION_KEY));
    cbn [write notifications auto_download_settings live_tracking];
    repeat split; assumption.
Qed.

(** X15.  The forced writes of [handleSaveData] bypass the validation: a ledger
    that [saveData] refuses to write (it only logs an error and leaves the
    storage as it was) becomes the application's ledger and, when the
    primary, backup and session writes are accepted, is written to those
    three locations all the same; only the metadata stays behind. *)
Theorem handleSaveData_bypasses_validation (now : Z) (ledger : value) (w : World) :
  valid_ledger ledger = false ->
  rejects w (key_name STORAGE_KEY) = false ->
  rejects w (key_name BACKUP_KEY) = false ->
  rejects w (key_name SESSION_KEY) = false ->
  let w' := after (handleSaveData toISOString JSON_length now ledger) w in
  storage (after (saveData toISOString JSON_length now ledger) w) = storage w /\
  data w' = ledger /\
  finance_data (storage w') = Some (JSON_stringify ledger) /\
  finance_backup (storage w')
  = Some (JSON_stringify (spread_with ledger [("lastBackup", VStr (toISOString now))])) /\
  finance_session (storage w') = Some (JSON_stringify ledger) /\
  finance_meta (storage w') = finance_meta (storage w).
Proof.
  intros Hv HP HB HS. cbv zeta.
  assert (Hsave : forall w0, storage (after (saveData toISOString JSON_length now ledger) w0)
                             = storage w0).
  { intros w0. unfold after.
    destruct (saveData_run now ledger w0) as (w1 & -> & _ & _ & _ & _ & Hbad & _).
    rewrite (Hbad Hv). reflexivity. }
  split; [apply Hsave|]. unfold after at 1 2 3 4 5.
  destruct (handleSaveData_effect now ledger w) as (w' & -> & Hd & _ & _ & _ & _ & Hst).
  cbn [snd]. rewrite Hst, HP, HB, HS, Hsave. cbv zeta.
  cbn [write finance_data finance_backup finance_session finance_meta with_data storage].
  repeat split. exact Hd.
Qed.


(** ** The handlers of [App]: transactions and categories *)

Lemma addNotification_frame (a : Append.t) (w : World) :
  let log' := take 50 (entry toISOString toString36 a :: stored_log (notifications (storage w))) in
  exists w',
    addNotification toISOString toString36 (Append.now a) (Append.random a)
      (Append.title a) (Append.message a) (Append.type a) w = (Ok tt, w') /\
    storage w' = (if rejects w (key_name NOTIFICATIONS_KEY) then storage w
                  else write NOTIFICATIONS_KEY (Some (Encoded log')) (storage w)) /\
    rejects w' = rejects w /\
    data w' = data w /\
    notificationSettings w' = notificationSettings w /\
    permission_granted w' = permission_granted w /\
    downloads w' = downloads w.
Proof.
  cbv zeta.
  pose proof (addNotification_run a w) as (w' & E & Hst & Hrj & Hd & Hns & Hpg).
  cbv zeta in Hst. exists w'. repeat split; try assumption.
  revert E. unfold addNotification, getNotifications, saveNotifications, permission,
    show_notification.
  unfold try_catch, bind, getItem, setItem, lift, console_error, ret. cbn [read].
  destruct (notifications (storage w)) as [[s|parsed]|]; cbn [present parse_as];
    [destruct (String.eqb s EmptyString); cbn [negb] | |].
  all: cbn [rejects emit];
    destruct (rejects w (key_name NOTIFICATIONS_KEY));
    cbn [permission_granted emit with_storage];
    destruct (permission_granted w); intros [= <-].
  all: repeat (rewrite downloads_emit || rewrite downloads_with_storage);
    rewrite ?app_nil_r; reflexivity.
Qed.

Lemma save_track_notify_run (newData : value) (now : Z) (activity : Activity.t)
    (a : Append.t) (w : World) :
  Append.now a = now ->
  exists w',
    (handleSaveData toISOString JSON_length now newData ;;
     trackActivity toISOString now activity ;;
     enabled <- transactionNotifications ;;
     if enabled : bool then
       addNotification toISOString toString36 now (Append.random a) (Append.title a)
         (Append.message a) (Append.type a)
     else ret tt) w = (Ok tt, w') /\
    handled toISOString toString36 newData now activity a w w'.
Proof.
  intros <-. unfold handled, notified, usage_after. unfold bind at 1.
  pose proof (handleSaveData_slots (Append.now a) newData w) as (Sn & Sa & Sl).
  unfold after in Sn, Sa, Sl.
  destruct (handleSaveData_effect (Append.now a) newData w)
    as (w1 & E1 & Hd1 & Hrj1 & Hns1 & Hpg1 & Hdl1 & Hst1).
  rewrite E1 in *. cbn [snd] in Sn, Sa, Sl. clear Hst1.
  pose proof (handleSaveData_run (Append.now a) newData w) as (w1' & E1' & _ & _ & _ & _ & Hp1).
  rewrite E1 in E1'. injection E1' as <-.
  unfold bind at 1.
  destruct (trackActivity_effect (Append.now a) activity w1)
    as (w2 & -> & Hst2 & Hrj2 & Hd2 & Hns2 & Hpg2 & Hdl2).
  cbv zeta in Hst2.
  unfold bind at 1. unfold transactionNotifications at 1.
  assert (Hlive : live_tracking (storage w2)
                  = if rejects w (key_name LIVE_TRACKING_KEY) then live_tracking (storage w)
                    else Some (Encoded (tracked (toISOString (Append.now a)) activity
                                          (stored_record toISOString (Append.now a)
                                             (live_tracking (storage w)))))).
  { rewrite Hst2, Hrj1, Sl. destruct (rejects w (key_name LIVE_TRACKING_KEY)); [exact Sl|].
    reflexivity. }
  assert (Hprim : rejects w (key_name STORAGE_KEY) = false ->
                  finance_data (storage w2) = Some (JSON_stringify newData)).
  { intros HP. rewrite Hst2.
    destruct (rejects w1 (key_name LIVE_TRACKING_KEY)); cbn [write finance_data]; exact (Hp1 HP). }
  assert (Hlog : notifications (storage w2) = notifications (storage w)).
  { rewrite Hst2. destruct (rejects w1 (key_name LIVE_TRACKING_KEY));
      cbn [write notifications]; exact Sn. }
  assert (Hauto : auto_download_settings (storage w2) = auto_download_settings (storage w)).
  { rewrite Hst2. destruct (rejects w1 (key_name LIVE_TRACKING_KEY));
      cbn [write auto_download_settings]; exact Sa. }
  rewrite Hns2, Hns1.
  destruct (NotificationSettings.transactionNotifications (notificationSettings w)); cbn [andb].
  - destruct (addNotification_frame a w2) as (w3 & -> & Hst3 & Hrj3 & Hd3 & Hns3 & Hpg3 & Hdl3).
    cbv zeta in Hst3. exists w3. split; [reflexivity|].
    rewrite Hrj2, Hrj1 in Hst3.
    repeat split; try congruence.
    + intros HP. rewrite Hst3. destruct (rejects w (key_name NOTIFICATIONS_KEY));
        cbn [write finance_data]; exact (Hprim HP).
    + rewrite Hst3. destruct (rejects w (key_name NOTIFICATIONS_KEY));
        cbn [write live_tracking]; exact Hlive.
    + rewrite Hst3. destruct (rejects w (key_name NOTIFICATIONS_KEY));
        cbn [write notifications stored_log negb]; rewrite Hlog; reflexivity.
    + rewrite Hst3. destruct (rejects w (key_name NOTIFICATIONS_KEY));
        cbn [write auto_download_settings]; exact Hauto.
  - exists w2. split; [reflexivity|].
    repeat split; try congruence; assumption.
Qed.


Lemma bind_after_three {A B C D E} (m1 : M A) (m2 : M B) (m3 : M C) (k : C -> M D)
    (h : M E) (w : World) :
  bind m1 (fun _ => bind m2 (fun _ => bind m3 (fun c => bind (k c) (fun _ => h)))) w
  = bind (bind m1 (fun _ => bind m2 (fun _ => bind m3 k))) (fun _ => h) w.
Proof.
  unfold bind. destruct (m1 w) as [[a|e] w1]; [|reflexivity].
  destruct (m2 w1) as [[b|e] w2]; [|reflexivity].
  destruct (m3 w2) as [[c|e] w3]; reflexivity.
Qed.

Lemma map_result_replace (x : Transaction.t) (ts : list Transaction.t) :
  map_result
    (fun t =>
       match member t "id" with
       | Ok id =>
           Ok (if is_string (Transaction.id x) id then value_of_Transaction x else t)
       | Throw e => Throw e
       end)
    (map value_of_Transaction ts)
  = Ok (map value_of_Transaction (replace_by_id x ts)).
Proof.
  induction ts as [|t ts IH]; [reflexivity|].
  cbn [map map_result replace_by_id]. fold (replace_by_id x ts). rewrite IH.
  cbn [member value_of_Transaction field lookup_field String.eqb Ascii.eqb Bool.eqb
       from_option Datatypes.id is_string].
  destruct (String.eqb (Transaction.id t) (Transaction.id x)); reflexivity.
Qed.

Lemma filter_result_remove (id : string) (ts : list Transaction.t) :
  filter_result
    (fun t =>
       match member t "id" with
       | Ok id' => Ok (negb (is_string id id'))
       | Throw e => Throw e
       end)
    (map value_of_Transaction ts)
  = Ok (map value_of_Transaction (remove_by_id id ts)).
Proof.
  induction ts as [|t ts IH]; [reflexivity|].
  cbn [map filter_result remove_by_id List.filter]. fold (remove_by_id id ts). rewrite IH.
  cbn [member value_of_Transaction field lookup_field String.eqb Ascii.eqb Bool.eqb
       from_option Datatypes.id is_string].
  destruct (String.eqb (Transaction.id t) id); reflexivity.
Qed.

(** [handleSaveTransaction] on a typed ledger. *)
Lemma handleSaveTransaction_run (ui : UI.t) (now : Z) (random : string) (x : Transaction.t)
    (d : AppData.t) (w : World) :
  data w = value_of_AppData d ->
  let editing := UI.editingTransaction ui in
  let d' :=
    AppData.mk
      (match editing with
       | Some _ => replace_by_id x (AppData.transactions d)
       | None => (AppData.transactions d ++ [x])%list
       end)
      (AppData.categories d) in
  exists message w',
    handleSaveTransaction toISOString toString36 JSON_length toLocaleString ui now random x w
    = (Ok (match editing with Some _ => UI.mk None Tab.transactions | None => ui end), w') /\
    handled toISOString toString36 (value_of_AppData d') now
      (match editing with Some _ => Activity.edit | None => Activity.add end)
      (Append.mk now random
         (match editing with Some _ => "Transaction Updated" | None => "Transaction Added" end)
         message success)
      w w'.
Proof.
  intros Hd. cbv zeta. unfold handleSaveTransaction.
  unfold bind at 1. unfold getData at 1. rewrite Hd.
  unfold bind at 1. unfold lift at 1.
  assert (Hm : member (value_of_AppData d) "transactions"
               = Ok (VArr (map value_of_Transaction (AppData.transactions d))))
    by reflexivity.
  rewrite Hm. unfold bind at 1. unfold lift at 1.
  destruct (UI.editingTransaction ui) as [e|].
  - cbn [array_map]. rewrite map_result_replace.
    change (spread_with (value_of_AppData d)
              [("transactions",
                VArr (map value_of_Transaction (replace_by_id x (AppData.transactions d))))])
      with (value_of_AppData
              (AppData.mk (replace_by_id x (AppData.transactions d)) (AppData.categories d))).
    eexists.
    match goal with
    | |- context [bind (handleSaveData _ _ now ?nd) _ w] =>
        match goal with
        | |- context [addNotification _ _ now random ?title ?msg ?ty] =>
            destruct (save_track_notify_run nd now Activity.edit
                        (Append.mk now random title msg ty) w eq_refl) as (w' & E & H)
        end
    end.
    cbn [Append.random Append.title Append.message Append.type] in E.
    exists w'. split; [|exact H].
    etransitivity; [apply bind_after_three|].
    unfold bind at 1. rewrite E. reflexivity.
  - cbn [iterate]. rewrite <- map_last.
    change (spread_with (value_of_AppData d)
              [("transactions",
                VArr (map value_of_Transaction (AppData.transactions d ++ [x])))])
      with (value_of_AppData
              (AppData.mk (AppData.transactions d ++ [x]) (AppData.categories d))).
    eexists.
    match goal with
    | |- context [bind (handleSaveData _ _ now ?nd) _ w] =>
        match goal with
        | |- context [addNotification _ _ now random ?title ?msg ?ty] =>
            destruct (save_track_notify_run nd now Activity.add
                        (Append.mk now random title msg ty) w eq_refl) as (w' & E & H)
        end
    end.
    cbn [Append.random Append.title Append.message Append.type] in E.
    exists w'. split; [|exact H].
    etransitivity; [apply bind_after_three|].
    unfold bind at 1. rewrite E. reflexivity.
Qed.


Lemma loadData_of_primary (d : AppData.t) (w : World) :
  finance_data (storage w) = Some (JSON_stringify (value_of_AppData d)) ->
  finite_amounts d = true ->
  outcome (loadData DEFAULT_CATEGORIES) w = Ok (value_of_AppData d).
Proof.
  intros Hp Hf. rewrite loadData_outcome. cbv zeta. rewrite Hp. f_equal.
  unfold chain. cbn [JSON_stringify value_of_AppData present negb].
  unfold read_ledger. cbn [parse_item parse_text].
  change (VObj _) with (value_of_AppData d).
  rewrite (is_json_jsonify _ (value_of_AppData_is_json d Hf)). reflexivity.
Qed.




(** [handleDeleteTransaction] on a typed ledger, once confirmed. *)
Lemma handleDeleteTransaction_run (now : Z) (random id : string) (d : AppData.t) (w : World) :
  data w = value_of_AppData d ->
  let d' := AppData.mk (remove_by_id id (AppData.transactions d)) (AppData.categories d) in
  exists w',
    handleDeleteTransaction toISOString toString36 JSON_length true now random id w
    = (Ok tt, w') /\
    handled toISOString toString36 (value_of_AppData d') now Activity.delete
      (Append.mk now random "Transaction Deleted"
         "Transaction has been removed from your financial records." warning)
      w w'.
Proof.
  intros Hd. cbv zeta. unfold handleDeleteTransaction.
  unfold bind at 1. unfold getData at 1. rewrite Hd.
  unfold bind at 1. unfold lift at 1.
  assert (Hm : member (value_of_AppData d) "transactions"
               = Ok (VArr (map value_of_Transaction (AppData.transactions d))))
    by reflexivity.
  rewrite Hm. unfold bind at 1. unfold lift at 1.
  cbn [array_filter]. rewrite filter_result_remove.
  change (spread_with (value_of_AppData d)
            [("transactions",
              VArr (map value_of_Transaction (remove_by_id id (AppData.transactions d))))])
    with (value_of_AppData
            (AppData.mk (remove_by_id id (AppData.transactions d)) (AppData.categories d))).
  exact (save_track_notify_run _ now Activity.delete
           (Append.mk now random "Transaction Deleted"
              "Transaction has been removed from your financial records." warning)
           w eq_refl).
Qed.


Lemma remove_by_id_appended (x : Transaction.t) (ts : list Transaction.t) :
  Forall (fun t => Transaction.id t <> Transaction.id x) ts ->
  remove_by_id (Transaction.id x) (ts ++ [x]) = ts.
Proof.
  intros H. unfold remove_by_id. rewrite List.filter_app. cbn [List.filter].
  rewrite String.eqb_refl. cbn [negb]. rewrite app_nil_r.
  induction H as [|t ts Ht _ IH]; [reflexivity|].
  cbn [List.filter]. rewrite IH.
  destruct (String.eqb_spec (Transaction.id t) (Transaction.id x)); [contradiction|reflexivity].
Qed.

(** X22.  Deleting a transaction that was just added, under an id that no other
    transaction has, gives back the ledger from before the addition. *)
Theorem delete_undoes_add (ui : UI.t) (now now' : Z) (random random' : string)
    (x : Transaction.t) (d : AppData.t) (w : World) :
  UI.editingTransaction ui = None ->
  data w = value_of_AppData d ->
  Forall (fun t => Transaction.id t <> Transaction.id x) (AppData.transactions d) ->
  data (after (handleDeleteTransaction toISOString toString36 JSON_length true now' random'
                 (Transaction.id x))
          (after (handleSaveTransaction toISOString toString36 JSON_length toLocaleString
                    ui now random x) w))
  = data w.
Proof.
  intros Hui Hd Hfresh. unfold after.
  destruct (handleSaveTransaction_run ui now random x d w Hd) as (msg & w1 & -> & H1).
  rewrite Hui in H1. destruct H1 as (Hd1 & _). cbn [snd].
  destruct (handleDeleteTransaction_run now' random' (Transaction.id x) _ w1 Hd1)
    as (w2 & -> & H2).
  destruct H2 as (Hd2 & _). cbn [snd]. rewrite Hd2, Hd.
  cbn [AppData.transactions AppData.categories].
  rewrite (remove_by_id_appended x _ Hfresh). destruct d; reflexivity.
Qed.


(** The notification that closes a handler. *)
Lemma notify_run (a : Append.t) (w : World) :
  exists w',
    (enabled <- transactionNotifications ;;
     if enabled : bool then
       addNotification toISOString toString36 (Append.now a) (Append.random a) (Append.title a)
         (Append.message a) (Append.type a)
     else ret tt) w = (Ok tt, w') /\
    storage w'
    = (if NotificationSettings.transactionNotifications (notificationSettings w)
          && negb (rejects w (key_name NOTIFICATIONS_KEY))
       then write NOTIFICATIONS_KEY
              (Some (Encoded (notified toISOString toString36 a w))) (storage w)
       else storage w) /\
    rejects w' = rejects w /\
    data w' = data w /\
    notificationSettings w' = notificationSettings w /\
    permission_granted w' = permission_granted w /\
    downloads w' = downloads w.
Proof.
  unfold bind at 1. unfold transactionNotifications at 1. unfold notified.
  destruct (NotificationSettings.transactionNotifications (notificationSettings w)); cbn [andb].
  - destruct (addNotification_frame a w) as (w' & -> & Hst & H). cbv zeta in Hst.
    exists w'. split; [reflexivity|]. split; [|exact H].
    rewrite Hst. destruct (rejects w (key_name NOTIFICATIONS_KEY)); reflexivity.
  - exists w. repeat split.
Qed.


Lemma handleAddCategory_run (now : Z) (random : string) (c : Category.t)
    (d : AppData.t) (w : World) :
  data w = value_of_AppData d ->
  let d' := AppData.mk (AppData.transactions d) (AppData.categories d ++ [c]) in
  exists w',
    handleAddCategory toISOString toString36 JSON_length now random c w = (Ok tt, w') /\
    data w' = value_of_AppData d' /\
    live_tracking (storage w') = live_tracking (storage w) /\
    (rejects w (key_name STORAGE_KEY) = false ->
     finance_data (storage w') = Some (JSON_stringify (value_of_AppData d'))).
Proof.
  intros Hd. cbv zeta. unfold handleAddCategory.
  unfold bind at 1. unfold getData at 1. rewrite Hd.
  unfold bind at 1. unfold lift at 1.
  assert (Hm : member (value_of_AppData d) "categories"
               = Ok (VArr (map value_of_Category (AppData.categories d))))
    by reflexivity.
  rewrite Hm. unfold bind at 1. unfold lift at 1.
  cbn [iterate]. rewrite <- map_last.
  change (spread_with (value_of_AppData d)
            [("categories", VArr (map value_of_Category (AppData.categories d ++ [c])))])
    with (value_of_AppData (AppData.mk (AppData.transactions d) (AppData.categories d ++ [c]))).
  set (d' := AppData.mk (AppData.transactions d) (AppData.categories d ++ [c])).
  unfold bind at 1.
  pose proof (handleSaveData_slots now (value_of_AppData d') w) as (_ & _ & Sl).
  unfold after in Sl.
  destruct (handleSaveData_run now (value_of_AppData d') w)
    as (w1 & E1 & Hd1 & Hrj1 & Hns1 & Hpg1 & Hp1).
  rewrite E1 in *. cbn [snd] in Sl.
  match goal with
  | |- context [addNotification _ _ now random ?title ?msg ?ty] =>
      destruct (notify_run (Append.mk now random title msg ty) w1)
        as (w2 & E2 & Hst2 & Hrj2 & Hd2 & _)
  end.
  cbn [Append.now Append.random Append.title Append.message Append.type] in E2.
  rewrite E2. exists w2. split; [reflexivity|].
  assert (Hkeep : live_tracking (storage w2) = live_tracking (storage w1) /\
                  finance_data (storage w2) = finance_data (storage w1)).
  { rewrite Hst2. destruct (_ && _); cbn [write live_tracking finance_data]; split; reflexivity. }
  destruct Hkeep as [Hl2 Hp2].
  split; [congruence|]. split; [congruence|].
  intros HP. rewrite Hp2. exact (Hp1 HP).
Qed.

(** X23.  Adding a category appends it to the categories, whether or not one of
    that name exists already, and leaves the transactions alone.  Unlike the
    transaction handlers it tracks no activity: the usage record stays as it
    was. *)
Theorem handleAddCategory_appends (now : Z) (random : string) (c : Category.t)
    (d : AppData.t) (w : World) :
  data w = value_of_AppData d ->
  let add := handleAddCategory toISOString toString36 JSON_length now random c in
  let d' := AppData.mk (AppData.transactions d) (AppData.categories d ++ [c]) in
  outcome add w = Ok tt /\
  data (after add w) = value_of_AppData d' /\
  live_tracking (storage (after add w)) = live_tracking (storage w) /\
  (rejects w (key_name STORAGE_KEY) = false -> finite_amounts d' = true ->
   outcome (loadData DEFAULT_CATEGORIES) (after add w) = Ok (value_of_AppData d')).
Proof.
  intros Hd. cbv zeta. unfold outcome, after.
  destruct (handleAddCategory_run now random c d w Hd) as (w' & -> & Hd' & Hl & Hp).
  cbn [fst snd]. split; [reflexivity|]. split; [exact Hd'|]. split; [exact Hl|].
  intros HP Hf. apply loadData_of_primary; [exact (Hp HP) | exact Hf].
Qed.

(** The transaction handlers have no handler for a ledger whose transactions
    are not an array: they raise before anything is saved, tracked or
    notified. *)
Lemma handlers_raise (ui : UI.t) (now : Z) (random id : string) (x : Transaction.t)
    (w : World) :
  iterate (field (data w) "transactions") = Throw TypeError ->
  handleSaveTransaction toISOString toString36 JSON_length toLocaleString ui now random x w
  = (Throw TypeError, w) /\
  handleDeleteTransaction toISOString toString36 JSON_length true now random id w
  = (Throw TypeError, w).
Proof.
  intros Hi. split.
  - unfold handleSaveTransaction. unfold bind at 1. unfold getData at 1.
    unfold bind at 1. unfold lift at 1.
    destruct (data w) as [| |b|n|s|l|fs] eqn:Hd; cbn [member]; try reflexivity.
    all: unfold bind at 1; unfold lift at 1.
    all: destruct (field _ "transactions") as [| |b'|n'|s'|l'|fs'] eqn:Hf;
      try discriminate; cbn [array_map iterate].
    all: destruct (UI.editingTransaction ui); reflexivity.
  - unfold handleDeleteTransaction. unfold bind at 1. unfold getData at 1.
    unfold bind at 1. unfold lift at 1.
    destruct (data w) as [| |b|n|s|l|fs] eqn:Hd; cbn [member]; try reflexivity.
    all: unfold bind at 1; unfold lift at 1.
    all: destruct (field _ "transactions") as [| |b'|n'|s'|l'|fs'] eqn:Hf;
      try discriminate; cbn [array_filter]; reflexivity.
Qed.

(** X24.  The import validation only asks for truthy fields: a file whose
    transactions are, say, a number or an object is accepted and becomes the
    application's ledger; from then on adding, editing and deleting a
    transaction raise a [TypeError] and change nothing. *)
Theorem import_of_non_array_breaks_handlers (now : Z) (random : string)
    (content : text) (payload : value) (w : World) :
  parse_text content = Ok payload ->
  truthy (field payload "transactions") = true ->
  truthy (field payload "categories") = true ->
  iterate (field payload "transactions") = Throw TypeError ->
  let w' := after (import_file toISOString toString36 JSON_length ToString
                     now random (Some content)) w in
  data w' = payload /\
  forall (ui : UI.t) (now' : Z) (random' id : string) (x : Transaction.t),
    handleSaveTransaction toISOString toString36 JSON_length toLocaleString
      ui now' random' x w' = (Throw TypeError, w') /\
    handleDeleteTransaction toISOString toString36 JSON_length true now' random' id w'
    = (Throw TypeError, w').
Proof.
  intros Hparse Ht Hc Hi. cbv zeta. unfold after.
  destruct (import_file_accepted now random content payload w Hparse Ht Hc)
    as (w' & -> & Hd & _).
  cbn [snd]. split; [exact Hd|]. intros ui now' random' id x.
  apply handlers_raise. rewrite Hd. exact Hi.
Qed.


(** ** Exports *)





Lemma csv_content_header (transactions : value) (csvContent : string) :
  csv_content ToString transactions = Ok csvContent ->
  exists rest, csvContent = csv_header +:+ rest.
Proof.
  unfold csv_content. destruct transactions as [| | | | |l|]; try discriminate.
  destruct (map_result (csv_row ToString) l) as [rows|e]; [|discriminate].
  intros [= <-]. destruct rows as [|row rows].
  - exists EmptyString. reflexivity.
  - exists (newline +:+ String.concat newline (row :: rows)). reflexivity.
Qed.

(** X27.  A CSV export is no backup.  The text that [exportToCSV] builds always
    begins with the header row, whatever the transactions are; no JSON text
    begins with its letter D, so [JSON.parse] rejects the file, and the
    import of it raises one alert and changes nothing else. *)
Theorem csv_export_is_not_importable (now now' : Z) (random : string) (transactions : value)
    (csvContent : string) (w0 w : World) :
  (forall rest, JSON_parse (String "D"%char rest) = Throw SyntaxError) ->
  csv_content ToString transactions = Ok csvContent ->
  exists filename rest,
    events (exportToCSV toISOString ToString now transactions) w0
    = [Download filename (Garbled csvContent)] /\
    csvContent = csv_header +:+ rest /\
    JSON_parse csvContent = Throw SyntaxError /\
    import_file toISOString toString36 JSON_length ToString now' random
      (Some (file_of JSON_parse csvContent)) w
    = (Ok tt, emit (Alert "Error importing data. Please check the file format.") w).
Proof.
  intros Hjson Hc. destruct (csv_content_header _ _ Hc) as (rest & Hrest).
  assert (Hparse : JSON_parse csvContent = Throw SyntaxError)
    by (rewrite Hrest; apply Hjson).
  eexists _, rest. split.
  - unfold events, after, exportToCSV, bind, lift, download. rewrite Hc.
    cbn [snd trace emit]. apply drop_app_length.
  - split; [exact Hrest|]. split; [exact Hparse|].
    unfold file_of. rewrite Hparse, import_file_run. reflexivity.
Qed.

(** ** The periodic check of [App] *)

Lemma getNotifications_frame (w : World) :
  exists w',
    getNotifications w = (Ok (stored_log (notifications (storage w))), w') /\
    storage w' = storage w /\ rejects w' = rejects w /\
    data w' = data w /\
    downloads w' = downloads w.
Proof.
  unfold getNotifications.
  unfold try_catch, bind, getItem, lift, console_error, ret; cbn [read].
  destruct (notifications (storage w)) as [[s|parsed]|]; cbn [present parse_as stored_log];
    [destruct (String.eqb s EmptyString); cbn [negb] | |];
    eexists; repeat split.
  rewrite downloads_emit. apply app_nil_r.
Qed.

Lemma shouldAutoDownload_run (now : Z) (w : World) :
  exists w',
    shouldAutoDownload Date_parse now w = (Ok (due Date_parse now (storage w)), w') /\
    storage w' = storage w /\ rejects w' = rejects w /\
    data w' = data w /\
    downloads w' = downloads w.
Proof.
  unfold shouldAutoDownload, due. unfold bind at 1.
  destruct (getAutoDownloadSettings_frame w) as (w' & -> & H). cbv zeta.
  exists w'. split; [|exact H].
  destruct (AutoDownloadSettings.enabled _); cbn [negb andb]; [|reflexivity].
  destruct (blank _); reflexivity.
Qed.

(** [notificationInterval] as a function of whether a download is due and
    of the text that it builds. *)
Lemma notificationInterval_run (now : Z) (random : string) (ledger : value) (w : World) :
  let settings := stored_settings (auto_download_settings (storage w)) in
  let log := stored_log (notifications (storage w)) in
  exists w',
    notificationInterval toISOString Date_parse toString36 ToString now random ledger w
    = (Ok tt, w') /\
    if due Date_parse now (storage w) then
      stored_log (notifications (storage w'))
      = (if rejects w (key_name NOTIFICATIONS_KEY) then log
         else take 50 (entry toISOString toString36 (backup_completed now random) :: log)) /\
      match auto_download_text ToString (AutoDownloadSettings.format settings) ledger with
      | Ok content =>
          downloads w'
          = (downloads w
             ++ [("decoricks-finance-auto-backup-" +:+ before_T (toISOString now) +:+ "."
                    +:+ format_name (AutoDownloadSettings.format settings), content)])%list /\
          auto_download_settings (storage w')
          = (if rejects w (key_name AUTO_DOWNLOAD_KEY) then auto_download_settings (storage w)
             else Some (Encoded (with_lastDownload (toISOString now) settings)))
      | Throw _ =>
          downloads w' = downloads w /\
          auto_download_settings (storage w') = auto_download_settings (storage w)
      end
    else storage w' = storage w /\ downloads w' = downloads w.
Proof.
  cbv zeta. unfold notificationInterval. unfold bind at 1.
  destruct (getNotifications_frame w) as (w1 & -> & Hst1 & Hrj1 & Hd1 & Hdl1).
  unfold bind at 1.
  destruct (shouldAutoDownload_run now w1) as (w2 & -> & Hst2 & Hrj2 & Hd2 & Hdl2).
  rewrite Hst1.
  destruct (due Date_parse now (storage w)).
  2:{ exists w2. split; [reflexivity|]. split; congruence. }
  unfold bind at 1.
  destruct (triggerAutoDownload_run now ledger w2) as (w3 & -> & Hrj3 & Hd3 & H3).
  cbv zeta in H3. rewrite Hst2, Hst1, Hrj2, Hrj1, Hdl2, Hdl1 in H3.
  destruct (addNotification_frame (backup_completed now random) w3)
    as (w4 & E4 & Hst4 & Hrj4 & Hd4 & _ & _ & Hdl4).
  cbn [backup_completed Append.now Append.random Append.title Append.message Append.type] in E4.
  rewrite E4. exists w4. split; [reflexivity|].
  cbv zeta in Hst4. rewrite Hrj3, Hrj2, Hrj1 in Hst4.
  assert (Hlog3 : notifications (storage w3) = notifications (storage w)).
  { destruct (auto_download_text _ _ _); destruct H3 as [_ ->];
      [destruct (rejects w (key_name AUTO_DOWNLOAD_KEY))|]; reflexivity. }
  split.
  - rewrite Hst4. destruct (rejects w (key_name NOTIFICATIONS_KEY));
      cbn [write notifications stored_log]; rewrite Hlog3; reflexivity.
  - destruct (auto_download_text _ _ _); destruct H3 as [Hdl3 Hst3]; rewrite Hdl4, Hdl3;
      (split; [reflexivity|]); rewrite Hst4, Hst3;
      destruct (rejects w (key_name NOTIFICATIONS_KEY));
      try destruct (rejects w (key_name AUTO_DOWNLOAD_KEY)); reflexivity.
Qed.

(** X28.  The periodic check backs up the ledger of the first render, not the
    current one.  The callback that [App] installs holds the ledger of the
    first render, [{ transactions: [], categories: [] }]: whenever a
    download is due it downloads that empty ledger (JSON format) or the
    header row alone (CSV format), whatever ledger the application and the
    storage hold by then; building the text never fails, and the
    notification that the backup is completed is appended to the log (when
    the write of the log is accepted; otherwise the log stays as it was). *)
Theorem notificationInterval_backs_up_first_render (now : Z) (random : string) (w : World) :
  let settings := stored_settings (auto_download_settings (storage w)) in
  let log := stored_log (notifications (storage w)) in
  let tick :=
    installed_notificationInterval toISOString Date_parse toString36 ToString now random in
  due Date_parse now (storage w) = true ->
  outcome tick w = Ok tt /\
  downloads (after tick w)
  = (downloads w
     ++ [("decoricks-finance-auto-backup-" +:+ before_T (toISOString now) +:+ "."
            +:+ format_name (AutoDownloadSettings.format settings),
          match AutoDownloadSettings.format settings with
          | json => Encoded initial_data
          | csv => Garbled csv_header
          end)])%list /\
  stored_log (notifications (storage (after tick w)))
  = (if rejects w (key_name NOTIFICATIONS_KEY) then log
     else take 50 (entry toISOString toString36 (backup_completed now random) :: log)).
Proof.
  cbv zeta. intros Hdue. unfold outcome, after, installed_notificationInterval.
  destruct (notificationInterval_run now random initial_data w) as (w' & -> & H).
  cbv zeta in H. rewrite Hdue in H. destruct H as (Hlog & H). cbn [fst snd].
  split; [reflexivity|]. split; [|exact Hlog].
  destruct (AutoDownloadSettings.format
              (stored_settings (auto_download_settings (storage w))));
    cbn in H; destruct H as [Hdl _]; exact Hdl.
Qed.

(** X29.  The periodic check downloads once per interval: after a check at [now]
    that found a download due, built its text and stored the time stamp, a
    check at [now'], less than the interval later, downloads nothing and
    writes nothing. *)
Theorem notificationInterval_once_per_interval (now now' : Z) (random random' : string)
    (ledger ledger' : value) (content : text) (w : World) :
  let settings := stored_settings (auto_download_settings (storage w)) in
  let tick :=
    notificationInterval toISOString Date_parse toString36 ToString now random ledger in
  let tick' :=
    notificationInterval toISOString Date_parse toString36 ToString now' random' ledger' in
  due Date_parse now (storage w) = true ->
  auto_download_text ToString (AutoDownloadSettings.format settings) ledger = Ok content ->
  rejects w (key_name AUTO_DOWNLOAD_KEY) = false ->
  blank (toISOString now) = false ->
  Date_parse (toISOString now) = Some now ->
  (now' - now < AutoDownloadSettings.downloadInterval settings)%Z ->
  length (downloads (after tick w)) = S (length (downloads w)) /\
  downloads (after tick' (after tick w)) = downloads (after tick w) /\
  storage (after tick' (after tick w)) = storage (after tick w).
Proof.
  cbv zeta. intros Hdue Htext Hrj Hblank Hparse Hsoon. unfold after.
  destruct (notificationInterval_run now random ledger w) as (w1 & -> & H1).
  cbv zeta in H1. rewrite Hdue, Htext, Hrj in H1. destruct H1 as (_ & Hdl1 & Hauto1).
  cbn [snd].
  destruct (notificationInterval_run now' random' ledger' w1) as (w2 & -> & H2).
  cbv zeta in H2. cbn [snd].
  assert (Hnot : due Date_parse now' (storage w1) = false).
  { unfold due. rewrite Hauto1. cbn [stored_settings]. unfold with_lastDownload.
    cbn [AutoDownloadSettings.enabled AutoDownloadSettings.lastDownload
         AutoDownloadSettings.downloadInterval].
    rewrite Hblank, Hparse. cbn [orb time_diff ge].
    apply andb_false_iff. right. apply Z.leb_gt. exact Hsoon. }
  rewrite Hnot in H2. destruct H2 as [Hst2 Hdl2].
  split; [rewrite Hdl1, length_app; cbn [length]; lia|].
  split; assumption.
Qed.


(** ** The label of the next download *)

Lemma formatNextDownloadTime_outcome (now : Z) (w : World) :
  outcome (formatNextDownloadTime Date_parse ToString toLocaleDateString now) w
  = Ok (let settings := stored_settings (auto_download_settings (storage w)) in
        if negb (AutoDownloadSettings.enabled settings) then "Disabled"
        else if blank (AutoDownloadSettings.lastDownload settings) then "Soon (first backup)"
        else
          let nextDownload :=
            new_Date (plus (Date_parse (AutoDownloadSettings.lastDownload settings))
                           (AutoDownloadSettings.downloadInterval settings)) in
          if le nextDownload now then "Due now"
          else
            let diffDays := ceil_div (minus nextDownload now) (24 * 60 * 60 * 1000) in
            if equals diffDays 1 then "Tomorrow"
            else if lt diffDays 7 then
              "In " +:+ ToString (match diffDays with
                                  | Some n => VNum (Fin n)
                                  | None => VNum NaN
                                  end) +:+ " days"
            else toLocaleDateString nextDownload).
Proof.
  unfold outcome, formatNextDownloadTime. unfold bind at 1.
  destruct (getAutoDownloadSettings_frame w) as (w' & -> & _). cbv zeta.
  destruct (negb _); [reflexivity|].
  destruct (blank _); [reflexivity|].
  destruct (le _ _); [reflexivity|].
  destruct (equals _ _); [reflexivity|].
  destruct (lt _ _); reflexivity.
Qed.

(** X9.  The label and the check agree: whenever [shouldAutoDownload] finds a
    download due, [formatNextDownloadTime] says so, with ["Soon (first
    backup)"] before the first download and ["Due now"] after it; and when
    auto-download is disabled the label is ["Disabled"].  (The time of the
    next download has to be one that a [Date] can hold.) *)
Theorem formatNextDownloadTime_agrees_with_check (now : Z) (w : World) :
  let settings := stored_settings (auto_download_settings (storage w)) in
  let label := outcome (formatNextDownloadTime Date_parse ToString toLocaleDateString now) w in
  (Z.abs now <= MAX_TIME)%Z ->
  (forall t, Date_parse (AutoDownloadSettings.lastDownload settings) = Some t ->
             (- MAX_TIME <= t + AutoDownloadSettings.downloadInterval settings)%Z) ->
  (AutoDownloadSettings.enabled settings = false -> label = Ok "Disabled") /\
  (due Date_parse now (storage w) = true ->
   label = Ok (if blank (AutoDownloadSettings.lastDownload settings)
               then "Soon (first backup)" else "Due now")) /\
  (AutoDownloadSettings.enabled settings = true ->
   due Date_parse now (storage w) = false ->
   label = Ok "Tomorrow" \/
   (exists n, label = Ok ("In " +:+ ToString (VNum (Fin n)) +:+ " days")) \/
   (exists next, label = Ok (toLocaleDateString next))).
Proof.
  cbv zeta. intros Hnow Hrange. rewrite formatNextDownloadTime_outcome. cbv zeta.
  unfold due.
  set (settings := stored_settings (auto_download_settings (storage w))) in *.
  destruct (AutoDownloadSettings.enabled settings); cbn [negb andb].
  2:{ split; [reflexivity|]. split; discriminate. }
  split; [discriminate|].
  destruct (blank (AutoDownloadSettings.lastDownload settings)); cbn [orb].
  { split; [reflexivity|]. discriminate. }
  destruct (Date_parse (AutoDownloadSettings.lastDownload settings)) as [t|] eqn:Hp;
    cbn [time_diff ge plus new_Date].
  - specialize (Hrange t eq_refl).
    set (interval := AutoDownloadSettings.downloadInterval settings) in *.
    destruct (Z.leb_spec interval (now - t)) as [Hdue|Hnot].
    + split; [intros _|discriminate].
      assert (Hin : (Z.abs (t + interval) <=? MAX_TIME)%Z = true) by (apply Z.leb_le; lia).
      rewrite Hin. cbn [le].
      assert (Hle : (t + interval <=? now)%Z = true) by (apply Z.leb_le; lia).
      rewrite Hle. reflexivity.
    + split; [discriminate|]. intros _ _.
      destruct (Z.abs (t + interval) <=? MAX_TIME)%Z; cbn [le minus ceil_div equals lt].
      * assert (Hle : (t + interval <=? now)%Z = false) by (apply Z.leb_gt; lia).
        rewrite Hle.
        destruct (_ =? 1)%Z; [left; reflexivity|].
        destruct (_ <? 7)%Z; right; [left|right]; eexists; reflexivity.
      * right. right. eexists. reflexivity.
  - split; [discriminate|]. intros _ _. cbn [le minus ceil_div equals lt].
    right. right. eexists. reflexivity.
Qed.

Lemma ceil_div_days (a b n : Z) :
  (0 < b)%Z -> (- ((- a) / b) = n)%Z <-> ((n - 1) * b < a <= n * b)%Z.
Proof.
  intros Hb. split.
  - intros <-. pose proof (Z.div_mod (- a) b ltac:(lia)) as Hdm.
    pose proof (Z.mod_pos_bound (- a) b Hb) as Hmod. nia.
  - intros [Hlo Hhi]. assert (H : ((- a) / b = - n)%Z); [|lia].
    symmetry. apply (Z.div_unique_pos (- a) b (- n) (n * b - a)); lia.
Qed.

(** X10.  Between two downloads the label counts whole days, rounded up: with
    [remaining] milliseconds to go, it is ["Tomorrow"] up to one day, ["In n
    days"] for the [n] from 2 to 6 with [n - 1] days [< remaining <= n]
    days, and the date of the next download beyond six days. *)
Theorem formatNextDownloadTime_counts_days (now t : Z) (w : World) :
  let settings := stored_settings (auto_download_settings (storage w)) in
  let next := (t + AutoDownloadSettings.downloadInterval settings)%Z in
  let remaining := (next - now)%Z in
  let day := (24 * 60 * 60 * 1000)%Z in
  AutoDownloadSettings.enabled settings = true ->
  blank (AutoDownloadSettings.lastDownload settings) = false ->
  Date_parse (AutoDownloadSettings.lastDownload settings) = Some t ->
  (Z.abs next <= MAX_TIME)%Z ->
  (0 < remaining)%Z ->
  exists n,
    ((n - 1) * day < remaining <= n * day)%Z /\
    outcome (formatNextDownloadTime Date_parse ToString toLocaleDateString now) w
    = Ok (if (n =? 1)%Z then "Tomorrow"
          else if (n <? 7)%Z then "In " +:+ ToString (VNum (Fin n)) +:+ " days"
          else toLocaleDateString (Some next)).
Proof.
  cbv zeta. intros Hen Hblank Hparse Hrange Hrem.
  rewrite formatNextDownloadTime_outcome. cbv zeta.
  rewrite Hen, Hblank, Hparse. cbn [negb plus new_Date].
  apply Z.leb_le in Hrange. rewrite Hrange. cbn [le minus ceil_div equals lt].
  set (next := (t + _)%Z) in *.
  assert (Hle : (next <=? now)%Z = false) by (apply Z.leb_gt; lia).
  rewrite Hle.
  exists (- ((- (next - now)) / (24 * 60 * 60 * 1000)))%Z.
  split; [|reflexivity].
  apply ceil_div_days; [lia | reflexivity].
Qed.


End Properties.

(** ** The claims at sample inputs *)

Lemma loadData_degrades_to_empty_witness :
  (exists v, outcome (loadData sample_categories) fresh_world = Ok v) /\
  outcome (loadData sample_categories) fresh_world = Ok (empty_ledger sample_categories).
Proof.
  destruct (loadData_degrades_to_empty sample_categories fresh_world) as [H1 H2].
  split; [exact H1 | apply H2; reflexivity].
Defined.

(** With a corrupt primary item and a backup that has no [categories] field,
    the load returns the backup's transaction and the default categories. *)
Lemma loadData_falls_back_to_backup_witness :
  outcome (loadData sample_categories) corrupt_primary_world
  = Ok (VObj [("transactions", VArr [VObj [("id", VStr "t1"); ("category", VStr "Rent")]]);
              ("categories", value_of_categories sample_categories)]).
Proof.
  apply (loadData_falls_back_to_backup sample_categories corrupt_primary_world
           (Encoded rent_payload) rent_payload); reflexivity.
Defined.

(** C3 fails as stated: the backup has a [categories] field, which holds
    [null], and the load returns the default categories, not that field. *)
Lemma loadData_replaces_null_categories :
  unusable (finance_data (storage null_categories_world)) = true /\
  finance_backup (storage null_categories_world) = Some (Encoded null_categories_payload) /\
  parse_text (Encoded null_categories_payload) = Ok null_categories_payload /\
  field (backup_fields sample_categories null_categories_payload) "categories" = VNull /\
  outcome (loadData sample_categories) null_categories_world
  <> Ok (backup_fields sample_categories null_categories_payload).
Proof. repeat split. vm_compute. discriminate. Qed.

Lemma saveData_write_sequence_witness :
  let save := saveData sample_toISOString sample_JSON_length sample_now
                (value_of_AppData rent_ledger) in
  outcome save (quota_world (key_name BACKUP_KEY)) = Ok tt /\
  events save (quota_world (key_name BACKUP_KEY))
  = [SetItem (key_name STORAGE_KEY) true;
     SetItem (key_name BACKUP_KEY) false;
     ConsoleError "Error saving data:";
     SetItem (key_name SESSION_KEY) true;
     Alert "Data saved to session storage as backup. Please export your data for safety."] /\
  attempted META_KEY save (quota_world (key_name BACKUP_KEY)) = false.
Proof.
  destruct (saveData_write_sequence sample_toISOString sample_JSON_length sample_now
              (value_of_AppData rent_ledger) (quota_world (key_name BACKUP_KEY)) eq_refl)
    as (H1 & H2 & _ & _ & _ & H6 & _).
  cbv zeta. split; [exact H1 | split; [exact H2 | exact H6]].
Defined.

(** C1 fails as stated: when the primary write is the one that fails, the
    backup and metadata writes are never attempted. *)
Lemma saveData_skips_writes_after_failure :
  ~ writes_independent sample_toISOString sample_JSON_length sample_now
      (value_of_AppData rent_ledger) (quota_world (key_name STORAGE_KEY))
      (key_name STORAGE_KEY).
Proof.
  intros H. destruct (H eq_refl (fun _ => eq_refl)) as (_ & Hb & _). vm_compute in Hb.
  discriminate.
Qed.

Lemma saveData_abandons_invalid_witness :
  let save := saveData sample_toISOString sample_JSON_length sample_now
                (VObj [("transactions", VArr [])]) in
  outcome save fresh_world = Ok tt /\
  storage (after save fresh_world) = storage fresh_world /\
  events save fresh_world = [ConsoleError "Invalid data structure for saving"].
Proof.
  apply (saveData_abandons_invalid sample_toISOString sample_JSON_length sample_now
           (VObj [("transactions", VArr [])]) fresh_world).
  reflexivity.
Defined.



(** A day after the last download, with a seven-day interval, no download
    is due. *)
Lemma shouldAutoDownload_due_witness :
  exists due,
    outcome (shouldAutoDownload sample_Date_parse sample_now) day_old_world = Ok due /\
    (due = true <->
     true = true /\
     ("2024-01-04T10:00:00.000Z" = EmptyString \/
      exists last,
        sample_Date_parse "2024-01-04T10:00:00.000Z" = Some last /\
        604800000 <= sample_now - last)).
Proof.
  apply (shouldAutoDownload_due sample_Date_parse sample_now day_old_settings day_old_world).
  reflexivity.
Defined.

Lemma fresh_settings_are_due_witness :
  outcome getAutoDownloadSettings fresh_world
  = Ok (AutoDownloadSettings.mk true EmptyString 604800000 json) /\
  outcome (shouldAutoDownload sample_Date_parse sample_now) fresh_world = Ok true.
Proof.
  apply (fresh_settings_are_due sample_Date_parse sample_now fresh_world). reflexivity.
Defined.



(** The specification's scenario: a payload without [categories]. *)
Lemma import_replaces_or_rejects_witness :
  let import :=
    import_file sample_toISOString sample_toString36 sample_JSON_length sample_ToString
      sample_now "k2x9" (Some no_categories_file) in
  data (after import fresh_world) = data fresh_world /\
  storage (after import fresh_world) = storage fresh_world /\
  exists msg, events import fresh_world = [Alert msg].
Proof.
  apply (import_replaces_or_rejects sample_toISOString sample_toString36 sample_JSON_length
           sample_ToString sample_now "k2x9" no_categories_file fresh_world).
  reflexivity.
Defined.

Lemma export_import_round_trip_witness :
  exists filename content,
    events (exportToJSON sample_toISOString sample_now (value_of_AppData rent_ledger))
      fresh_world
    = [Download filename content] /\
    importable content = true /\
    data (after (import_file sample_toISOString sample_toString36 sample_JSON_length
                   sample_ToString sample_now "k2x9" (Some content)) fresh_world)
    = value_of_AppData rent_ledger.
Proof.
  apply (export_import_round_trip sample_toISOString sample_toString36 sample_JSON_length
           sample_ToString sample_now sample_now "k2x9" rent_ledger fresh_world fresh_world).
  reflexivity.
Defined.

(** C6 fails as stated: an amount that is [NaN] is exported as [null], and
    the imported ledger differs from the exported one. *)
Lemma export_import_loses_nan :
  ~ round_trip_as_stated sample_toISOString sample_toString36 sample_JSON_length
      sample_ToString sample_now "k2x9" nan_ledger fresh_world fresh_world.
Proof.
  intros H. destruct (H _ _ eq_refl) as [_ Hd]. vm_compute in Hd. discriminate.
Qed.


(** ** The further properties at sample inputs *)

(** Marking the welcome notification leaves the other one unread. *)
Lemma markNotificationAsRead_flips_only_matching_witness :
  let mark := markNotificationAsRead "lr0eo0g0a1b2" in
  outcome mark two_unread_world = Ok tt /\
  Forall2 (fun n n' =>
             same_but_read n n' /\
             AppNotification.read n'
             = AppNotification.read n || String.eqb (AppNotification.id n) "lr0eo0g0a1b2")
          [rent_added; welcome]
          (stored_log (notifications (storage (after mark two_unread_world)))).
Proof.
  destruct (markNotificationAsRead_flips_only_matching "lr0eo0g0a1b2" two_unread_world eq_refl)
    as (H1 & H2 & _).
  split; [exact H1 | exact H2].
Defined.


Lemma clear_then_add_leaves_one_witness :
  let a := Append.mk sample_now "k2x9" "Transaction Added" "Rent" success in
  stored_log
    (notifications
       (storage
          (after (addNotification sample_toISOString sample_toString36 (Append.now a)
                    (Append.random a) (Append.title a) (Append.message a) (Append.type a))
             (after clearAllNotifications two_unread_world))))
  = [entry sample_toISOString sample_toString36 a].
Proof.
  exact (clear_then_add_leaves_one sample_toISOString sample_toString36
           (Append.mk sample_now "k2x9" "Transaction Added" "Rent" success)
           two_unread_world eq_refl).
Defined.

(** The first automatic backup of the rent ledger. *)
Lemma triggerAutoDownload_downloads_and_stamps_witness :
  let trigger :=
    triggerAutoDownload sample_toISOString sample_ToString sample_now
      (value_of_AppData rent_ledger) in
  outcome trigger fresh_world = Ok tt /\
  downloads (after trigger fresh_world)
  = [("decoricks-finance-auto-backup-2024-01-05.json", Encoded (value_of_AppData rent_ledger))] /\
  stored_settings (auto_download_settings (storage (after trigger fresh_world)))
  = AutoDownloadSettings.mk true "2024-01-05T10:00:00.000Z" WEEK_IN_MS json.
Proof.
  destruct (triggerAutoDownload_downloads_and_stamps sample_toISOString sample_ToString
              sample_now (value_of_AppData rent_ledger)
              (Encoded (value_of_AppData rent_ledger)) fresh_world eq_refl)
    as (H1 & H2 & H3 & _).
  split; [exact H1 | split; [exact H2 | exact H3]].
Defined.

(** A CSV backup of a ledger whose transactions are a number. *)
Lemma triggerAutoDownload_failure_keeps_due_witness :
  let trigger :=
    triggerAutoDownload sample_toISOString sample_ToString sample_now count_payload in
  outcome trigger csv_world = Ok tt /\
  downloads (after trigger csv_world) = [] /\
  storage (after trigger csv_world) = storage csv_world.
Proof.
  destruct (triggerAutoDownload_failure_keeps_due sample_toISOString sample_Date_parse
              sample_ToString sample_now sample_now count_payload TypeError csv_world eq_refl)
    as (H1 & H2 & H3 & _).
  split; [exact H1 | split; [exact H2 | exact H3]].
Defined.

(** A week after the first backup the next one is due. *)
Lemma auto_download_due_after_interval_witness :
  outcome (shouldAutoDownload sample_Date_parse (sample_now + WEEK_IN_MS))
    (after (triggerAutoDownload sample_toISOString sample_ToString sample_now
              (value_of_AppData rent_ledger)) fresh_world)
  = Ok true.
Proof.
  exact (auto_download_due_after_interval sample_toISOString sample_Date_parse sample_ToString
           sample_now (sample_now + WEEK_IN_MS) (value_of_AppData rent_ledger)
           (Encoded (value_of_AppData rent_ledger)) fresh_world
           eq_refl eq_refl eq_refl eq_refl eq_refl).
Defined.

(** More than a week after the last download the label is ["Due now"]. *)
Lemma formatNextDownloadTime_agrees_with_check_witness :
  outcome (formatNextDownloadTime sample_Date_parse sample_ToString sample_toLocaleDateString
             sample_now) csv_world
  = Ok "Due now".
Proof.
  refine (proj1 (proj2 (formatNextDownloadTime_agrees_with_check sample_Date_parse
                          sample_ToString sample_toLocaleDateString sample_now csv_world
                          _ _)) eq_refl).
  - apply Z.leb_le. reflexivity.
  - intros t Ht.
    change (Some 1701424800000%Z = Some t) in Ht. injection Ht as <-.
    apply Z.leb_le. reflexivity.
Defined.

(** A day after the last download, six days remain of the week. *)
Lemma formatNextDownloadTime_counts_days_witness :
  exists n,
    ((n - 1) * (24 * 60 * 60 * 1000) < 6 * (24 * 60 * 60 * 1000) <= n * (24 * 60 * 60 * 1000))%Z /\
    outcome (formatNextDownloadTime sample_Date_parse sample_ToString
               sample_toLocaleDateString sample_now) day_old_world
    = Ok (if (n =? 1)%Z then "Tomorrow"
          else if (n <? 7)%Z then "In " +:+ sample_ToString (VNum (Fin n)) +:+ " days"
          else sample_toLocaleDateString (Some (sample_now + 6 * (24 * 60 * 60 * 1000))%Z)).
Proof.
  refine (formatNextDownloadTime_counts_days sample_Date_parse sample_ToString
            sample_toLocaleDateString sample_now (sample_now - 24 * 60 * 60 * 1000)
            day_old_world eq_refl eq_refl eq_refl _ _).
  - apply Z.leb_le. reflexivity.
  - reflexivity.
Defined.

Lemma load_after_save_witness :
  outcome (loadData sample_categories)
    (after (saveData sample_toISOString sample_JSON_length sample_now
              (value_of_AppData rent_ledger)) (quota_world (key_name META_KEY)))
  = Ok (value_of_AppData rent_ledger).
Proof.
  apply (load_after_save sample_categories sample_toISOString sample_JSON_length sample_now
           rent_ledger (quota_world (key_name META_KEY))); reflexivity.
Defined.

(** Only the session copy is left, and it has no categories. *)
Lemma loadData_reads_session_last_witness :
  outcome (loadData sample_categories)
    (with_storage (write SESSION_KEY (Some (Encoded rent_payload))) fresh_world)
  = Ok (VObj [("transactions", VArr [VObj [("id", VStr "t1"); ("category", VStr "Rent")]]);
              ("categories", value_of_categories sample_categories)]).
Proof.
  apply (loadData_reads_session_last sample_categories
           (with_storage (write SESSION_KEY (Some (Encoded rent_payload))) fresh_world)
           (Encoded rent_payload) rent_payload); reflexivity.
Defined.

(** A corrupt primary item and no backup: the session copy of the rent
    ledger is not loaded. *)
Lemma loadData_ignores_session_otherwise_witness :
  let corrupt := with_storage (write STORAGE_KEY (Some (Garbled "{oops"))) fresh_world in
  outcome (loadData sample_categories)
    (with_storage (write SESSION_KEY (Some (Encoded (value_of_AppData rent_ledger)))) corrupt)
  = Ok (empty_ledger sample_categories).
Proof.
  exact (loadData_ignores_session_otherwise sample_categories
           (with_storage (write STORAGE_KEY (Some (Garbled "{oops"))) fresh_world)
           (Some (Encoded (value_of_AppData rent_ledger))) eq_refl).
Defined.

(** A ledger whose transactions are a number is stored all the same. *)
Lemma handleSaveData_bypasses_validation_witness :
  storage (after (saveData sample_toISOString sample_JSON_length sample_now count_payload)
             fresh_world)
  = storage fresh_world /\
  finance_data
    (storage (after (handleSaveData sample_toISOString sample_JSON_length sample_now
                       count_payload) fresh_world))
  = Some (Encoded count_payload).
Proof.
  destruct (handleSaveData_bypasses_validation sample_toISOString sample_JSON_length
              sample_now count_payload fresh_world eq_refl eq_refl eq_refl eq_refl)
    as (H1 & _ & H3 & _).
  split; [exact H1 | exact H3].
Defined.

Lemma initializeSession_first_run_witness :
  live_tracking
    (storage (after (initializeSession sample_toISOString sample_Date_parse sample_now)
                fresh_world))
  = Some (Encoded
            (LiveTrackingData.mk "2024-01-05T10:00:00.000Z" 1 0 0 0 0 0
               "2024-01-05T10:00:00.000Z" ∅)).
Proof.
  exact (initializeSession_first_run sample_toISOString sample_Date_parse sample_now
           fresh_world eq_refl eq_refl eq_refl).
Defined.






Lemma delete_undoes_add_witness :
  data (after (handleDeleteTransaction sample_toISOString sample_toString36
                 sample_JSON_length true two_hours_later "m4n5" "lr0gt999e5f6")
          (after (handleSaveTransaction sample_toISOString sample_toString36
                    sample_JSON_length sample_toLocaleString (UI.mk None Tab.add)
                    sample_now "k2x9" coffee) rent_world))
  = value_of_AppData rent_ledger.
Proof.
  apply (delete_undoes_add sample_toISOString sample_toString36 sample_JSON_length
           sample_toLocaleString (UI.mk None Tab.add) sample_now two_hours_later
           "k2x9" "m4n5" coffee rent_ledger rent_world eq_refl eq_refl).
  constructor; [discriminate | constructor].
Defined.

Lemma handleAddCategory_appends_witness :
  let add :=
    handleAddCategory sample_toISOString sample_toString36 sample_JSON_length sample_now
      "k2x9" (Category.mk "Supplies" expense) in
  data (after add rent_world)
  = value_of_AppData
      (AppData.mk (AppData.transactions rent_ledger)
         (sample_categories ++ [Category.mk "Supplies" expense])) /\
  live_tracking (storage (after add rent_world)) = None.
Proof.
  destruct (handleAddCategory_appends sample_categories sample_toISOString sample_toString36
              sample_JSON_length sample_now "k2x9" (Category.mk "Supplies" expense)
              rent_ledger rent_world eq_refl)
    as (_ & H2 & H3 & _).
  split; [exact H2 | exact H3].
Defined.

(** After the import of a file whose transactions are the number 5, adding
    a transaction raises. *)
Lemma import_of_non_array_breaks_handlers_witness :
  let w' :=
    after (import_file sample_toISOString sample_toString36 sample_JSON_length
             sample_ToString sample_now "k2x9" (Some count_file)) fresh_world in
  data w' = count_payload /\
  handleSaveTransaction sample_toISOString sample_toString36 sample_JSON_length
    sample_toLocaleString (UI.mk None Tab.add) two_hours_later "m4n5" coffee w'
  = (Throw TypeError, w').
Proof.
  destruct (import_of_non_array_breaks_handlers sample_toISOString sample_toString36
              sample_JSON_length sample_ToString sample_toLocaleString sample_now "k2x9"
              count_file count_payload fresh_world eq_refl eq_refl eq_refl eq_refl)
    as [H1 H2].
  split; [exact H1|].
  exact (proj1 (H2 (UI.mk None Tab.add) two_hours_later "m4n5" EmptyString coffee)).
Defined.

(** The CSV export of the coffee. *)
Lemma csv_export_is_not_importable_witness :
  exists filename rest,
    events (exportToCSV sample_toISOString sample_ToString sample_now
              (VArr [value_of_Transaction coffee])) fresh_world
    = [Download filename
         (Garbled ("Date,Type,Category,Amount,Currency,Description" +:+ newline
                   +:+ "2024-01-05,expense," +:+ double_quote +:+ "Supplies" +:+ double_quote
                   +:+ ",3,USD," +:+ double_quote +:+ "Coffee" +:+ double_quote))] /\
    "Date,Type,Category,Amount,Currency,Description" +:+ newline
      +:+ "2024-01-05,expense," +:+ double_quote +:+ "Supplies" +:+ double_quote
      +:+ ",3,USD," +:+ double_quote +:+ "Coffee" +:+ double_quote
    = csv_header +:+ rest /\
    import_file sample_toISOString sample_toString36 sample_JSON_length sample_ToString
      two_hours_later "m4n5"
      (Some (file_of sample_JSON_parse
               ("Date,Type,Category,Amount,Currency,Description" +:+ newline
                +:+ "2024-01-05,expense," +:+ double_quote +:+ "Supplies" +:+ double_quote
                +:+ ",3,USD," +:+ double_quote +:+ "Coffee" +:+ double_quote)))
      rent_world
    = (Ok tt, emit (Alert "Error importing data. Please check the file format.") rent_world).
Proof.
  destruct (csv_export_is_not_importable sample_toISOString sample_toString36
              sample_JSON_length sample_ToString sample_JSON_parse sample_now two_hours_later
              "m4n5" (VArr [value_of_Transaction coffee])
              ("Date,Type,Category,Amount,Currency,Description" +:+ newline
               +:+ "2024-01-05,expense," +:+ double_quote +:+ "Supplies" +:+ double_quote
               +:+ ",3,USD," +:+ double_quote +:+ "Coffee" +:+ double_quote)
              fresh_world rent_world (fun rest => eq_refl) eq_refl)
    as (filename & rest & H1 & H2 & _ & H4).
  exists filename, rest. split; [exact H1 | split; [exact H2 | exact H4]].
Defined.

(** With the rent ledger loaded, the backup that is due downloads the empty
    ledger of the first render. *)
Lemma notificationInterval_backs_up_first_render_witness :
  let tick :=
    installed_notificationInterval sample_toISOString sample_Date_parse sample_toString36
      sample_ToString sample_now "k2x9" in
  data rent_world = value_of_AppData rent_ledger /\
  downloads (after tick rent_world)
  = [("decoricks-finance-auto-backup-2024-01-05.json",
      Encoded (VObj [("transactions", VArr []); ("categories", VArr [])]))].
Proof.
  split; [reflexivity|].
  exact (proj1 (proj2 (notificationInterval_backs_up_first_render sample_toISOString
                         sample_Date_parse sample_toString36 sample_ToString sample_now
                         "k2x9" rent_world eq_refl))).
Defined.

(** The first check downloads the backup; the check two hours later does
    nothing. *)
Lemma notificationInterval_once_per_interval_witness :
  let tick :=
    notificationInterval sample_toISOString sample_Date_parse sample_toString36
      sample_ToString sample_now "k2x9" (value_of_AppData rent_ledger) in
  let tick' :=
    notificationInterval sample_toISOString sample_Date_parse sample_toString36
      sample_ToString two_hours_later "m4n5" (value_of_AppData rent_ledger) in
  length (downloads (after tick fresh_world)) = 1%nat /\
  downloads (after tick' (after tick fresh_world)) = downloads (after tick fresh_world) /\
  storage (after tick' (after tick fresh_world)) = storage (after tick fresh_world).
Proof.
  refine (notificationInterval_once_per_interval sample_toISOString sample_Date_parse
            sample_toString36 sample_ToString sample_now two_hours_later "k2x9" "m4n5"
            (value_of_AppData rent_ledger) (value_of_AppData rent_ledger)
            (Encoded (value_of_AppData rent_ledger)) fresh_world
            eq_refl eq_refl eq_refl eq_refl eq_refl _).
  reflexivity.
Defined.


(** ** Scenarios *)

(** Save the ledger with one rent payment, then load: the ledger returned
    holds exactly that transaction, its id preserved. *)
Example save_then_load :
  outcome (loadData sample_categories)
    (after (saveData sample_toISOString sample_JSON_length sample_now
              (value_of_AppData rent_ledger)) fresh_world)
  = Ok (value_of_AppData rent_ledger).
Proof. reflexivity. Qed.

(** With nothing in the primary and backup locations, the load takes the
    session copy. *)
Example load_from_session :
  outcome (loadData sample_categories)
    (with_storage (write SESSION_KEY (Some (Encoded (value_of_AppData rent_ledger))))
       fresh_world)
  = Ok (value_of_AppData rent_ledger).
Proof. reflexivity. Qed.

(** What [saveData] leaves under the metadata key. *)
Example saved_metadata :
  finance_meta
    (storage (after (saveData sample_toISOString sample_JSON_length sample_now
                       (value_of_AppData rent_ledger)) fresh_world))
  = Some (Encoded (VObj [("transactionCount", VNum (Fin 1));
                         ("categoryCount", VNum (Fin 2));
                         ("lastSaved", VStr "2024-01-05T10:00:00.000Z");
                         ("checksum", VNum (Fin 243))])).
Proof. reflexivity. Qed.
